(** * process_video.py: a shallow embedding and its verified properties

    The development follows [src/process_video.py]: the filename sanitiser,
    the checkpoint store, the three-tier silence removal, the transcription
    wrapper, the highlight summariser and the orchestrator [main]. The
    converter of [src/convert_existing_audio.py] comes last, in a module of
    its name.

    Conventions of the embedding.
    - A Python [str] is a [string]; a character is an [ascii], read as the
      code point of the same number (code points below 256).
    - A Python [dict] with string keys is a [gmap string _].
    - The values that [json.load] gives for the keys of a segment and of a
      checkpoint are scalars, [pyval]: [None], a boolean, a number or a
      string; a list or a dict as such a value is not modelled. Numbers are
      modelled by [Z] (the integer case), with [//] as [Z.div] and [%] as
      [Z.modulo]; a boolean counts as a number, as in Python. What
      [json.load] gives for the checkpoint file is a [json_value]: a dict or
      not. A transcription file that parses holds a list of dicts.
    - Effects (the file system and the calls of the stage functions) are
      threaded through a state-and-exception monad [M]. Exceptions are the
      subclasses of [Exception]; an interrupt from the keyboard is not one
      of them and is not modelled.
    - External collaborators (yt_dlp, pydub, ffmpeg, whisper and the [json]
      module) are fields of an environment record [Env]. A run of ffmpeg
      through [subprocess.run] ends with exit status 0 and an output file,
      or with an exception, any exception, and what it has left at its
      output path. yt_dlp writes and removes files in its output directory
      and below; what it leaves behind when it raises is not modelled.
    - Messages printed to the terminal are left out. Folders are not
      modelled: whether a file can be created at a path is a component of
      the world. *)

From Stdlib Require Import ZArith Lia Ascii String List.
From stdpp Require Import base gmap strings list pretty.

Local Open Scope Z_scope.

(* ===================================================================== *)
(** ** Python strings *)
(* ===================================================================== *)

Module PyStr.

(** The newline character, as a string. *)
Definition nl : string := String (ascii_of_nat 10) "".

(** UTF-8 bytes of a non-ASCII literal of the source. *)
Definition of_bytes (l : list nat) : string :=
  fold_right (fun n s => String (ascii_of_nat n) s) "" l.

Definition chars (s : string) : list ascii := String.list_ascii_of_string s.

(** The character class [\s] of [re] on a [str] pattern, restricted to the
    code points below 256: TAB..CR, FS..US, SPACE, NEL and NBSP. *)
Definition isspace (c : ascii) : bool :=
  let n := nat_of_ascii c in
  ((9 <=? n) && (n <=? 13) || (28 <=? n) && (n <=? 32)
   || (n =? 133) || (n =? 160))%nat.

(** The character class of the first substitution: the nine characters
    less-than, greater-than, colon, double quote, slash, backslash, bar,
    question mark and star. *)
Definition is_invalid (c : ascii) : bool :=
  let n := nat_of_ascii c in
  ((n =? 60) || (n =? 62) || (n =? 58) || (n =? 34) || (n =? 47)
   || (n =? 92) || (n =? 124) || (n =? 63) || (n =? 42))%nat.

(** [re.sub] of that class by the empty string. *)
Fixpoint remove_invalid (s : string) : string :=
  match s with
  | EmptyString => EmptyString
  | String c s' =>
      if is_invalid c then remove_invalid s' else String c (remove_invalid s')
  end.

(** [re.sub(r'\s+', '_', s)]: every maximal run of whitespace becomes one
    underscore. [in_run] tells that the previous character was whitespace. *)
Fixpoint sub_spaces (in_run : bool) (s : string) : string :=
  match s with
  | EmptyString => EmptyString
  | String c s' =>
      if isspace c
      then (if in_run then sub_spaces true s'
            else String "_"%char (sub_spaces true s'))
      else String c (sub_spaces false s')
  end.

(** The characters of [strip('. ')]. *)
Definition is_dot_or_space (c : ascii) : bool :=
  let n := nat_of_ascii c in ((n =? 46) || (n =? 32))%nat.

Fixpoint lstrip (p : ascii -> bool) (s : string) : string :=
  match s with
  | EmptyString => EmptyString
  | String c s' => if p c then lstrip p s' else s
  end.

Fixpoint rstrip (p : ascii -> bool) (s : string) : string :=
  match s with
  | EmptyString => EmptyString
  | String c s' =>
      match rstrip p s' with
      | EmptyString => if p c then EmptyString else String c EmptyString
      | r => String c r
      end
  end.

(** [s.strip(chars)] *)
Definition strip (p : ascii -> bool) (s : string) : string :=
  rstrip p (lstrip p s).

(** [s[:n]] *)
Definition prefix (n : nat) (s : string) : string := String.substring 0 n s.

Definition first_char (s : string) : option ascii :=
  match s with EmptyString => None | String c _ => Some c end.

Fixpoint last_char (s : string) : option ascii :=
  match s with
  | EmptyString => None
  | String c EmptyString => Some c
  | String _ s' => last_char s'
  end.

(** The format specification [02d] of an f-string: at least two
    characters, padded with zeros; a sign counts as a character. *)
Definition fmt02d (z : Z) : string :=
  if (0 <=? z) && (z <? 10) then "0" +:+ pretty z else pretty z.

(** [sep.join(l)] *)
Fixpoint join (sep : string) (l : list string) : string :=
  match l with
  | [] => ""
  | [x] => x
  | x :: l' => x +:+ sep +:+ join sep l'
  end.

(** [join] with the empty separator. *)
Definition concat (l : list string) : string :=
  fold_right String.append "" l.

End PyStr.

(* ===================================================================== *)
(** ** sanitize_filename *)
(* ===================================================================== *)

Definition sanitize_filename (title : string) : string :=
  let sanitized := PyStr.remove_invalid title in
  let sanitized := PyStr.sub_spaces false sanitized in
  let sanitized := PyStr.strip PyStr.is_dot_or_space sanitized in
  if (200 <? String.length sanitized)%nat
  then PyStr.prefix 200 sanitized
  else sanitized.

(* ===================================================================== *)
(** ** os.path (POSIX) *)
(* ===================================================================== *)

Module os_path.

Definition startswith (pre s : string) : bool := String.prefix pre s.

Definition endswith (suf s : string) : bool :=
  String.prefix (String.rev suf) (String.rev s).

(** [os.path.join(a, b)] *)
Definition join (a b : string) : string :=
  if startswith "/" b then b
  else if (String.length a =? 0)%nat || endswith "/" a then a +:+ b
  else a +:+ "/" +:+ b.

(** [s.rfind(c)], [-1] when [c] does not occur. *)
Fixpoint rfind_from (c : ascii) (s : string) (i acc : Z) : Z :=
  match s with
  | EmptyString => acc
  | String d s' => rfind_from c s' (i + 1) (if Ascii.eqb c d then i else acc)
  end.
Definition rfind (c : ascii) (s : string) : Z := rfind_from c s 0 (-1).

(** [s[a:b]] for [0 <= a]. *)
Definition slice (a b : Z) (s : string) : string :=
  String.substring (Z.to_nat a) (Z.to_nat (b - a)) s.

(** The [while] loop of [genericpath._splitext]: is there a character
    other than the dot in [p[i:dotIndex]]? *)
Definition has_non_dot (s : string) : bool :=
  existsb (fun c => negb (Ascii.eqb c ".")) (PyStr.chars s).

(** [os.path.splitext(p)[0]] *)
Definition splitext_root (p : string) : string :=
  let sepIndex := rfind "/" p in
  let dotIndex := rfind "." p in
  if (sepIndex <? dotIndex) && has_non_dot (slice (sepIndex + 1) dotIndex p)
  then slice 0 dotIndex p
  else p.

End os_path.

(* ===================================================================== *)
(** ** Data model *)
(* ===================================================================== *)

(** The values stored in a checkpoint: [None], booleans, integers, strings. *)
Inductive pyval : Type :=
| VNone
| VBool (b : bool)
| VInt (z : Z)
| VStr (s : string).

#[global] Instance pyval_eq_dec : EqDecision pyval.
Proof. solve_decision. Defined.

(** Python truthiness, as used by [and] and [if]. *)
Definition truthy (v : pyval) : bool :=
  match v with
  | VNone => false
  | VBool b => b
  | VInt z => negb (z =? 0)
  | VStr s => negb (String.length s =? 0)%nat
  end.

(** The checkpoint is a [dict] from key to value. *)
Abbreviation Checkpoint := (gmap string pyval).

(** [d.get(key, default)] *)
Definition dict_get (d : Checkpoint) (key : string) (default : pyval) : pyval :=
  match d !! key with
  | Some v => v
  | None => default
  end.

(** What [json.load] returns for a checkpoint file: a dict, or a value of
    another kind (null, a boolean, a number, a string) or a list. *)
Inductive json_value : Type :=
| JDict (state : Checkpoint)
| JScalar (v : pyval)
| JList.

(** A transcript segment is a [dict] with the keys [start], [end] and [text].
    In a segment read back from disk a key may be missing, and the value
    under a key may be any scalar: a time need not be a number, nor a text
    a string. *)
Record Segment : Type := {
  seg_start : option pyval;
  seg_end : option pyval;
  seg_text : option pyval;
}.

#[global] Instance Segment_eq_dec : EqDecision Segment.
Proof. solve_decision. Defined.

(** What the ASR engines hand back for one segment, before [strip()]. *)
Record RawSegment : Type := {
  raw_start : Z;
  raw_end : Z;
  raw_text : string;
}.

(** An [AudioSegment]: its samples, one per millisecond. *)
Abbreviation Audio := (list Z).

(** The four stages whose functions [main] calls. *)
Inductive Stage : Type :=
| Download
| SilenceRemoval
| Transcription
| SummaryGeneration.

#[global] Instance Stage_eq_dec : EqDecision Stage.
Proof. solve_decision. Defined.

(** Exceptions, all of them subclasses of [Exception]. *)
Inductive exn : Type :=
| KeyError (key : string)
| TypeError
| FileNotFoundError (path : string)
| PermissionError
| SameFileError (path : string)
| OSError (path : string)
| CalledProcessError
| UnicodeDecodeError
| JSONDecodeError
| CouldntDecodeError
| DownloadError
| TranscriptionError.

(** The exceptions that the two [except] clauses around the ffmpeg command
    catch. *)
Definition caught_by_fallback (e : exn) : bool :=
  match e with
  | CalledProcessError => true
  | FileNotFoundError _ => true
  | _ => false
  end.

Inductive res (A : Type) : Type :=
| Ok (a : A)
| Raise (e : exn).
Arguments Ok {A} a.
Arguments Raise {A} e.

Definition res_bind {A B : Type} (r : res A) (k : A -> res B) : res B :=
  match r with
  | Ok a => k a
  | Raise e => Raise e
  end.

(** The world outside the process: regular files with their contents, the
    paths at which a file cannot be created or opened for writing (missing or
    read-only folder), and the calls of the stage functions so far. *)
Record World : Type := {
  files : gmap string string;
  unwritable : gset string;
  calls : list Stage;
}.

(** ** The monad of effects: state passing, with exceptions. The world
    reached so far is kept when an exception is raised. *)
Definition M (A : Type) : Type := World -> res A * World.

Definition ret {A : Type} (a : A) : M A := fun w => (Ok a, w).

Definition raise {A : Type} (e : exn) : M A := fun w => (Raise e, w).

Definition bind {A B : Type} (m : M A) (k : A -> M B) : M B :=
  fun w =>
    match m w with
    | (Ok a, w') => k a w'
    | (Raise e, w') => (Raise e, w')
    end.

(** [try: m  except Exception as e: h e] *)
Definition try_except {A : Type} (m : M A) (h : exn -> M A) : M A :=
  fun w =>
    match m w with
    | (Ok a, w') => (Ok a, w')
    | (Raise e, w') => h e w'
    end.

Definition lift {A : Type} (r : res A) : M A := fun w => (r, w).

Declare Scope py_scope.
Delimit Scope py_scope with py.
Notation "x <- m ;; k" := (bind m (fun x => k))
  (at level 100, m at next level, right associativity) : py_scope.
Notation "m ;; k" := (bind m (fun _ => k))
  (at level 100, right associativity) : py_scope.
Local Open Scope py_scope.

(** *** File system primitives *)

(** Is there a file at [path]? *)
Definition file_exists (w : World) (path : string) : bool :=
  match files w !! path with
  | Some _ => true
  | None => false
  end.

(** [os.path.exists(path)] *)
Definition path_exists (path : string) : M bool :=
  fun w => (Ok (file_exists w path), w).

(** [open(path, "r").read()] *)
Definition read_file (path : string) : M string :=
  fun w =>
    match files w !! path with
    | Some data => (Ok data, w)
    | None => (Raise (FileNotFoundError path), w)
    end.

(** The world after [path] has been written. *)
Definition with_file (path data : string) (w : World) : World :=
  {| files := <[path := data]> (files w);
     unwritable := unwritable w;
     calls := calls w |}.

(** The world after a call of the function of stage [s]. *)
Definition with_call (s : Stage) (w : World) : World :=
  {| files := files w;
     unwritable := unwritable w;
     calls := calls w ++ [s] |}.

(** [open(path, "w").write(data)] *)
Definition write_file (path data : string) : M unit :=
  fun w =>
    if bool_decide (path ∈ unwritable w)
    then (Raise (OSError path), w)
    else (Ok tt, with_file path data w).

(** [shutil.copy2(src, dst)] *)
Definition copy2 (src dst : string) : M unit :=
  data <- read_file src ;;
  if bool_decide (src = dst) then raise (SameFileError src)
  else write_file dst data.

(** A stage function records its call on entry. *)
Definition called (s : Stage) : M unit :=
  fun w => (Ok tt, with_call s w).

(** The number of calls of a stage function in a list of calls. *)
Definition count_stage (s : Stage) (cs : list Stage) : nat :=
  length (filter (fun s' => s' = s) cs).

(** The number of calls of a stage function so far: what a call-count
    assertion on the function reads. *)
Definition call_count (s : Stage) (w : World) : nat :=
  count_stage s (calls w).


Notation "'let*' x := r 'in' k" := (res_bind r (fun x => k))
  (at level 10, x name, r at level 100, k at level 200) : py_scope.

(* ===================================================================== *)
(** ** External collaborators *)
(* ===================================================================== *)

(** The [info] dictionary of yt_dlp, with what the download has done to the
    disk: [info_audio] is what the post-processor has written at the MP3
    path, if anything; [info_media] tells, for other paths, what yt_dlp has
    left there ([Some data]) or that it has removed the file ([None]): the
    media under its own extension, partial downloads. *)
Record YtInfo : Type := {
  info_title : option string;
  info_filename : string;
  info_audio : option string;
  info_media : gmap string (option string);
}.

(** How [subprocess.run(cmd, capture_output=True, text=True, check=True)]
    ends for an ffmpeg command on the data of its input: with exit status 0
    and the output written, or with an exception ([CalledProcessError] for
    another exit status, [PermissionError] for a program that cannot be
    executed, [UnicodeDecodeError] for captured output that cannot be
    decoded) and what the run has left at the output path, if anything. *)
Inductive Run : Type :=
| Exit0 (out : string)
| Fails (e : exn) (remains : option string).

Inductive WhisperType : Type :=
| standard
| faster.

(** The capabilities found at import time and the behaviour of the external
    tools. An [option] result is [None] when the tool raises. *)
Record Env : Type := {
  yt_dlp_extract_info : string -> string -> option YtInfo;
  PYDUB_AVAILABLE : bool;
  AudioSegment_from_mp3 : string -> option Audio;
  AudioSegment_from_wav : string -> option Audio;
  split_on_silence : Audio -> Z -> Z -> Z -> list Audio;
  export_mp3 : Audio -> string;
  ffmpeg_installed : bool;
  ffmpeg_silenceremove : Z -> Z -> string -> Run;
  WHISPER_AVAILABLE : bool;
  WHISPER_TYPE : option WhisperType;
  whisper_transcribe : string -> string -> option (list RawSegment);
  faster_whisper_transcribe : string -> string -> option (list RawSegment);
  json_dump_checkpoint : Checkpoint -> string;
  json_load_checkpoint : string -> option json_value;
  json_dump_segments : list Segment -> string;
  json_load_segments : string -> option (list Segment);
}.

(* ===================================================================== *)
(** ** generate_summary *)
(* ===================================================================== *)

(** [segment[key]] *)
Definition seg_key {A : Type} (key : string) (field : option A) : res A :=
  match field with
  | Some v => Ok v
  | None => Raise (KeyError key)
  end.

(** A value as an operand of [-], [//] and [%] with a number: a number is
    itself, a boolean is 0 or 1, anything else makes the operator raise
    [TypeError]. *)
Definition number (v : pyval) : res Z :=
  match v with
  | VInt z => Ok z
  | VBool b => Ok (Z.b2z b)
  | VNone => Raise TypeError
  | VStr _ => Raise TypeError
  end.

(** [str(v)], which is how an f-string formats a value. *)
Definition py_str (v : pyval) : string :=
  match v with
  | VNone => "None"
  | VBool true => "True"
  | VBool false => "False"
  | VInt z => pretty z
  | VStr s => s
  end.

(** The items of the argument of [" ".join]: it raises [TypeError] unless
    every item is a string. *)
Fixpoint strings (items : list pyval) : res (list string) :=
  match items with
  | [] => Ok []
  | VStr s :: items' =>
      let* l := strings items' in
      Ok (s :: l)
  | _ :: _ => Raise TypeError
  end.

Definition highlight_interval : Z := 60.

(** The local variables of the grouping loop. [current_time] and the items
    of [current_highlight_text] are kept as they are read from the segment;
    [current_highlight_start] has gone through a subtraction when it is
    assigned, so it is a number. *)
Record LoopState : Type := {
  current_time : pyval;
  highlight_count : Z;
  current_highlight_text : list pyval;
  current_highlight_start : Z;
  summary_lines : list string;
}.

(** The heading line of a highlight. *)
Definition highlight_heading (start_ end_ label : Z) : string :=
  "### [" +:+ PyStr.fmt02d (start_ / 60) +:+ ":"
  +:+ PyStr.fmt02d (start_ mod 60) +:+ " - "
  +:+ PyStr.fmt02d (end_ / 60) +:+ ":" +:+ PyStr.fmt02d (end_ mod 60)
  +:+ "] " +:+ "Highlight " +:+ pretty label +:+ PyStr.nl +:+ PyStr.nl.

(** The text line of a highlight. *)
Definition highlight_body (texts : list string) : string :=
  PyStr.join " " texts +:+ PyStr.nl +:+ PyStr.nl.

(** Save previous highlight if it exists. *)
Definition save_previous (i : nat) (st : LoopState) : res LoopState :=
  match current_highlight_text st with
  | _ :: _ =>
      if (0 <? i)%nat then
        let* end_ := number (current_time st) in
        let* texts := strings (current_highlight_text st) in
        Ok {| current_time := current_time st;
              highlight_count := highlight_count st + 1;
              current_highlight_text := current_highlight_text st;
              current_highlight_start := current_highlight_start st;
              summary_lines :=
                summary_lines st
                ++ [highlight_heading (current_highlight_start st)
                      end_ (highlight_count st);
                    highlight_body texts] |}
      else Ok st
  | [] => Ok st
  end.

(** One iteration of [for i, segment in enumerate(segments)]. *)
Definition loop_body (i : nat) (segment : Segment) (st : LoopState)
  : res LoopState :=
  let* start_value := seg_key "start" (seg_start segment) in
  let* start_ := number start_value in
  let* now := number (current_time st) in
  if (highlight_interval <? start_ - now) || (i =? 0)%nat then
    let* st := save_previous i st in
    let* text := seg_key "text" (seg_text segment) in
    let* end_ := seg_key "end" (seg_end segment) in
    Ok {| current_time := end_;
          highlight_count := highlight_count st;
          current_highlight_text := [text];
          current_highlight_start := start_;
          summary_lines := summary_lines st |}
  else
    let* text := seg_key "text" (seg_text segment) in
    let* end_ := seg_key "end" (seg_end segment) in
    Ok {| current_time := end_;
          highlight_count := highlight_count st;
          current_highlight_text := current_highlight_text st ++ [text];
          current_highlight_start := current_highlight_start st;
          summary_lines := summary_lines st |}.

Fixpoint highlight_loop (i : nat) (segments : list Segment) (st : LoopState)
  : res LoopState :=
  match segments with
  | [] => Ok st
  | segment :: rest =>
      let* st := loop_body i segment st in
      highlight_loop (S i) rest st
  end.

(** Do not forget the last highlight: it ends at [segments[-1]["end"]]. *)
Definition last_highlight (last_end : Z) (st : LoopState)
  : res (list string) :=
  match current_highlight_text st with
  | _ :: _ =>
      let* texts := strings (current_highlight_text st) in
      Ok (summary_lines st
          ++ [highlight_heading (current_highlight_start st) last_end
                (highlight_count st + 1);
              highlight_body texts])
  | [] => Ok (summary_lines st)
  end.

(** The lines of the full transcription. *)
Fixpoint transcription_lines (segments : list Segment) (lines : list string)
  : res (list string) :=
  match segments with
  | [] => Ok lines
  | segment :: rest =>
      let* start_value := seg_key "start" (seg_start segment) in
      let* start_ := number start_value in
      let* text := seg_key "text" (seg_text segment) in
      transcription_lines rest
        (lines ++ ["**[" +:+ PyStr.fmt02d (start_ / 60) +:+ ":"
                   +:+ PyStr.fmt02d (start_ mod 60) +:+ "]** " +:+ py_str text
                   +:+ PyStr.nl +:+ PyStr.nl])
  end.

Definition title_line (title : string) : string :=
  "# Video Summary: " +:+ title +:+ PyStr.nl +:+ PyStr.nl.

Definition key_highlights_heading : string :=
  "## " +:+ PyStr.of_bytes [196; 159; 197; 184; 194; 175]%nat
  +:+ " Key Highlights" +:+ PyStr.nl +:+ PyStr.nl.

Definition full_transcription_heading : string :=
  "## " +:+ PyStr.of_bytes [196; 159; 197; 184; 226; 128; 156]%nat
  +:+ " Full Transcription" +:+ PyStr.nl +:+ PyStr.nl.

(** The lines before the highlights. *)
Definition header_lines (title : string) (total_duration : Z) (n : nat)
  : list string :=
  let hours := total_duration / 3600 in
  let minutes := (total_duration mod 3600) / 60 in
  let seconds := total_duration mod 60 in
  [title_line title;
   "**Total Duration:** " +:+ PyStr.fmt02d hours +:+ ":"
   +:+ PyStr.fmt02d minutes +:+ ":" +:+ PyStr.fmt02d seconds +:+ PyStr.nl;
   "**Total Segments:** " +:+ pretty (Z.of_nat n) +:+ PyStr.nl +:+ PyStr.nl;
   key_highlights_heading].

Definition no_transcription (title : string) : string :=
  title_line title +:+ "No transcription available.".

Definition invalid_transcription (title : string) : string :=
  title_line title +:+ "Invalid transcription data.".

Definition generate_summary (segments : list Segment) (title : string)
  : res string :=
  match last segments with
  | None => Ok (no_transcription title)
  | Some last_segment =>
      match seg_end last_segment with
      | None => Ok (invalid_transcription title)
      | Some end_value =>
          let* total_duration := number end_value in
          let summary_lines :=
            header_lines title total_duration (length segments) in
          let* st :=
            highlight_loop 0 segments
              {| current_time := VInt 0;
                 highlight_count := 0;
                 current_highlight_text := [];
                 current_highlight_start := 0;
                 summary_lines := summary_lines |} in
          let* summary_lines := last_highlight total_duration st in
          let summary_lines :=
            summary_lines ++ ["---" +:+ PyStr.nl +:+ PyStr.nl;
                              full_transcription_heading] in
          let* summary_lines := transcription_lines segments summary_lines in
          Ok (PyStr.concat summary_lines)
      end
  end.

Definition mk_segment (start_ end_ : Z) (text : string) : Segment :=
  {| seg_start := Some (VInt start_);
     seg_end := Some (VInt end_);
     seg_text := Some (VStr text) |}.

Definition example_segments : list Segment :=
  [mk_segment 0 10 "a"; mk_segment 15 20 "b"; mk_segment 90 95 "c"].

(* ===================================================================== *)
(** ** The stage functions and the checkpoint store *)
(* ===================================================================== *)

(** [path] is in the directory [dir] or below it. *)
Definition under (dir path : string) : bool :=
  os_path.startswith (dir +:+ "/") path.

(** The files after yt_dlp has run with an output template in [output_dir]:
    what it has left or removed there; changes at other paths do not
    arise. *)
Definition media_left (output_dir : string)
    (media : gmap string (option string)) (fs : gmap string string)
  : gmap string string :=
  merge (fun change old =>
           match change with
           | Some now => now
           | None => old
           end)
    (filter (fun entry => under output_dir entry.1 = true) media) fs.

Definition yt_dlp_leaves (output_dir : string)
    (media : gmap string (option string)) : M unit :=
  fun w =>
    (Ok tt,
     {| files := media_left output_dir media (files w);
        unwritable := unwritable w;
        calls := calls w |}).

(** What a failed run of ffmpeg leaves at its output path. *)
Definition leave (output_file : string) (remains : option string) : M unit :=
  match remains with
  | Some partial => try_except (write_file output_file partial) (fun _ => ret tt)
  | None => ret tt
  end.

(** [subprocess.run(cmd, capture_output=True, text=True, check=True)] for an
    ffmpeg command that is installed. ffmpeg exits with an error, so that
    [CalledProcessError] is raised, when it cannot read its input, when its
    output is its input, and when it cannot write its output; otherwise the
    run ends as [tool] tells. *)
Definition ffmpeg_process (tool : string -> Run) (input_file output_file : string)
  : M unit :=
  data <- try_except (read_file input_file) (fun _ => raise CalledProcessError) ;;
  if bool_decide (input_file = output_file) then raise CalledProcessError
  else
    match tool data with
    | Exit0 out =>
        try_except (write_file output_file out)
          (fun _ => raise CalledProcessError)
    | Fails e remains =>
        leave output_file remains ;;
        raise e
    end.

Section Pipeline.

Variable env : Env.

(** *** download_video *)

Definition download_video (url output_dir : string) : M (string * string) :=
  called Download ;;
  match yt_dlp_extract_info env output_dir url with
  | None => raise DownloadError
  | Some info =>
      let title := default "video" (info_title info) in
      let filename := info_filename info in
      let audio_file := os_path.splitext_root filename +:+ ".mp3" in
      yt_dlp_leaves output_dir (info_media info) ;;
      match info_audio info with
      | Some data => write_file audio_file data
      | None => ret tt
      end ;;
      ex <- path_exists audio_file ;;
      if negb ex then raise (FileNotFoundError audio_file)
      else ret (audio_file, title)
  end.

(** *** remove_silence *)

(** [AudioSegment.from_mp3(audio_file)] and [AudioSegment.from_wav]. *)
Definition pydub_load (decode : string -> option Audio) (audio_file : string)
  : M Audio :=
  data <- read_file audio_file ;;
  match decode data with
  | Some audio => ret audio
  | None => raise CouldntDecodeError
  end.

(** [subprocess.run(cmd, capture_output=True, text=True, check=True)] for the
    ffmpeg command line of the source: [FileNotFoundError] when the program
    is missing. *)
Definition ffmpeg_run (audio_file output_file : string)
    (min_silence_len threshold_db : Z) : M unit :=
  if negb (ffmpeg_installed env) then raise (FileNotFoundError "ffmpeg")
  else
    ffmpeg_process (ffmpeg_silenceremove env min_silence_len threshold_db)
      audio_file output_file.

Definition remove_silence (audio_file output_file : string)
    (min_silence_len silence_thresh keep_silence : Z) : M string :=
  called SilenceRemoval ;;
  if PYDUB_AVAILABLE env then
    audio <- (if os_path.endswith ".mp3" audio_file
              then pydub_load (AudioSegment_from_mp3 env) audio_file
              else pydub_load (AudioSegment_from_wav env) audio_file) ;;
    let chunks :=
      split_on_silence env audio min_silence_len silence_thresh keep_silence in
    match chunks with
    | [] =>
        write_file output_file (export_mp3 env audio) ;;
        ret output_file
    | _ :: _ =>
        let combined := fold_left (fun c chunk => c ++ chunk) chunks [] in
        write_file output_file (export_mp3 env combined) ;;
        ret output_file
    end
  else
    let threshold_db := silence_thresh in
    try_except
      (ffmpeg_run audio_file output_file min_silence_len threshold_db ;;
       ret output_file)
      (fun e =>
         match e with
         | CalledProcessError =>
             copy2 audio_file output_file ;;
             ret output_file
         | FileNotFoundError _ =>
             copy2 audio_file output_file ;;
             ret output_file
         | _ => raise e
         end).

(** *** transcribe_audio *)

(** [text.strip()] *)
Definition strip_segment (r : RawSegment) : Segment :=
  {| seg_start := Some (VInt (raw_start r));
     seg_end := Some (VInt (raw_end r));
     seg_text := Some (VStr (PyStr.strip PyStr.isspace (raw_text r))) |}.

(** Loading the model and running it on the audio file. *)
Definition asr_call (engine : string -> string -> option (list RawSegment))
    (audio_file model_name : string) : M (list RawSegment) :=
  data <- read_file audio_file ;;
  match engine model_name data with
  | Some raw => ret raw
  | None => raise TranscriptionError
  end.

Definition transcribe_audio (audio_file model_name : string)
  : M (option (list Segment)) :=
  called Transcription ;;
  if negb (WHISPER_AVAILABLE env) then ret None
  else
    try_except
      (raw <- match WHISPER_TYPE env with
              | Some faster =>
                  asr_call (faster_whisper_transcribe env) audio_file model_name
              | _ => asr_call (whisper_transcribe env) audio_file model_name
              end ;;
       ret (Some (map strip_segment raw)))
      (fun _ => ret None).

(** *** load_checkpoint and save_checkpoint *)

Definition checkpoint_path (video_folder : string) : string :=
  os_path.join video_folder ".checkpoint.json".

(** [load_checkpoint] returns what [json.load] returns, whatever its kind,
    and an empty dict when the file is absent or [json.load] raises. *)
Definition load_checkpoint (video_folder : string) : M json_value :=
  let checkpoint_file := checkpoint_path video_folder in
  ex <- path_exists checkpoint_file ;;
  if ex then
    try_except
      (data <- read_file checkpoint_file ;;
       match json_load_checkpoint env data with
       | Some loaded => ret loaded
       | None => raise JSONDecodeError
       end)
      (fun _ => ret (JDict ∅))
  else ret (JDict ∅).

Definition save_checkpoint (video_folder : string) (state : Checkpoint)
  : M unit :=
  let checkpoint_file := checkpoint_path video_folder in
  try_except
    (write_file checkpoint_file (json_dump_checkpoint env state))
    (fun _ => ret tt).

(** *** main *)

Definition downloads_dir : string := "downloads".
Definition videos_dir : string := "videos".

(** The folder of a video and the three artifacts in it. *)
Definition video_folder_of (title : string) : string :=
  os_path.join videos_dir (sanitize_filename title).

Definition processed_audio_of (title : string) : string :=
  os_path.join (os_path.join (video_folder_of title) "audio")
    (sanitize_filename title +:+ "_processed_audio.mp3").

Definition transcription_file_of (title : string) : string :=
  os_path.join (os_path.join (video_folder_of title) "transcriptions")
    (sanitize_filename title +:+ "_transcription.json").

Definition summary_file_of (title : string) : string :=
  os_path.join (os_path.join (video_folder_of title) "summaries")
    (sanitize_filename title +:+ "_summary.md").

(** [if segments:] *)
Definition nonempty_segments (segments : option (list Segment))
  : option (list Segment) :=
  match segments with
  | Some (segment :: rest) => Some (segment :: rest)
  | _ => None
  end.

(** [checkpoint[key] = value]: only a dict supports the assignment of an
    item under a string key. *)
Definition setitem (loaded : json_value) (key : string) (value : pyval)
  : res Checkpoint :=
  match loaded with
  | JDict checkpoint => Ok (<[key := value]> checkpoint)
  | JScalar _ => Raise TypeError
  | JList => Raise TypeError
  end.

(** Step 1: download, then load the checkpoint and mark the download. Once
    the first assignment has gone through, the checkpoint is a dict. *)
Definition step_download (url : string) : M (string * string * Checkpoint) :=
  p <- download_video url downloads_dir ;;
  let audio_file := fst p in
  let title := snd p in
  let video_folder := video_folder_of title in
  loaded <- load_checkpoint video_folder ;;
  checkpoint <- lift (setitem loaded "downloaded" (VBool true)) ;;
  let checkpoint := <["url" := VStr url]> checkpoint in
  let checkpoint := <["title" := VStr title]> checkpoint in
  save_checkpoint video_folder checkpoint ;;
  ret (audio_file, title, checkpoint).

(** Step 2: remove silence. *)
Definition step_silence (audio_file title : string) (checkpoint : Checkpoint)
  : M Checkpoint :=
  let processed_audio := processed_audio_of title in
  ex <- path_exists processed_audio ;;
  if ex && truthy (dict_get checkpoint "silence_removed" (VBool false))
  then ret checkpoint
  else
    remove_silence audio_file processed_audio 1000 (-40) 200 ;;
    let checkpoint := <["silence_removed" := VBool true]> checkpoint in
    save_checkpoint (video_folder_of title) checkpoint ;;
    ret checkpoint.

(** Step 3: transcribe, or load the saved transcription. *)
Definition step_transcribe (title : string) (checkpoint : Checkpoint)
  : M (option (list Segment)) :=
  let processed_audio := processed_audio_of title in
  let transcription_file := transcription_file_of title in
  ex <- path_exists transcription_file ;;
  if ex && truthy (dict_get checkpoint "transcribed" (VBool false))
  then
    try_except
      (data <- read_file transcription_file ;;
       match json_load_segments env data with
       | Some segments => ret (Some segments)
       | None => raise JSONDecodeError
       end)
      (fun _ => transcribe_audio processed_audio "base")
  else transcribe_audio processed_audio "base".

(** Step 4: generate the summary. *)
Definition step_summary (title : string) (segments : list Segment)
    (checkpoint : Checkpoint) : M Checkpoint :=
  let summary_file := summary_file_of title in
  ex <- path_exists summary_file ;;
  if ex && truthy (dict_get checkpoint "summary_generated" (VBool false))
  then ret checkpoint
  else
    called SummaryGeneration ;;
    summary <- lift (generate_summary segments title) ;;
    write_file summary_file summary ;;
    let checkpoint := <["summary_generated" := VBool true]> checkpoint in
    save_checkpoint (video_folder_of title) checkpoint ;;
    ret checkpoint.

(** The [if segments: ... else: ...] after step 3. *)
Definition save_transcription (title : string)
    (segments : option (list Segment)) (checkpoint : Checkpoint)
  : M Checkpoint :=
  match nonempty_segments segments with
  | Some segments =>
      write_file (transcription_file_of title)
        (json_dump_segments env segments) ;;
      let checkpoint := <["transcribed" := VBool true]> checkpoint in
      save_checkpoint (video_folder_of title) checkpoint ;;
      step_summary title segments checkpoint
  | None => ret checkpoint
  end.

(** Steps 3 and 4 and the completion mark. *)
Definition steps_after_audio (title : string) (checkpoint : Checkpoint)
  : M Checkpoint :=
  segments <- step_transcribe title checkpoint ;;
  checkpoint <- save_transcription title segments checkpoint ;;
  let checkpoint := <["completed" := VBool true]> checkpoint in
  save_checkpoint (video_folder_of title) checkpoint ;;
  ret checkpoint.

(** The body of the [try] of [main]. It returns the final value of the local
    variable [checkpoint], which the source drops. *)
Definition main_body (url : string) : M Checkpoint :=
  p <- step_download url ;;
  let audio_file := fst (fst p) in
  let title := snd (fst p) in
  let checkpoint := snd p in
  checkpoint <- step_silence audio_file title checkpoint ;;
  steps_after_audio title checkpoint.

(** How the process ends: by returning from [main] or by [sys.exit]. *)
Inductive Exit : Type :=
| Returned
| SysExit (code : Z).

Definition main (argv : list string) : World -> Exit * World :=
  fun w =>
    match argv with
    | _ :: url :: _ =>
        match main_body url w with
        | (Ok _, w') => (Returned, w')
        | (Raise _, w') => (SysExit 1, w')
        end
    | _ => (SysExit 1, w)
    end.

End Pipeline.

(* ===================================================================== *)
(** ** A small JSON codec, for the concrete scenarios *)
(* ===================================================================== *)

(** The scenarios below run the pipeline on files that hold JSON text. This
    codec prints and reads the two documents of the program (a flat object
    of scalars, and an array of segment objects) in the layout of
    [json.dump(..., indent=2)]. *)
Module DemoJson.

Definition quote : ascii := ascii_of_nat 34.
Definition backslash : ascii := ascii_of_nat 92.

Fixpoint escape (s : string) : string :=
  match s with
  | EmptyString => EmptyString
  | String c s' =>
      if Ascii.eqb c quote then String backslash (String quote (escape s'))
      else if Ascii.eqb c backslash
           then String backslash (String backslash (escape s'))
      else if Ascii.eqb c (ascii_of_nat 10)
           then String backslash (String "n" (escape s'))
      else String c (escape s')
  end.

Definition dump_string (s : string) : string :=
  String quote (escape s +:+ String quote "").

Definition dump_value (v : pyval) : string :=
  match v with
  | VNone => "null"
  | VBool true => "true"
  | VBool false => "false"
  | VInt z => pretty z
  | VStr s => dump_string s
  end.

Definition dump_member (indent : string) (kv : string * pyval) : string :=
  indent +:+ dump_string (fst kv) +:+ ": " +:+ dump_value (snd kv).

Definition dump_object (indent : string) (members : list (string * pyval))
  : string :=
  match members with
  | [] => "{}"
  | _ =>
      "{" +:+ PyStr.nl
      +:+ PyStr.join ("," +:+ PyStr.nl)
            (map (dump_member (indent +:+ "  ")) members)
      +:+ PyStr.nl +:+ indent +:+ "}"
  end.

Definition dump_checkpoint (c : Checkpoint) : string :=
  dump_object "" (map_to_list c).

Definition segment_members (s : Segment) : list (string * pyval) :=
  match seg_start s with Some v => [("start", v)] | None => [] end
  ++ match seg_end s with Some v => [("end", v)] | None => [] end
  ++ match seg_text s with Some v => [("text", v)] | None => [] end.

Definition dump_segments (l : list Segment) : string :=
  match l with
  | [] => "[]"
  | _ =>
      "[" +:+ PyStr.nl
      +:+ PyStr.join ("," +:+ PyStr.nl)
            (map (fun s => "  " +:+ dump_object "  " (segment_members s)) l)
      +:+ PyStr.nl +:+ "]"
  end.

(** Reading. *)
Definition is_ws (c : ascii) : bool :=
  let n := nat_of_ascii c in
  ((n =? 32) || (n =? 10) || (n =? 13) || (n =? 9))%nat.

Fixpoint skip_ws (l : list ascii) : list ascii :=
  match l with
  | c :: l' => if is_ws c then skip_ws l' else l
  | [] => []
  end.

Definition unescape (c : ascii) : option ascii :=
  if Ascii.eqb c quote then Some quote
  else if Ascii.eqb c backslash then Some backslash
  else if Ascii.eqb c "/" then Some "/"%char
  else if Ascii.eqb c "n" then Some (ascii_of_nat 10)
  else if Ascii.eqb c "t" then Some (ascii_of_nat 9)
  else if Ascii.eqb c "r" then Some (ascii_of_nat 13)
  else None.

(** The characters after an opening quote, up to the closing one. *)
Fixpoint read_string (l : list ascii) : option (string * list ascii) :=
  match l with
  | [] => None
  | c :: l' =>
      if Ascii.eqb c quote then Some (EmptyString, l')
      else if Ascii.eqb c backslash then
        match l' with
        | e :: l'' =>
            match unescape e, read_string l'' with
            | Some d, Some (s, r) => Some (String d s, r)
            | _, _ => None
            end
        | [] => None
        end
      else
        match read_string l' with
        | Some (s, r) => Some (String c s, r)
        | None => None
        end
  end.

Fixpoint read_digits (acc : Z) (l : list ascii) : Z * list ascii :=
  match l with
  | c :: l' =>
      match Ascii.is_nat c with
      | Some d => read_digits (10 * acc + Z.of_nat d) l'
      | None => (acc, l)
      end
  | [] => (acc, [])
  end.

Definition read_literal (lit : string) (v : pyval) (l : list ascii)
  : option (pyval * list ascii) :=
  let n := String.length lit in
  if bool_decide (take n l = PyStr.chars lit) then Some (v, drop n l)
  else None.

Definition read_value (l : list ascii) : option (pyval * list ascii) :=
  match l with
  | c :: l' =>
      if Ascii.eqb c quote then
        match read_string l' with
        | Some (s, r) => Some (VStr s, r)
        | None => None
        end
      else if Ascii.eqb c "-" then
        match l' with
        | d :: _ =>
            match Ascii.is_nat d with
            | Some _ => let (z, r) := read_digits 0 l' in Some (VInt (- z), r)
            | None => None
            end
        | [] => None
        end
      else if Ascii.eqb c "n" then read_literal "null" VNone l
      else if Ascii.eqb c "t" then read_literal "true" (VBool true) l
      else if Ascii.eqb c "f" then read_literal "false" (VBool false) l
      else
        match Ascii.is_nat c with
        | Some _ => let (z, r) := read_digits 0 l in Some (VInt z, r)
        | None => None
        end
  | [] => None
  end.

(** The members of an object, after its opening brace. *)
Fixpoint read_members (fuel : nat) (l : list ascii)
  : option (list (string * pyval) * list ascii) :=
  match fuel with
  | O => None
  | S fuel' =>
      match skip_ws l with
      | c :: l1 =>
          if Ascii.eqb c quote then
            match read_string l1 with
            | Some (key, l2) =>
                match skip_ws l2 with
                | colon :: l3 =>
                    if Ascii.eqb colon ":" then
                      match read_value (skip_ws l3) with
                      | Some (v, l4) =>
                          match skip_ws l4 with
                          | d :: l5 =>
                              if Ascii.eqb d "," then
                                match read_members fuel' l5 with
                                | Some (ms, r) => Some ((key, v) :: ms, r)
                                | None => None
                                end
                              else if Ascii.eqb d "}" then Some ([(key, v)], l5)
                              else None
                          | [] => None
                          end
                      | None => None
                      end
                    else None
                | [] => None
                end
            | None => None
            end
          else None
      | [] => None
      end
  end.

Definition read_object (l : list ascii)
  : option (list (string * pyval) * list ascii) :=
  match skip_ws l with
  | c :: l1 =>
      if Ascii.eqb c "{" then
        match skip_ws l1 with
        | d :: l2 =>
            if Ascii.eqb d "}" then Some ([], l2)
            else read_members (length l1) l1
        | [] => None
        end
      else None
  | [] => None
  end.

(** Later members win, as in a Python [dict]. *)
Definition object_to_dict (members : list (string * pyval)) : Checkpoint :=
  list_to_map (rev members).

(** A whole text that is one value. *)
Definition whole {A : Type} (parsed : option (A * list ascii)) : option A :=
  match parsed with
  | Some (a, rest) =>
      match skip_ws rest with
      | [] => Some a
      | _ => None
      end
  | None => None
  end.

(** The top-level value of a checkpoint file: an object, a scalar, or the
    empty array. *)
Definition load_checkpoint_text (text : string) : option json_value :=
  match skip_ws (PyStr.chars text) with
  | c :: l1 =>
      if Ascii.eqb c "{" then
        (fun members => JDict (object_to_dict members))
        <$> whole (read_object (PyStr.chars text))
      else if Ascii.eqb c "[" then
        match skip_ws l1 with
        | d :: l2 =>
            if Ascii.eqb d "]"
            then (match skip_ws l2 with [] => Some JList | _ => None end)
            else None
        | [] => None
        end
      else JScalar <$> whole (read_value (c :: l1))
  | [] => None
  end.

Definition segment_of_dict (d : Checkpoint) : Segment :=
  {| seg_start := d !! "start"; seg_end := d !! "end"; seg_text := d !! "text" |}.

(** The elements of an array, after its opening bracket. *)
Fixpoint read_elements (fuel : nat) (l : list ascii)
  : option (list Segment * list ascii) :=
  match fuel with
  | O => None
  | S fuel' =>
      match read_object l with
      | Some (members, l1) =>
          let s := segment_of_dict (object_to_dict members) in
          match skip_ws l1 with
          | d :: l2 =>
              if Ascii.eqb d "," then
                match read_elements fuel' l2 with
                | Some (ss, r) => Some (s :: ss, r)
                | None => None
                end
              else if Ascii.eqb d "]" then Some ([s], l2)
              else None
          | [] => None
          end
      | None => None
      end
  end.

Definition load_segments_text (text : string) : option (list Segment) :=
  match skip_ws (PyStr.chars text) with
  | c :: l1 =>
      if Ascii.eqb c "[" then
        match skip_ws l1 with
        | d :: l2 =>
            if Ascii.eqb d "]"
            then (match skip_ws l2 with [] => Some [] | _ => None end)
            else
              match read_elements (length l1) l1 with
              | Some (ss, r) =>
                  match skip_ws r with [] => Some ss | _ => None end
              | None => None
              end
        | [] => None
        end
      else None
  | [] => None
  end.

End DemoJson.

(* ===================================================================== *)
(** ** The grouping algorithm in the words of the specification *)
(* ===================================================================== *)

(** A well-formed transcript segment. *)
Record TranscriptSegment : Type := {
  ts_start : Z;
  ts_end : Z;
  ts_text : string;
}.

(** The segment as the dictionary that [generate_summary] receives. *)
Definition of_ts (s : TranscriptSegment) : Segment :=
  mk_segment (ts_start s) (ts_end s) (ts_text s).

Record Highlight : Type := {
  window_start : Z;
  window_end : Z;
  ordered_text : string;
}.

(** The running window: the start of its first segment, the end of the last
    segment absorbed, and the texts absorbed, in order. *)
Record Window : Type := {
  first_start : Z;
  last_end : Z;
  texts : list string;
}.

Definition open_window (s : TranscriptSegment) : Window :=
  {| first_start := ts_start s; last_end := ts_end s; texts := [ts_text s] |}.

Definition absorb (w : Window) (s : TranscriptSegment) : Window :=
  {| first_start := first_start w;
     last_end := ts_end s;
     texts := texts w ++ [ts_text s] |}.

Definition close_window (w : Window) : Highlight :=
  {| window_start := first_start w;
     window_end := last_end w;
     ordered_text := PyStr.join " " (texts w) |}.

(** A segment closes the window and opens a new one when its start minus the
    end of the last absorbed segment exceeds the interval; otherwise it is
    absorbed. The window still open at the end is emitted. *)
Fixpoint group_from (interval : Z) (w : Window) (rest : list TranscriptSegment)
  : list Highlight :=
  match rest with
  | [] => [close_window w]
  | s :: rest' =>
      if interval <? ts_start s - last_end w
      then close_window w :: group_from interval (open_window s) rest'
      else group_from interval (absorb w s) rest'
  end.

(** The first segment always starts a window. *)
Definition group_highlights (interval : Z) (segments : list TranscriptSegment)
  : list Highlight :=
  match segments with
  | [] => []
  | s :: rest => group_from interval (open_window s) rest
  end.

(** The two lines of the report for a highlight with a given number. *)
Definition render_highlight (h : Highlight) (label : Z) : list string :=
  [highlight_heading (window_start h) (window_end h) label;
   ordered_text h +:+ PyStr.nl +:+ PyStr.nl].

Fixpoint render_highlights (hs : list Highlight) (labels : list Z)
  : list string :=
  match hs, labels with
  | h :: hs', label :: labels' =>
      render_highlight h label ++ render_highlights hs' labels'
  | _, _ => []
  end.

(** The numbers that the source gives to [n] highlights when [c] were
    numbered before: [c], [c + 1], ... inside the loop, and the count of the
    highlights emitted so far plus one after it. *)
Fixpoint source_labels (c : Z) (n : nat) : list Z :=
  match n with
  | O => []
  | S O => [c + 1]
  | S n' => c :: source_labels (c + 1) n'
  end.

(** The line of the full transcription for a segment. *)
Definition transcription_line (s : TranscriptSegment) : string :=
  "**[" +:+ PyStr.fmt02d (ts_start s / 60) +:+ ":"
  +:+ PyStr.fmt02d (ts_start s mod 60) +:+ "]** " +:+ ts_text s
  +:+ PyStr.nl +:+ PyStr.nl.

(** The end time of the last segment. *)
Definition final_end (w : Window) (rest : list TranscriptSegment) : Z :=
  match last rest with
  | Some s => ts_end s
  | None => last_end w
  end.

(** The whole report, given the numbers of the highlights. *)
Definition report (title : string) (s : TranscriptSegment)
    (rest : list TranscriptSegment) (labels : list Z) : string :=
  PyStr.concat
    (header_lines title (final_end (open_window s) rest) (S (length rest))
     ++ render_highlights (group_highlights highlight_interval (s :: rest))
          labels
     ++ ["---" +:+ PyStr.nl +:+ PyStr.nl; full_transcription_heading]
     ++ map transcription_line (s :: rest)).

(** The loop invariant: the local variables describe the open window. *)
Definition tracks (st : LoopState) (w : Window) : Prop :=
  current_highlight_text st = map VStr (texts w)
  /\ texts w <> []
  /\ current_time st = VInt (last_end w)
  /\ current_highlight_start st = first_start w.

(** The three segments of the grouping example. *)
Definition example_ts : list TranscriptSegment :=
  [ {| ts_start := 0; ts_end := 10; ts_text := "a" |};
    {| ts_start := 15; ts_end := 20; ts_text := "b" |};
    {| ts_start := 90; ts_end := 95; ts_text := "c" |} ].


(** A segment without its [start] key. *)
Definition segment_without_start : Segment :=
  {| seg_start := None;
     seg_end := Some (VInt 5);
     seg_text := Some (VStr "x") |}.

(** A segment without its [end] key. *)
Definition segment_without_end : Segment :=
  {| seg_start := Some (VInt 0);
     seg_end := None;
     seg_text := Some (VStr "x") |}.

(** [c * n] *)
Fixpoint replicate_char (n : nat) (c : ascii) : string :=
  match n with
  | O => EmptyString
  | S n' => String c (replicate_char n' c)
  end.

(** A title of 201 characters whose 200th character is a dot. *)
Definition title_with_dot_at_200 : string :=
  replicate_char 199 "a" +:+ ".b".

(* ===================================================================== *)
(** ** Concrete scenarios *)
(* ===================================================================== *)

Definition demo_url : string := "https://example.org/watch?v=1".

(** What yt_dlp reports for the demo video. *)
Definition demo_info : YtInfo :=
  {| info_title := Some "T";
     info_filename := "downloads/T.webm";
     info_audio := Some "mp3 data";
     info_media := {[ "downloads/T.webm" := None ]} |}.

(** What the ASR engine hears in the demo video. *)
Definition demo_raw : list RawSegment :=
  [ {| raw_start := 0; raw_end := 10; raw_text := " a" |};
    {| raw_start := 15; raw_end := 20; raw_text := "b " |};
    {| raw_start := 90; raw_end := 95; raw_text := "c" |} ].

(** A machine without pydub, with or without ffmpeg and whisper. *)
Definition demo_env (ffmpeg whisper : bool) : Env :=
  {| yt_dlp_extract_info :=
       fun _ url => if String.eqb url demo_url then Some demo_info else None;
     PYDUB_AVAILABLE := false;
     AudioSegment_from_mp3 := fun _ => None;
     AudioSegment_from_wav := fun _ => None;
     split_on_silence := fun audio _ _ _ => [audio];
     export_mp3 := fun _ => "mp3 data";
     ffmpeg_installed := ffmpeg;
     ffmpeg_silenceremove := fun _ _ data => Exit0 data;
     WHISPER_AVAILABLE := whisper;
     WHISPER_TYPE := if whisper then Some standard else None;
     whisper_transcribe := fun _ _ => Some demo_raw;
     faster_whisper_transcribe := fun _ _ => None;
     json_dump_checkpoint := DemoJson.dump_checkpoint;
     json_load_checkpoint := DemoJson.load_checkpoint_text;
     json_dump_segments := DemoJson.dump_segments;
     json_load_segments := DemoJson.load_segments_text |}.

Definition empty_world : World :=
  {| files := ∅; unwritable := ∅; calls := [] |}.

(** A checkpoint with one flag. *)
Definition one_flag : Checkpoint := {[ "downloaded" := VBool true ]}.

(** A world in which the checkpoint file of the folder [videos/T] cannot be
    opened for writing. *)
Definition read_only_world : World :=
  {| files := ∅;
     unwritable := {[ "videos/T/.checkpoint.json" ]};
     calls := [] |}.

(** A world whose checkpoint file for [videos/T] is cut short. *)
Definition corrupt_checkpoint_world : World :=
  {| files := {[ "videos/T/.checkpoint.json" := "{ downloaded: tr" ]};
     unwritable := ∅;
     calls := [] |}.

(* ===================================================================== *)
(** ** Footprints *)
(* ===================================================================== *)

(** [w'] is reached from [w] by writing files at paths in [paths] only and
    by calling the functions of the stages in [stages] only; no file is
    removed. *)
Record evolves (paths : string -> Prop) (stages : list Stage) (w w' : World)
  : Prop := {
  evolves_unwritable : unwritable w' = unwritable w;
  evolves_files : forall q, ~ paths q -> files w' !! q = files w !! q;
  evolves_exists : forall q, file_exists w q = true -> file_exists w' q = true;
  evolves_calls :
    exists cs, calls w' = calls w ++ cs /\ Forall (fun s => s ∈ stages) cs;
}.

(** The footprint of a computation, whether it returns or raises. *)
Definition frames {A : Type} (m : M A) (paths : string -> Prop)
    (stages : list Stage) : Prop :=
  forall w, evolves paths stages w (snd (m w)).

(** What holds of the result and of the world whenever a computation
    returns. *)
Definition ensures {A : Type} (m : M A) (post : A -> World -> Prop) : Prop :=
  forall w a w', m w = (Ok a, w') -> post a w'.

(** The pydub loader that [remove_silence] selects for an input path. *)
Definition pydub_decoder (env : Env) (audio_file : string)
  : string -> option Audio :=
  if os_path.endswith ".mp3" audio_file
  then AudioSegment_from_mp3 env
  else AudioSegment_from_wav env.

(** [s.endswith(suffix)], as a proposition. *)
Definition ends_with (suffix s : string) : Prop :=
  exists x, s = x +:+ suffix.

(** A world in which the input file of the demo video has been downloaded
    and nothing else has happened. *)
Definition downloaded_world : World :=
  {| files := {[ "downloads/T.mp3" := "mp3 data" ]};
     unwritable := ∅;
     calls := [] |}.

(* ===================================================================== *)
(** ** Vocabulary of the properties of [main] *)
(* ===================================================================== *)

(** The ASR engine that [transcribe_audio] selects. *)
Definition asr_engine (env : Env)
  : string -> string -> option (list RawSegment) :=
  match WHISPER_TYPE env with
  | Some faster => faster_whisper_transcribe env
  | _ => whisper_transcribe env
  end.

(** The transcription capability is unavailable, or the ASR call on the
    audio file raises. *)
Definition transcription_fails (env : Env) (audio_file model_name : string)
    (w : World) : Prop :=
  WHISPER_AVAILABLE env = false
  \/ match files w !! audio_file with
     | Some data => asr_engine env model_name data = None
     | None => True
     end.

(** The tests that [main] makes before steps 2, 3 and 4: the artifact of the
    stage exists and the flag of the stage is true. *)
Definition silence_ready (title : string) (checkpoint : Checkpoint) (w : World)
  : bool :=
  file_exists w (processed_audio_of title)
  && truthy (dict_get checkpoint "silence_removed" (VBool false)).

Definition transcription_ready (title : string) (checkpoint : Checkpoint)
    (w : World) : bool :=
  file_exists w (transcription_file_of title)
  && truthy (dict_get checkpoint "transcribed" (VBool false)).

Definition summary_ready (title : string) (checkpoint : Checkpoint) (w : World)
  : bool :=
  file_exists w (summary_file_of title)
  && truthy (dict_get checkpoint "summary_generated" (VBool false)).

(** The saved transcription that step 3 uses instead of the ASR: the test
    holds and the file can be parsed. *)
Definition saved_transcription (env : Env) (title : string)
    (checkpoint : Checkpoint) (w : World) : option (list Segment) :=
  if transcription_ready title checkpoint w
  then
    match files w !! transcription_file_of title with
    | Some data => json_load_segments env data
    | None => None
    end
  else None.

(** The world after [save_checkpoint]: the checkpoint file is written if it
    can be. *)
Definition after_save (env : Env) (video_folder : string) (state : Checkpoint)
    (w : World) : World :=
  if bool_decide (checkpoint_path video_folder ∈ unwritable w) then w
  else with_file (checkpoint_path video_folder)
         (json_dump_checkpoint env state) w.

(** The checkpoint file holds [state], unless it cannot be written. *)
Definition checkpoint_saved (env : Env) (title : string) (state : Checkpoint)
    (w : World) : Prop :=
  checkpoint_path (video_folder_of title) ∉ unwritable w ->
  files w !! checkpoint_path (video_folder_of title)
  = Some (json_dump_checkpoint env state).

(** The checkpoint of a finished run of the demo video. *)
Definition finished_checkpoint : Checkpoint :=
  <["downloaded" := VBool true]>
    (<["url" := VStr demo_url]>
       (<["title" := VStr "T"]>
          (<["silence_removed" := VBool true]>
             (<["transcribed" := VBool true]>
                (<["summary_generated" := VBool true]>
                   (<["completed" := VBool true]> ∅)))))).

(** The world left by a finished run of the demo video: every artifact is
    on disk and the checkpoint marks every stage. *)
Definition finished_world : World :=
  {| files :=
       <["downloads/T.mp3" := "mp3 data"]>
         (<["videos/T/.checkpoint.json" :=
              DemoJson.dump_checkpoint finished_checkpoint]>
            (<["videos/T/audio/T_processed_audio.mp3" := "mp3 data"]>
               (<["videos/T/transcriptions/T_transcription.json" :=
                    DemoJson.dump_segments example_segments]>
                  (<["videos/T/summaries/T_summary.md" := "summary"]> ∅))));
     unwritable := ∅;
     calls := [] |}.

(** The same world with a transcription file that is cut short. *)
Definition cut_transcription_world : World :=
  with_file "videos/T/transcriptions/T_transcription.json" "[ { "
    finished_world.

(** The paths that steps 1 and 2 and the checkpoint store may write. *)
Definition audio_or_checkpoint (q : string) : Prop :=
  ends_with "mp3" q \/ ends_with "t.json" q.

(** The first run on the demo video, on a machine without ffmpeg and without
    whisper: the checkpoint and the world after step 1 and after step 2. *)
Definition demo_checkpoint1 : Checkpoint :=
  <["title" := VStr "T"]>
    (<["url" := VStr demo_url]> (<["downloaded" := VBool true]> ∅)).

Definition demo_world1 : World :=
  after_save (demo_env false false) "videos/T" demo_checkpoint1
    (with_file "downloads/T.mp3" "mp3 data" (with_call Download empty_world)).

Definition demo_checkpoint2 : Checkpoint :=
  <["silence_removed" := VBool true]> demo_checkpoint1.

Definition demo_world2 : World :=
  after_save (demo_env false false) "videos/T" demo_checkpoint2
    (with_file "videos/T/audio/T_processed_audio.mp3" "mp3 data"
       (with_call SilenceRemoval demo_world1)).

(** No restriction on the paths written. *)
Definition anywhere (q : string) : Prop := True.

(** A second run on the demo video, on a machine with whisper, starting from
    the finished world: the checkpoint and the world after step 1. *)
Definition finished_checkpoint1 : Checkpoint :=
  <["title" := VStr "T"]>
    (<["url" := VStr demo_url]>
       (<["downloaded" := VBool true]> finished_checkpoint)).

Definition finished_world1 : World :=
  after_save (demo_env false true) "videos/T" finished_checkpoint1
    (with_file "downloads/T.mp3" "mp3 data"
       (with_call Download finished_world)).

(** A machine on which pydub is installed but cannot decode anything (its
    own decoder is missing), without ffmpeg and without whisper. *)
Definition broken_pydub_env : Env :=
  {| yt_dlp_extract_info := yt_dlp_extract_info (demo_env false false);
     PYDUB_AVAILABLE := true;
     AudioSegment_from_mp3 := fun _ => None;
     AudioSegment_from_wav := fun _ => None;
     split_on_silence := fun audio _ _ _ => [audio];
     export_mp3 := fun _ => "mp3 data";
     ffmpeg_installed := false;
     ffmpeg_silenceremove := fun _ _ data => Exit0 data;
     WHISPER_AVAILABLE := false;
     WHISPER_TYPE := None;
     whisper_transcribe := fun _ _ => None;
     faster_whisper_transcribe := fun _ _ => None;
     json_dump_checkpoint := DemoJson.dump_checkpoint;
     json_load_checkpoint := DemoJson.load_checkpoint_text;
     json_dump_segments := DemoJson.dump_segments;
     json_load_segments := DemoJson.load_segments_text |}.

(* ===================================================================== *)
(** ** Vocabulary of the further properties *)
(* ===================================================================== *)

(** The first (last) character of [s], if any, is rejected by [p]. *)
Definition first_not (p : ascii -> bool) (s : string) : Prop :=
  match PyStr.first_char s with
  | Some c => p c = false
  | None => True
  end.

Definition last_not (p : ascii -> bool) (s : string) : Prop :=
  match PyStr.last_char s with
  | Some c => p c = false
  | None => True
  end.

(** A name that needs no sanitising. *)
Definition safe_name (s : string) : Prop :=
  Forall (fun c => PyStr.is_invalid c = false) (PyStr.chars s)
  /\ Forall (fun c => PyStr.isspace c = false) (PyStr.chars s)
  /\ first_not PyStr.is_dot_or_space s
  /\ last_not PyStr.is_dot_or_space s
  /\ (String.length s <= 200)%nat.








(** [[s]] when [b] holds, nothing otherwise. *)
Definition when (b : bool) (s : Stage) : list Stage :=
  if b then [s] else [].

(** The summary of the demo video. *)
Definition demo_summary : string :=
  match generate_summary example_segments "T" with
  | Ok summary => summary
  | Raise _ => ""
  end.

(** The world left by the first run on the demo video, from the empty
    world, on a machine with ffmpeg and whisper. *)
Definition first_run_world : World :=
  {| files :=
       <["downloads/T.mp3" := "mp3 data"]>
         (<["videos/T/.checkpoint.json" :=
              DemoJson.dump_checkpoint finished_checkpoint]>
            (<["videos/T/audio/T_processed_audio.mp3" := "mp3 data"]>
               (<["videos/T/transcriptions/T_transcription.json" :=
                    DemoJson.dump_segments example_segments]>
                  (<["videos/T/summaries/T_summary.md" := demo_summary]> ∅))));
     unwritable := ∅;
     calls := [Download; SilenceRemoval; Transcription; SummaryGeneration] |}.

(** The command line of the demo run, and one for a video that yt_dlp does
    not find. *)
Definition demo_argv : list string := ["process_video.py"; demo_url].


(* ===================================================================== *)
(** ** convert_existing_audio.py *)
(* ===================================================================== *)

(** The second program of the repository converts the WAV files under
    [videos/] to MP3 and deletes them. Conventions, besides those above:
    the run of the ffmpeg transcoder is a function of the data of the
    input; [unlink] of an existing file succeeds; [rglob] lists files, in
    an order that the program does not control, so the loop is a function
    of the list. A path is a normalised string, as [str(Path(...))]. *)

Module convert_existing_audio.

(** [PurePath.name]: what follows the last slash. *)
Definition name (path : string) : string :=
  os_path.slice (os_path.rfind "/" path + 1)
    (Z.of_nat (String.length path)) path.

(** [PurePath.suffix]: from the last dot of the name, unless that dot is
    the first or the last character of the name. *)
Definition suffix (path : string) : string :=
  let name := name path in
  let i := os_path.rfind "." name in
  if (0 <? i) && (i <? Z.of_nat (String.length name) - 1)
  then os_path.slice i (Z.of_nat (String.length name)) name
  else "".

(** [path.with_suffix(suffix)], for a path with a name. *)
Definition with_suffix (path new_suffix : string) : string :=
  let old_suffix := suffix path in
  if (String.length old_suffix =? 0)%nat then path +:+ new_suffix
  else
    os_path.slice 0
      (Z.of_nat (String.length path) - Z.of_nat (String.length old_suffix))
      path
    +:+ new_suffix.

(** The world after [path] has been removed. *)
Definition without_file (path : string) (w : World) : World :=
  {| files := delete path (files w);
     unwritable := unwritable w;
     calls := calls w |}.

(** [path.unlink()] *)
Definition unlink (path : string) : M unit :=
  fun w =>
    match files w !! path with
    | Some _ => (Ok tt, without_file path w)
    | None => (Raise (FileNotFoundError path), w)
    end.

(** [path.stat().st_size] *)
Definition st_size (path : string) : M Z :=
  data <- read_file path ;;
  ret (Z.of_nat (String.length data)).

(** How [main] fails: by an exception that [convert_wav_to_mp3] or the file
    system raises, or by the division of the percentage. *)
Inductive failure : Type :=
| Uncaught (e : exn)
| ZeroDivisionError.

Definition C (A : Type) : Type := World -> (A + failure) * World.

Definition cret {A : Type} (a : A) : C A := fun w => (inl a, w).

Definition fail {A : Type} (f : failure) : C A := fun w => (inr f, w).

Definition cbind {A B : Type} (m : C A) (k : A -> C B) : C B :=
  fun w =>
    match m w with
    | (inl a, w') => k a w'
    | (inr f, w') => (inr f, w')
    end.

Definition run {A : Type} (m : M A) : C A :=
  fun w =>
    match m w with
    | (Ok a, w') => (inl a, w')
    | (Raise e, w') => (inr (Uncaught e), w')
    end.

Declare Scope conv_scope.
Delimit Scope conv_scope with conv.
Notation "x <- m ;; k" := (cbind m (fun x => k))
  (at level 100, m at next level, right associativity) : conv_scope.
Notation "m ;; k" := (cbind m (fun _ => k))
  (at level 100, right associativity) : conv_scope.

(** What [main] reports when it returns. *)
Inductive Report : Type :=
| NothingToConvert
| ConversionComplete (total_saved : Z).

(** [p] matches [videos_dir.rglob("*.wav")]. *)
Definition is_wav (path : string) : bool :=
  os_path.startswith "videos/" path && os_path.endswith ".wav" path.

Definition rglob_wav (w : World) : list string :=
  List.filter is_wav (map fst (map_to_list (files w))).

Section Converter.

Variable env : Env.

(** ffmpeg with the codec libmp3lame at 32 kbit/s and 16 kHz. *)
Variable ffmpeg_libmp3lame : string -> Run.

(** [subprocess.run(cmd, capture_output=True, text=True, check=True)] *)
Definition ffmpeg_transcode (wav_file mp3_file : string) : M unit :=
  if negb (ffmpeg_installed env) then raise (FileNotFoundError "ffmpeg")
  else ffmpeg_process ffmpeg_libmp3lame wav_file mp3_file.

Definition convert_wav_to_mp3 (wav_file mp3_file : string) : M bool :=
  try_except
    (ffmpeg_transcode wav_file mp3_file ;;
     ret true)
    (fun e =>
       match e with
       | CalledProcessError => ret false
       | FileNotFoundError _ => ret false
       | _ => raise e
       end).

(** The body of the [for] loop. The percentage of the last message divides
    by the original size. *)
Definition convert_one (wav_file : string) (total_saved : Z) : C Z :=
  (let mp3_file := with_suffix wav_file ".mp3" in
   original_size <- run (st_size wav_file) ;;
   converted <- run (convert_wav_to_mp3 wav_file mp3_file) ;;
   if converted then
     new_size <- run (st_size mp3_file) ;;
     let saved := original_size - new_size in
     let total_saved := total_saved + saved in
     (if original_size =? 0 then fail ZeroDivisionError else cret tt) ;;
     run (unlink wav_file) ;;
     cret total_saved
   else cret total_saved)%conv.

Fixpoint convert_all (wav_files : list string) (total_saved : Z) : C Z :=
  match wav_files with
  | [] => cret total_saved
  | wav_file :: rest =>
      cbind (convert_one wav_file total_saved) (convert_all rest)
  end.

Definition main : C Report :=
  fun w =>
    match rglob_wav w with
    | [] => (inl NothingToConvert, w)
    | wav_file :: rest =>
        match convert_all (wav_file :: rest) 0 w with
        | (inl total_saved, w') => (inl (ConversionComplete total_saved), w')
        | (inr f, w') => (inr f, w')
        end
    end.

End Converter.

End convert_existing_audio.

(** A world with two recordings under [videos/], one of them empty, and a
    note beside them. *)
Definition wav_world : World :=
  {| files :=
       {[ "videos/T/audio/talk.wav" := "RIFF wav data of the talk";
          "videos/T/audio/empty.wav" := "";
          "videos/T/notes.txt" := "notes" ]};
     unwritable := ∅;
     calls := [] |}.

(** A transcoder that keeps the first four characters of its input, and
    exits with an error on an empty input, as ffmpeg does. *)
Definition demo_transcoder (data : string) : Run :=
  match data with
  | EmptyString => Fails CalledProcessError None
  | _ => Exit0 (String.substring 0 4 data)
  end.

(** The footprint of the converter: from [w] to [w'], the files listed in
    [wav_files] may have been removed, each only with a file at its MP3
    path, and files whose names end in [.mp3] may have been written;
    nothing else has changed. *)
Record converts (wav_files : list string) (w w' : World) : Prop := {
  converts_unwritable : unwritable w' = unwritable w;
  converts_calls : calls w' = calls w;
  converts_files :
    forall q, ~ ends_with ".mp3" q -> q ∉ wav_files ->
      files w' !! q = files w !! q;
  converts_kept :
    forall q, file_exists w q = true -> q ∉ wav_files ->
      file_exists w' q = true;
  converts_removed :
    forall q, q ∈ wav_files -> file_exists w q = true ->
      file_exists w' q = true
      \/ file_exists w' (convert_existing_audio.with_suffix q ".mp3") = true;
}.

(** A WAV file that the converter can convert: it is not empty, the
    transcoder accepts it and its MP3 path can be written. *)
Definition convertible (transcoder : string -> Run) (w : World)
    (wav_file : string) : Prop :=
  exists data out,
    files w !! wav_file = Some data
    /\ data <> ""
    /\ transcoder data = Exit0 out
    /\ convert_existing_audio.with_suffix wav_file ".mp3" ∉ unwritable w.

(** The bytes saved by the conversion of one file and of a list of files. *)
Definition saving (transcoder : string -> Run) (w : World)
    (wav_file : string) : Z :=
  match files w !! wav_file with
  | Some data =>
      match transcoder data with
      | Exit0 out =>
          Z.of_nat (String.length data) - Z.of_nat (String.length out)
      | Fails _ _ => 0
      end
  | None => 0
  end.

Definition total_saving (transcoder : string -> Run) (w : World)
    (wav_files : list string) : Z :=
  foldr (fun wav_file total => saving transcoder w wav_file + total) 0
    wav_files.

(** A world with one recording under [videos/]. *)
Definition talk_world : World :=
  {| files := {[ "videos/T/audio/talk.wav" := "RIFF wav data of the talk" ]};
     unwritable := ∅;
     calls := [] |}.



(** A value that [-], [//] and [%] accept. *)
Definition is_number (v : pyval) : bool :=
  match number v with
  | Ok _ => true
  | Raise _ => false
  end.

(** A segment with its three keys, numbers for its times and a string for
    its text. *)
Definition well_formed (s : Segment) : bool :=
  match seg_start s, seg_end s, seg_text s with
  | Some start_, Some end_, Some (VStr _) => is_number start_ && is_number end_
  | _, _, _ => false
  end.

(** The two exceptions of a malformed segment. *)
Definition key_or_type (e : exn) : Prop :=
  match e with
  | KeyError _ => True
  | TypeError => True
  | _ => False
  end.

(** A result that, if it is an exception, is one of these two. *)
Definition only_key_or_type {A : Type} (r : res A) : Prop :=
  match r with
  | Ok _ => True
  | Raise e => key_or_type e
  end.

(** A segment whose text is not a string, and one whose end is not a
    number. *)
Definition segment_with_null_text : Segment :=
  {| seg_start := Some (VInt 0);
     seg_end := Some (VInt 5);
     seg_text := Some VNone |}.

Definition segment_with_text_end : Segment :=
  {| seg_start := Some (VInt 0);
     seg_end := Some (VStr "5");
     seg_text := Some (VStr "x") |}.

(** A machine without pydub on which the ffmpeg program is there but cannot
    be executed. *)
Definition locked_ffmpeg_env : Env :=
  {| yt_dlp_extract_info := yt_dlp_extract_info (demo_env true false);
     PYDUB_AVAILABLE := false;
     AudioSegment_from_mp3 := fun _ => None;
     AudioSegment_from_wav := fun _ => None;
     split_on_silence := fun audio _ _ _ => [audio];
     export_mp3 := fun _ => "mp3 data";
     ffmpeg_installed := true;
     ffmpeg_silenceremove := fun _ _ _ => Fails PermissionError None;
     WHISPER_AVAILABLE := false;
     WHISPER_TYPE := None;
     whisper_transcribe := fun _ _ => None;
     faster_whisper_transcribe := fun _ _ => None;
     json_dump_checkpoint := DemoJson.dump_checkpoint;
     json_load_checkpoint := DemoJson.load_checkpoint_text;
     json_dump_segments := DemoJson.dump_segments;
     json_load_segments := DemoJson.load_segments_text |}.

(** [w'] is reached from [w] as in [evolves], except for the files in the
    directory [dir] and below it, which may have been written and removed. *)
Record spares (dir : string) (paths : string -> Prop) (stages : list Stage)
    (w w' : World) : Prop := {
  spares_unwritable : unwritable w' = unwritable w;
  spares_files :
    forall q, under dir q = false -> ~ paths q -> files w' !! q = files w !! q;
  spares_exists :
    forall q, under dir q = false ->
              file_exists w q = true -> file_exists w' q = true;
  spares_calls :
    exists cs, calls w' = calls w ++ cs /\ Forall (fun s => s ∈ stages) cs;
}.

(** The paths in the folder of the videos. *)
Definition in_videos (q : string) : Prop :=
  exists rest, q = "videos/" +:+ rest.


(** A world in which the run on the demo video has been interrupted after
    its third stage, and in which the first segment of the transcription
    file has no [start]. *)
Definition headless_transcription_world : World :=
  {| files :=
       <["videos/T/.checkpoint.json" :=
           DemoJson.dump_checkpoint
             (<["silence_removed" := VBool true]>
                (<["transcribed" := VBool true]> ∅))]>
         (<["videos/T/audio/T_processed_audio.mp3" := "mp3 data"]>
            (<["videos/T/transcriptions/T_transcription.json" :=
                 DemoJson.dump_segments
                   [segment_without_start; mk_segment 5 9 "y"]]> ∅));
     unwritable := ∅;
     calls := [] |}.

(** A transcoder that cannot be executed. *)
Definition locked_transcoder (data : string) : Run :=
  Fails PermissionError None.

(* ===================================================================== *)
(** * Verified properties *)
(* ===================================================================== *)

(** ** The embedding at work *)

Example sanitize_filename_example :
  sanitize_filename "..Title: part  1?.." = "Title_part_1".
Proof. reflexivity. Qed.

Example os_path_join_example :
  os_path.join "videos" "T" = "videos/T"
  /\ os_path.join "videos/" "T" = "videos/T"
  /\ os_path.join "videos" "/T" = "/T".
Proof. repeat split. Qed.

Example splitext_root_example :
  os_path.splitext_root "downloads/My title.webm" = "downloads/My title"
  /\ os_path.splitext_root "downloads/.hidden" = "downloads/.hidden".
Proof. split; reflexivity. Qed.

Example fmt02d_example :
  PyStr.fmt02d 5 = "05" /\ PyStr.fmt02d 95 = "95" /\ PyStr.fmt02d 123 = "123".
Proof. repeat split. Qed.

Example artifacts_example :
  processed_audio_of "T" = "videos/T/audio/T_processed_audio.mp3"
  /\ transcription_file_of "T" = "videos/T/transcriptions/T_transcription.json"
  /\ summary_file_of "T" = "videos/T/summaries/T_summary.md"
  /\ checkpoint_path (video_folder_of "T") = "videos/T/.checkpoint.json".
Proof. repeat split. Qed.

Example demo_json_example :
  DemoJson.load_checkpoint_text (DemoJson.dump_checkpoint finished_checkpoint)
  = Some (JDict finished_checkpoint)
  /\ DemoJson.load_segments_text (DemoJson.dump_segments example_segments)
     = Some example_segments
  /\ DemoJson.load_segments_text "[ { " = None.
Proof. repeat split; vm_compute; reflexivity. Qed.

(** A first run of [main] on the demo video calls the four stage functions
    and returns; a second run, from the world that the first one left, calls
    [download_video] only. *)
Example first_run_example :
  calls (snd (main_body (demo_env false true) demo_url empty_world))
  = [Download; SilenceRemoval; Transcription; SummaryGeneration]
  /\ fst (main (demo_env false true) ["process_video.py"; demo_url] empty_world)
     = Returned.
Proof. split; vm_compute; reflexivity. Qed.

Example second_run_example :
  calls (snd (main_body (demo_env false true) demo_url
                (snd (main_body (demo_env false true) demo_url empty_world))))
  = [Download; SilenceRemoval; Transcription; SummaryGeneration; Download].
Proof. vm_compute. reflexivity. Qed.

Example usage_example :
  main (demo_env false true) ["process_video.py"] empty_world
  = (SysExit 1, empty_world).
Proof. reflexivity. Qed.

(** ** Strings *)

Lemma append_cons (x : ascii) (a b : string) :
  String x a +:+ b = String x (a +:+ b).
Proof. reflexivity. Qed.

Lemma append_nil_l (b : string) : "" +:+ b = b.
Proof. reflexivity. Qed.

Lemma append_nil_r (a : string) : a +:+ "" = a.
Proof. induction a as [|x a IH]; [done|]. by rewrite append_cons, IH. Qed.

Lemma append_assoc (a b c : string) : (a +:+ b) +:+ c = a +:+ b +:+ c.
Proof.
  induction a as [|x a IH]; [done|]. by rewrite !append_cons, IH.
Qed.

Lemma length_append (a b : string) :
  String.length (a +:+ b) = (String.length a + String.length b)%nat.
Proof.
  induction a as [|x a IH]; [done|]. rewrite append_cons. simpl. by rewrite IH.
Qed.

Lemma chars_append (a b : string) :
  PyStr.chars (a +:+ b) = PyStr.chars a ++ PyStr.chars b.
Proof.
  induction a as [|x a IH]; [done|].
  rewrite append_cons. unfold PyStr.chars in *. simpl. by rewrite IH.
Qed.

(** ** generate_summary on well-formed segments *)

Lemma transcription_lines_of_ts (l : list TranscriptSegment) (lines : list string) :
  transcription_lines (map of_ts l) lines
  = Ok (lines ++ map transcription_line l).
Proof.
  revert lines. induction l as [|s l IH]; intros lines; simpl.
  - by rewrite app_nil_r.
  - rewrite IH. by rewrite <- app_assoc.
Qed.

Lemma group_from_not_nil (interval : Z) (rest : list TranscriptSegment) (w : Window) :
  group_from interval w rest <> [].
Proof.
  revert w. induction rest as [|s rest IH]; intros w; simpl; [done|].
  destruct (interval <? ts_start s - last_end w); [done|apply IH].
Qed.

Lemma group_from_length_pos (interval : Z) (rest : list TranscriptSegment) (w : Window) :
  (0 < length (group_from interval w rest))%nat.
Proof.
  pose proof (group_from_not_nil interval rest w) as H.
  destruct (group_from interval w rest); [done|simpl; lia].
Qed.

Lemma source_labels_length (n : nat) (c : Z) : length (source_labels c n) = n.
Proof.
  revert c. induction n as [|n IH]; intros c; [done|].
  destruct n as [|n]; [done|].
  change (length (c :: source_labels (c + 1) (S n)) = S (S n)).
  cbn [length]. by rewrite IH.
Qed.

Lemma last_map_of_ts (l : list TranscriptSegment) :
  last (map of_ts l) = of_ts <$> last l.
Proof.
  induction l as [|s [|s' l] IH]; [done..|].
  exact IH.
Qed.

Lemma final_end_cons (w : Window) (s : TranscriptSegment) (rest : list TranscriptSegment) :
  final_end w (s :: rest) = final_end (open_window s) rest.
Proof.
  unfold final_end. destruct rest as [|s' rest]; [reflexivity|].
  rewrite last_cons_cons.
  destruct (last (s' :: rest)) eqn:E; [reflexivity|].
  by apply last_None in E.
Qed.

Lemma final_end_absorb (w : Window) (s : TranscriptSegment) (rest : list TranscriptSegment) :
  final_end w (s :: rest) = final_end (absorb w s) rest.
Proof.
  unfold final_end. destruct rest as [|s' rest]; [reflexivity|].
  rewrite last_cons_cons.
  destruct (last (s' :: rest)) eqn:E; [reflexivity|].
  by apply last_None in E.
Qed.

Lemma strings_map_VStr (l : list string) : strings (map VStr l) = Ok l.
Proof. induction l as [|x l IH]; [done|]. cbn [map strings]. by rewrite IH. Qed.

Lemma last_highlight_tracks (last_end_ : Z) (st : LoopState) (w : Window) :
  tracks st w ->
  last_highlight last_end_ st
  = Ok (summary_lines st
        ++ [highlight_heading (first_start w) last_end_ (highlight_count st + 1);
            highlight_body (texts w)]).
Proof.
  destruct st as [now count items start_ lines].
  intros (Htext & Hne & Htime & Hstart). cbn in Htext, Htime, Hstart.
  subst items now start_. unfold last_highlight.
  cbn [current_highlight_text current_highlight_start summary_lines
       highlight_count].
  pose proof (strings_map_VStr (texts w)) as Hs.
  destruct (texts w) as [|t ts]; [done|].
  cbn [map] in *. rewrite Hs. reflexivity.
Qed.

Lemma save_previous_tracks (i : nat) (st : LoopState) (w : Window) :
  i <> 0%nat -> tracks st w ->
  save_previous i st
  = Ok {| current_time := current_time st;
          highlight_count := highlight_count st + 1;
          current_highlight_text := current_highlight_text st;
          current_highlight_start := current_highlight_start st;
          summary_lines :=
            summary_lines st
            ++ [highlight_heading (first_start w) (last_end w)
                  (highlight_count st);
                highlight_body (texts w)] |}.
Proof.
  destruct st as [now count items start_ lines].
  intros Hi (Htext & Hne & Htime & Hstart). cbn in Htext, Htime, Hstart.
  subst items now start_. unfold save_previous.
  cbn [current_highlight_text current_highlight_start summary_lines
       highlight_count current_time].
  assert ((0 <? i)%nat = true) as -> by (apply Nat.ltb_lt; lia).
  pose proof (strings_map_VStr (texts w)) as Hs.
  destruct (texts w) as [|t ts]; [done|].
  cbn [map number res_bind] in *. rewrite Hs. reflexivity.
Qed.

(** One iteration on a well-formed segment, the local variables describing
    the window [w]. *)
Lemma loop_body_tracks (i : nat) (s : TranscriptSegment) (st : LoopState) (w : Window) :
  i <> 0%nat -> tracks st w ->
  loop_body i (of_ts s) st
  = Ok (if highlight_interval <? ts_start s - last_end w
        then {| current_time := VInt (ts_end s);
                highlight_count := highlight_count st + 1;
                current_highlight_text := [VStr (ts_text s)];
                current_highlight_start := ts_start s;
                summary_lines :=
                  summary_lines st
                  ++ [highlight_heading (first_start w) (last_end w)
                        (highlight_count st);
                      highlight_body (texts w)] |}
        else {| current_time := VInt (ts_end s);
                highlight_count := highlight_count st;
                current_highlight_text :=
                  current_highlight_text st ++ [VStr (ts_text s)];
                current_highlight_start := current_highlight_start st;
                summary_lines := summary_lines st |}).
Proof.
  intros Hi Htracks. pose proof Htracks as (Htext & Hne & Htime & Hstart).
  unfold loop_body. cbn [of_ts mk_segment seg_start seg_end seg_text seg_key
                           number res_bind].
  rewrite Htime. cbn [number res_bind].
  assert ((i =? 0)%nat = false) as -> by (apply Nat.eqb_neq; done).
  rewrite orb_false_r.
  destruct (highlight_interval <? ts_start s - last_end w); [|reflexivity].
  by rewrite (save_previous_tracks i st w Hi Htracks).
Qed.

Lemma highlight_loop_tracks (rest : list TranscriptSegment) :
  forall (i : nat) (st : LoopState) (w : Window),
    i <> 0%nat ->
    tracks st w ->
    exists st',
      highlight_loop i (map of_ts rest) st = Ok st'
      /\ last_highlight (final_end w rest) st'
         = Ok (summary_lines st
               ++ render_highlights (group_from highlight_interval w rest)
                    (source_labels (highlight_count st)
                       (length (group_from highlight_interval w rest)))).
Proof.
  induction rest as [|s rest IH]; intros i st w Hi Htracks.
  - exists st. split; [done|].
    rewrite (last_highlight_tracks _ st w Htracks). reflexivity.
  - pose proof Htracks as (Htext & Hne & Htime & Hstart).
    cbn [map highlight_loop].
    rewrite (loop_body_tracks i s st w Hi Htracks). cbn [res_bind].
    cbn [group_from].
    destruct (highlight_interval <? ts_start s - last_end w) eqn:Hgap.
    + lazymatch goal with
      | |- context [highlight_loop _ _ ?st1] =>
          destruct (IH (S i) st1 (open_window s)) as (st' & Hloop & Hlast);
            [done| |]
      end.
      2:{ exists st'. split; [exact Hloop|].
          rewrite final_end_cons, Hlast.
          pose proof (group_from_length_pos highlight_interval rest
                        (open_window s)) as Hpos.
          destruct (length (group_from highlight_interval (open_window s) rest))
            as [|n] eqn:Hlen; [lia|].
          cbn [length]. rewrite Hlen.
          change (source_labels (highlight_count st) (S (S n)))
            with (highlight_count st
                  :: source_labels (highlight_count st + 1) (S n)).
          cbn [render_highlights summary_lines highlight_count].
          rewrite <- app_assoc. reflexivity. }
      by repeat split.
    + lazymatch goal with
      | |- context [highlight_loop _ _ ?st1] =>
          destruct (IH (S i) st1 (absorb w s)) as (st' & Hloop & Hlast);
            [done| |]
      end.
      2:{ exists st'. split; [exact Hloop|].
          by rewrite final_end_absorb, Hlast. }
      repeat split; cbn.
      * by rewrite Htext, map_app.
      * intros H. by apply app_eq_nil in H as [_ ?].
      * exact Hstart.
Qed.

(** On well-formed segments the report is the header, the highlights of the
    specification's grouping with the numbers of the source, and the full
    transcription. *)
Lemma generate_summary_of_ts (s : TranscriptSegment) (rest : list TranscriptSegment) (title : string) :
  generate_summary (map of_ts (s :: rest)) title
  = Ok (report title s rest
          (source_labels 0
             (length (group_highlights highlight_interval (s :: rest))))).
Proof.
  unfold generate_summary.
  rewrite last_map_of_ts.
  assert (last (s :: rest) = Some (default s (last rest))) as Hlast.
  { destruct rest as [|s' rest]; [done|].
    change (last (s :: s' :: rest)) with (last (s' :: rest)).
    destruct (last (s' :: rest)) eqn:E; [done|].
    by apply last_None in E. }
  rewrite Hlast. simpl fmap. cbv beta iota.
  change (seg_end (of_ts (default s (last rest))))
    with (Some (VInt (ts_end (default s (last rest))))).
  cbv beta iota. cbn [number res_bind].
  assert (ts_end (default s (last rest)) = final_end (open_window s) rest) as ->.
  { unfold final_end. by destruct (last rest). }
  cbn [map highlight_loop]. unfold loop_body at 1.
  cbn [of_ts mk_segment seg_start seg_end seg_text seg_key number res_bind
       current_time Nat.eqb].
  rewrite orb_true_r. cbn [save_previous current_highlight_text res_bind].
  set (st1 := {| current_time := VInt (ts_end s);
                 highlight_count := 0;
                 current_highlight_text := [VStr (ts_text s)];
                 current_highlight_start := ts_start s;
                 summary_lines :=
                   header_lines title (final_end (open_window s) rest)
                     (length (of_ts s :: map of_ts rest)) |}).
  destruct (highlight_loop_tracks rest 1 st1 (open_window s))
    as (st' & Hloop & Hlines); [done|by repeat split|].
  lazymatch goal with
  | |- context [highlight_loop 1 (map of_ts rest) ?x] => change x with st1
  end.
  rewrite Hloop. cbn [res_bind]. rewrite Hlines. cbn [res_bind].
  change (of_ts s :: map of_ts rest) with (map of_ts (s :: rest)).
  rewrite transcription_lines_of_ts. cbn [res_bind].
  unfold report. subst st1. cbn [summary_lines highlight_count group_highlights].
  cbn [length]. rewrite length_map. f_equal. f_equal.
  rewrite <- !app_assoc. reflexivity.
Qed.


Example highlight_heading_example :
  highlight_heading 90 95 2
  = "### [01:30 - 01:35] Highlight 2" +:+ PyStr.nl +:+ PyStr.nl.
Proof. reflexivity. Qed.

(** The grouping of the specification, case by case. *)
Lemma group_from_opens (interval : Z) (w : Window) (s : TranscriptSegment) (rest : list TranscriptSegment) :
  interval < ts_start s - last_end w ->
  group_from interval w (s :: rest)
  = close_window w :: group_from interval (open_window s) rest.
Proof. intros H. cbn [group_from]. by rewrite (proj2 (Z.ltb_lt _ _) H). Qed.

Lemma group_from_absorbs (interval : Z) (w : Window) (s : TranscriptSegment) (rest : list TranscriptSegment) :
  ts_start s - last_end w <= interval ->
  group_from interval w (s :: rest) = group_from interval (absorb w s) rest.
Proof. intros H. cbn [group_from]. by rewrite (proj2 (Z.ltb_ge _ _) H). Qed.

Example group_highlights_example :
  group_highlights 60 example_ts
  = [ {| window_start := 0; window_end := 20; ordered_text := "a b" |};
      {| window_start := 90; window_end := 95; ordered_text := "c" |} ].
Proof. reflexivity. Qed.

(** C9. Given an empty segment list, [generate_summary] returns the short
    placeholder document: the title header followed by the notice that no
    transcription is available. It does not raise. *)
Theorem generate_summary_empty (title : string) :
  generate_summary [] title
  = Ok ("# Video Summary: " +:+ title +:+ PyStr.nl +:+ PyStr.nl
        +:+ "No transcription available.").
Proof.
  unfold generate_summary. cbn [last].
  unfold no_transcription, title_line.
  by rewrite !append_assoc.
Qed.


(** C3. On the three segments of the grouping example the report numbers its
    two highlights 0 and 2: the heading written inside the loop carries the
    count before it is incremented, the heading written after the loop
    carries the count plus one. Numbering from 1 in emission order would give
    1 and 2. *)
Theorem highlight_numbering_example :
  generate_summary example_segments "T"
  = Ok (PyStr.concat
          (header_lines "T" 95 3
           ++ [ "### [00:00 - 00:20] Highlight 0" +:+ PyStr.nl +:+ PyStr.nl;
                "a b" +:+ PyStr.nl +:+ PyStr.nl;
                "### [01:30 - 01:35] Highlight 2" +:+ PyStr.nl +:+ PyStr.nl;
                "c" +:+ PyStr.nl +:+ PyStr.nl ]
           ++ ["---" +:+ PyStr.nl +:+ PyStr.nl; full_transcription_heading]
           ++ map transcription_line example_ts))
  /\ generate_summary example_segments "T"
     <> Ok (report "T" {| ts_start := 0; ts_end := 10; ts_text := "a" |}
              [ {| ts_start := 15; ts_end := 20; ts_text := "b" |};
                {| ts_start := 90; ts_end := 95; ts_text := "c" |} ]
              [1; 2]).
Proof.
  split; [reflexivity|].
  vm_compute. intros H. discriminate H.
Qed.

(** The numbers of the highlights, in general: with [n] highlights the
    source writes 0, 1, ..., n - 2 and then n. *)
Lemma highlight_numbering_general (s : TranscriptSegment) (rest : list TranscriptSegment) (title : string) :
  generate_summary (map of_ts (s :: rest)) title
  = Ok (report title s rest
          (source_labels 0
             (length (group_highlights highlight_interval (s :: rest))))).
Proof. apply generate_summary_of_ts. Qed.

(** ** generate_summary on malformed segments *)

Lemma res_bind_ok {A B : Type} (r : res A) (k : A -> res B) (b : B) :
  res_bind r k = Ok b -> exists a, r = Ok a /\ k a = Ok b.
Proof. destruct r as [a|e]; [|done]. intros H. by exists a. Qed.

Lemma only_bind {A B : Type} (r : res A) (k : A -> res B) :
  only_key_or_type r -> (forall a, only_key_or_type (k a)) ->
  only_key_or_type (res_bind r k).
Proof. destruct r as [a|e]; [intros _ H; apply H|by intros H _]. Qed.

Lemma only_seg_key {A : Type} (key : string) (field : option A) :
  only_key_or_type (seg_key key field).
Proof. by destruct field. Qed.

Lemma only_number (v : pyval) : only_key_or_type (number v).
Proof. by destruct v. Qed.

Lemma only_strings (items : list pyval) : only_key_or_type (strings items).
Proof.
  induction items as [|v items IH]; [done|].
  destruct v; try done. cbn [strings]. by apply only_bind.
Qed.

Ltac only_step :=
  lazymatch goal with
  | |- only_key_or_type (res_bind _ _) => apply only_bind; [|intros ?]
  | |- only_key_or_type (seg_key _ _) => apply only_seg_key
  | |- only_key_or_type (number _) => apply only_number
  | |- only_key_or_type (strings _) => apply only_strings
  | |- only_key_or_type (Ok _) => exact I
  | |- only_key_or_type (if ?b then _ else _) => destruct b
  | |- only_key_or_type (match ?x with _ => _ end) => destruct x
  end.

Lemma only_loop_body (i : nat) (s : Segment) (st : LoopState) :
  only_key_or_type (loop_body i s st).
Proof. unfold loop_body, save_previous. repeat only_step. Qed.

Lemma only_highlight_loop (segments : list Segment) (i : nat) (st : LoopState) :
  only_key_or_type (highlight_loop i segments st).
Proof.
  revert i st. induction segments as [|s segments IH]; intros i st; [done|].
  cbn [highlight_loop]. apply only_bind; [apply only_loop_body|].
  intros st'. apply IH.
Qed.

Lemma only_transcription_lines (segments : list Segment) (lines : list string) :
  only_key_or_type (transcription_lines segments lines).
Proof.
  revert lines. induction segments as [|s segments IH]; intros lines; [done|].
  cbn [transcription_lines]. repeat only_step. apply IH.
Qed.

(** [generate_summary] raises nothing but [KeyError] and [TypeError]. *)
Lemma only_generate_summary (segments : list Segment) (title : string) :
  only_key_or_type (generate_summary segments title).
Proof.
  unfold generate_summary, last_highlight.
  repeat first [apply only_highlight_loop
               |apply only_transcription_lines
               |only_step].
Qed.

Lemma strings_app_inv (items : list pyval) (v : pyval) (l : list string) :
  strings (items ++ [v]) = Ok l ->
  (exists l', strings items = Ok l') /\ exists text, v = VStr text.
Proof.
  revert l. induction items as [|x items IH]; intros l.
  - destruct v; try done. intros _. split; by eexists.
  - destruct x; try done. cbn [app strings].
    intros (l1 & H1 & _)%res_bind_ok. destruct (IH _ H1) as [[l' ->] Hv].
    split; [by eexists|exact Hv].
Qed.

(** What an iteration that returns has read from its segment. *)
Lemma loop_body_ok (i : nat) (s : Segment) (st st' : LoopState) :
  loop_body i s st = Ok st' ->
  is_number (current_time st) = true
  /\ exists start_ end_ text,
       seg_start s = Some start_ /\ is_number start_ = true
       /\ seg_end s = Some end_ /\ current_time st' = end_
       /\ seg_text s = Some text
       /\ (current_highlight_text st' = current_highlight_text st ++ [text]
           \/ current_highlight_text st' = [text]
              /\ (i <> 0%nat ->
                  exists l, strings (current_highlight_text st) = Ok l)).
Proof.
  unfold loop_body.
  destruct (seg_start s) as [start_|]; [|done]. cbn [seg_key res_bind].
  intros (z & Hz & H)%res_bind_ok.
  apply res_bind_ok in H as (now & Hnow & H).
  split; [unfold is_number; by rewrite Hnow|].
  exists start_.
  destruct ((highlight_interval <? z - now) || (i =? 0)%nat).
  - apply res_bind_ok in H as (st1 & Hsave & H).
    destruct (seg_text s) as [text|]; [|done].
    destruct (seg_end s) as [end_|]; [|done].
    cbn [seg_key res_bind] in H. injection H as <-.
    exists end_, text. unfold is_number. rewrite Hz.
    repeat split. right. split; [done|].
    intros Hi. revert Hsave. unfold save_previous.
    destruct (current_highlight_text st) as [|x items]; [by eexists|].
    assert ((0 <? i)%nat = true) as -> by (apply Nat.ltb_lt; lia).
    intros (e & _ & (l & Hl & _)%res_bind_ok)%res_bind_ok. by exists l.
  - destruct (seg_text s) as [text|]; [|done].
    destruct (seg_end s) as [end_|]; [|done].
    cbn [seg_key res_bind] in H. injection H as <-.
    exists end_, text. unfold is_number. rewrite Hz.
    repeat split. by left.
Qed.

Lemma highlight_loop_number (segments : list Segment) (i : nat) (st st' : LoopState) :
  highlight_loop i segments st = Ok st' ->
  is_number (current_time st') = true ->
  is_number (current_time st) = true.
Proof.
  destruct segments as [|s segments]; [by intros [= <-]|].
  cbn [highlight_loop]. intros (st1 & H1 & _)%res_bind_ok _.
  by apply loop_body_ok in H1 as [? _].
Qed.

Lemma highlight_loop_last (segments : list Segment) (last_segment : Segment) :
  forall (i : nat) (st st' : LoopState),
    highlight_loop i segments st = Ok st' ->
    last segments = Some last_segment ->
    seg_end last_segment = Some (current_time st').
Proof.
  induction segments as [|s segments IH]; intros i st st'; [done|].
  cbn [highlight_loop]. intros (st1 & H1 & Hrest)%res_bind_ok Hlast.
  destruct segments as [|s2 segments].
  - injection Hlast as <-. injection Hrest as <-.
    apply loop_body_ok in H1 as (_ & a & e & t & _ & _ & He & Ht & _).
    by rewrite He, Ht.
  - apply (IH _ _ _ Hrest). exact Hlast.
Qed.

(** A loop that returns, and whose last highlight can be joined and ends at
    a number, has read well-formed segments only. *)
Lemma highlight_loop_well_formed (segments : list Segment) :
  forall (i : nat) (st st' : LoopState),
    i <> 0%nat ->
    highlight_loop i segments st = Ok st' ->
    (exists l, strings (current_highlight_text st') = Ok l) ->
    is_number (current_time st') = true ->
    (exists l, strings (current_highlight_text st) = Ok l)
    /\ forallb well_formed segments = true.
Proof.
  induction segments as [|s segments IH]; intros i st st' Hi.
  - intros [= <-] Hs _. by split.
  - cbn [highlight_loop]. intros (st1 & H1 & Hrest)%res_bind_ok Hs Hn.
    destruct (IH (S i) st1 st' (Nat.neq_succ_0 i) Hrest Hs Hn) as [[l1 Hl1] Hwf].
    pose proof (highlight_loop_number _ _ _ _ Hrest Hn) as Hn1.
    apply loop_body_ok in H1
      as (_ & a & e & t & Ha & Hna & He & Hte & Ht & Htexts).
    rewrite Hte in Hn1.
    assert ((exists l, strings (current_highlight_text st) = Ok l)
            /\ exists text, t = VStr text) as [Hst [text ->]].
    { destruct Htexts as [Happ | [Hone Hprev]].
      - rewrite Happ in Hl1. by apply strings_app_inv in Hl1.
      - rewrite Hone in Hl1. split; [by apply Hprev|].
        by apply (strings_app_inv []) in Hl1 as [_ ?]. }
    split; [exact Hst|].
    cbn [forallb]. rewrite Hwf, andb_true_r.
    unfold well_formed. by rewrite Ha, He, Ht, Hna, Hn1.
Qed.

(** [generate_summary] returns a report for well-formed segments only. *)
Lemma generate_summary_ok (segments : list Segment) (title doc : string) (last_segment : Segment) :
  last segments = Some last_segment ->
  is_Some (seg_end last_segment) ->
  generate_summary segments title = Ok doc ->
  forallb well_formed segments = true.
Proof.
  intros Hlast [end_value Hend]. unfold generate_summary. rewrite Hlast, Hend.
  intros (total & Htotal & H)%res_bind_ok.
  apply res_bind_ok in H as (st' & Hloop & H).
  apply res_bind_ok in H as (lines & Hlines & _).
  assert (is_number (current_time st') = true) as Hn.
  { pose proof (highlight_loop_last _ _ _ _ _ Hloop Hlast) as H.
    rewrite Hend in H. injection H as <-.
    unfold is_number. by rewrite Htotal. }
  assert (exists l, strings (current_highlight_text st') = Ok l) as Hs.
  { revert Hlines. unfold last_highlight.
    destruct (current_highlight_text st') as [|x items]; [by eexists|].
    intros (l & Hl & _)%res_bind_ok. by exists l. }
  destruct segments as [|s segments]; [done|].
  cbn [highlight_loop] in Hloop.
  apply res_bind_ok in Hloop as (st1 & H1 & Hrest).
  destruct (highlight_loop_well_formed segments 1 st1 st' (Nat.neq_succ_0 0)
              Hrest Hs Hn) as [[l1 Hl1] Hwf].
  pose proof (highlight_loop_number _ _ _ _ Hrest Hn) as Hn1.
  apply loop_body_ok in H1
    as (_ & a & e & t & Ha & Hna & He & Hte & Ht & Htexts).
  rewrite Hte in Hn1.
  assert (exists text, t = VStr text) as [text ->].
  { cbn [current_highlight_text app] in Htexts.
    destruct Htexts as [Hone | [Hone _]]; rewrite Hone in Hl1;
      by apply (strings_app_inv []) in Hl1 as [_ ?]. }
  cbn [forallb]. rewrite Hwf, andb_true_r.
  unfold well_formed. by rewrite Ha, He, Ht, Hna, Hn1.
Qed.

(** C7. [generate_summary] guards one malformation only. When the last
    segment of a non-empty list lacks its [end] key, it returns the
    placeholder document that says the transcription data is invalid. When
    the last segment has the key, nothing is caught: if its value is not a
    number the function raises [TypeError], and whenever some segment of the
    list lacks a key, or holds a time that is not a number or a text that is
    not a string, it raises [KeyError] or [TypeError] instead of returning a
    placeholder. *)
Theorem generate_summary_malformed (segments : list Segment) (title : string) (last_segment : Segment) :
  last segments = Some last_segment ->
  (seg_end last_segment = None ->
   generate_summary segments title
   = Ok ("# Video Summary: " +:+ title +:+ PyStr.nl +:+ PyStr.nl
         +:+ "Invalid transcription data."))
  /\ (forall end_value : pyval,
        seg_end last_segment = Some end_value ->
        is_number end_value = false ->
        generate_summary segments title = Raise TypeError)
  /\ (is_Some (seg_end last_segment) ->
      forallb well_formed segments = false ->
      exists e,
        generate_summary segments title = Raise e
        /\ (e = TypeError \/ exists key, e = KeyError key)).
Proof.
  intros Hlast. split; [|split].
  - unfold generate_summary. rewrite Hlast. intros ->.
    unfold invalid_transcription, title_line. by rewrite !append_assoc.
  - unfold generate_summary. rewrite Hlast. intros end_value -> Hn.
    unfold is_number in Hn. destruct end_value; try done.
  - intros Hend Hbad.
    pose proof (only_generate_summary segments title) as Honly.
    destruct (generate_summary segments title) as [doc|e] eqn:E.
    + rewrite (generate_summary_ok _ _ _ _ Hlast Hend E) in Hbad. done.
    + exists e. split; [done|].
      destruct e; try done; [right; by eexists|by left].
Qed.

Lemma generate_summary_malformed_witness :
  (seg_end segment_without_start = None ->
   generate_summary [segment_without_start] "T"
   = Ok ("# Video Summary: " +:+ "T" +:+ PyStr.nl +:+ PyStr.nl
         +:+ "Invalid transcription data."))
  /\ (forall end_value : pyval,
        seg_end segment_without_start = Some end_value ->
        is_number end_value = false ->
        generate_summary [segment_without_start] "T" = Raise TypeError)
  /\ (is_Some (seg_end segment_without_start) ->
      forallb well_formed [segment_without_start] = false ->
      exists e,
        generate_summary [segment_without_start] "T" = Raise e
        /\ (e = TypeError \/ exists key, e = KeyError key)).
Proof.
  refine (generate_summary_malformed [segment_without_start] "T"
            segment_without_start _).
  reflexivity.
Defined.

(** The three cases on lists of one segment: a segment without [end] gives
    the placeholder; a segment without [start], a segment whose text is
    [None] and a segment whose end is a string make [generate_summary]
    raise. *)
Lemma generate_summary_malformed_raises :
  generate_summary [segment_without_end] "T" = Ok (invalid_transcription "T")
  /\ generate_summary [segment_without_start] "T" = Raise (KeyError "start")
  /\ generate_summary [segment_with_null_text] "T" = Raise TypeError
  /\ generate_summary [segment_with_text_end] "T" = Raise TypeError.
Proof. repeat split; reflexivity. Qed.

(** ** sanitize_filename *)

Lemma remove_invalid_chars (s : string) :
  Forall (fun c => PyStr.is_invalid c = false) (PyStr.chars (PyStr.remove_invalid s)).
Proof.
  induction s as [|c s IH]; [constructor|].
  cbn [PyStr.remove_invalid]. destruct (PyStr.is_invalid c) eqn:E; [exact IH|].
  constructor; assumption.
Qed.

Lemma sub_spaces_chars (P : ascii -> Prop) (s : string) :
  P "_"%char ->
  Forall P (PyStr.chars s) ->
  forall b, Forall P (PyStr.chars (PyStr.sub_spaces b s)).
Proof.
  intros Hu. induction s as [|c s IH]; intros Hs b; [constructor|].
  apply Forall_cons in Hs as [Hc Hs].
  cbn [PyStr.sub_spaces]. destruct (PyStr.isspace c).
  - destruct b; [by apply IH|]. constructor; [exact Hu|by apply IH].
  - constructor; [exact Hc|by apply IH].
Qed.

Lemma sub_spaces_no_space (s : string) (b : bool) :
  Forall (fun c => PyStr.isspace c = false) (PyStr.chars (PyStr.sub_spaces b s)).
Proof.
  revert b. induction s as [|c s IH]; intros b; [constructor|].
  cbn [PyStr.sub_spaces]. destruct (PyStr.isspace c) eqn:E.
  - destruct b; [apply IH|]. constructor; [reflexivity|apply IH].
  - constructor; [exact E|apply IH].
Qed.

Lemma lstrip_chars (P : ascii -> Prop) (p : ascii -> bool) (s : string) :
  Forall P (PyStr.chars s) -> Forall P (PyStr.chars (PyStr.lstrip p s)).
Proof.
  induction s as [|c s IH]; intros Hs; [constructor|].
  cbn [PyStr.lstrip]. destruct (p c); [|exact Hs].
  apply Forall_cons in Hs as [_ Hs]. by apply IH.
Qed.

Lemma rstrip_chars (P : ascii -> Prop) (p : ascii -> bool) (s : string) :
  Forall P (PyStr.chars s) -> Forall P (PyStr.chars (PyStr.rstrip p s)).
Proof.
  induction s as [|c s IH]; intros Hs; [constructor|].
  apply Forall_cons in Hs as [Hc Hs]. specialize (IH Hs).
  cbn [PyStr.rstrip]. destruct (PyStr.rstrip p s) as [|d r].
  - destruct (p c); [constructor|]. by constructor.
  - by constructor.
Qed.

Lemma prefix_chars (P : ascii -> Prop) (s : string) :
  Forall P (PyStr.chars s) -> forall n, Forall P (PyStr.chars (PyStr.prefix n s)).
Proof.
  unfold PyStr.prefix.
  induction s as [|c s IH]; intros Hs n; [destruct n; constructor|].
  apply Forall_cons in Hs as [Hc Hs].
  destruct n as [|n]; [constructor|].
  cbn [String.substring]. constructor; [exact Hc|by apply IH].
Qed.

Lemma prefix_length (s : string) (n : nat) :
  (String.length (PyStr.prefix n s) <= n)%nat.
Proof.
  unfold PyStr.prefix. revert n.
  induction s as [|c s IH]; intros n; [destruct n; simpl; lia|].
  destruct n as [|n]; [simpl; lia|].
  cbn [String.substring String.length]. specialize (IH n). lia.
Qed.

Lemma lstrip_first (p : ascii -> bool) (s : string) (c : ascii) :
  PyStr.first_char (PyStr.lstrip p s) = Some c -> p c = false.
Proof.
  induction s as [|d s IH]; [done|].
  cbn [PyStr.lstrip]. destruct (p d) eqn:E; [exact IH|].
  cbn. intros [= <-]. exact E.
Qed.

Lemma rstrip_first (p : ascii -> bool) (s : string) (c : ascii) :
  PyStr.first_char (PyStr.rstrip p s) = Some c -> PyStr.first_char s = Some c.
Proof.
  destruct s as [|d s]; [done|].
  cbn [PyStr.rstrip]. destruct (PyStr.rstrip p s); [destruct (p d)|]; done.
Qed.

Lemma prefix_first (n : nat) (s : string) (c : ascii) :
  PyStr.first_char (PyStr.prefix n s) = Some c -> PyStr.first_char s = Some c.
Proof.
  unfold PyStr.prefix. destruct s as [|d s]; destruct n; done.
Qed.

Lemma rstrip_last (p : ascii -> bool) (s : string) (c : ascii) :
  PyStr.last_char (PyStr.rstrip p s) = Some c -> p c = false.
Proof.
  induction s as [|d s IH]; [done|].
  cbn [PyStr.rstrip]. destruct (PyStr.rstrip p s) as [|e r] eqn:E.
  - destruct (p d) eqn:Hd; [done|]. cbn. intros [= <-]. exact Hd.
  - exact IH.
Qed.

(** The parts of the contract of [sanitize_filename] that hold for every
    title: the length bound, the absence of the nine invalid characters and
    of whitespace, and the first character. *)
Lemma sanitize_filename_length (title : string) :
  (String.length (sanitize_filename title) <= 200)%nat.
Proof.
  unfold sanitize_filename.
  destruct (200 <? String.length _)%nat eqn:E.
  - apply prefix_length.
  - apply Nat.ltb_ge in E. exact E.
Qed.

Lemma sanitize_filename_no_invalid (title : string) :
  Forall (fun c => PyStr.is_invalid c = false) (PyStr.chars (sanitize_filename title)).
Proof.
  assert (Forall (fun c => PyStr.is_invalid c = false)
            (PyStr.chars (PyStr.strip PyStr.is_dot_or_space
               (PyStr.sub_spaces false (PyStr.remove_invalid title))))) as H.
  { apply rstrip_chars, lstrip_chars, sub_spaces_chars;
      [reflexivity|apply remove_invalid_chars]. }
  unfold sanitize_filename.
  destruct (200 <? String.length _)%nat; [by apply prefix_chars|exact H].
Qed.

Lemma sanitize_filename_no_whitespace (title : string) :
  Forall (fun c => PyStr.isspace c = false) (PyStr.chars (sanitize_filename title)).
Proof.
  assert (Forall (fun c => PyStr.isspace c = false)
            (PyStr.chars (PyStr.strip PyStr.is_dot_or_space
               (PyStr.sub_spaces false (PyStr.remove_invalid title))))) as H.
  { apply rstrip_chars, lstrip_chars, sub_spaces_no_space. }
  unfold sanitize_filename.
  destruct (200 <? String.length _)%nat; [by apply prefix_chars|exact H].
Qed.

Lemma sanitize_filename_first (title : string) (c : ascii) :
  PyStr.first_char (sanitize_filename title) = Some c ->
  PyStr.is_dot_or_space c = false.
Proof.
  unfold sanitize_filename, PyStr.strip. intros H.
  apply (lstrip_first _ (PyStr.sub_spaces false (PyStr.remove_invalid title))).
  apply (rstrip_first PyStr.is_dot_or_space).
  destruct (200 <? String.length _)%nat; [by eapply prefix_first|exact H].
Qed.

(** The last character is no dot and no space as long as nothing is cut. *)
Lemma sanitize_filename_last_uncut (title : string) (c : ascii) :
  (String.length
     (PyStr.strip PyStr.is_dot_or_space
        (PyStr.sub_spaces false (PyStr.remove_invalid title))) <= 200)%nat ->
  PyStr.last_char (sanitize_filename title) = Some c ->
  PyStr.is_dot_or_space c = false.
Proof.
  unfold sanitize_filename. intros Hlen.
  apply Nat.ltb_ge in Hlen. rewrite Hlen.
  unfold PyStr.strip. apply rstrip_last.
Qed.

(** C10. On a title of 201 characters whose 200th character is a dot,
    [sanitize_filename] strips nothing, then cuts after the 200th character:
    the result has 200 characters and ends with a dot. *)
Theorem sanitize_filename_trailing_dot :
  String.length title_with_dot_at_200 = 201%nat
  /\ sanitize_filename title_with_dot_at_200 = replicate_char 199 "a" +:+ "."
  /\ String.length (sanitize_filename title_with_dot_at_200) = 200%nat
  /\ PyStr.last_char (sanitize_filename title_with_dot_at_200) = Some "."%char.
Proof. repeat split; vm_compute; reflexivity. Qed.

(** ** The checkpoint store *)

Section CheckpointStore.

Variable env : Env.

Lemma load_checkpoint_eq (video_folder : string) (w : World) :
  load_checkpoint env video_folder w
  = (Ok match files w !! checkpoint_path video_folder with
        | Some data => default (JDict ∅) (json_load_checkpoint env data)
        | None => JDict ∅
        end, w).
Proof.
  unfold load_checkpoint, bind, path_exists, file_exists, try_except, read_file.
  destruct (files w !! checkpoint_path video_folder) as [data|] eqn:E.
  - rewrite E. by destruct (json_load_checkpoint env data).
  - reflexivity.
Qed.

Lemma save_checkpoint_eq (video_folder : string) (state : Checkpoint) (w : World) :
  save_checkpoint env video_folder state w
  = (Ok tt,
     if bool_decide (checkpoint_path video_folder ∈ unwritable w) then w
     else with_file (checkpoint_path video_folder)
            (json_dump_checkpoint env state) w).
Proof.
  unfold save_checkpoint, try_except, write_file.
  by destruct (bool_decide (checkpoint_path video_folder ∈ unwritable w)).
Qed.

(** C8. [load_checkpoint] returns the empty record, and raises nothing, when
    the checkpoint file of the folder is absent and when its contents cannot
    be parsed. The world is left as it was. *)
Theorem load_checkpoint_absent_or_corrupt (video_folder : string) (w : World) :
  files w !! checkpoint_path video_folder = None
  \/ (exists data,
        files w !! checkpoint_path video_folder = Some data
        /\ json_load_checkpoint env data = None) ->
  load_checkpoint env video_folder w = (Ok (JDict ∅), w).
Proof.
  intros [Habsent | (data & Hdata & Hcorrupt)]; rewrite load_checkpoint_eq.
  - by rewrite Habsent.
  - by rewrite Hdata, Hcorrupt.
Qed.

(** C5, as amended. When the checkpoint file of the folder can be written,
    [load_checkpoint] after [save_checkpoint] of a JSON-serialisable record
    returns that record. *)
Theorem checkpoint_round_trip (video_folder : string) (state : Checkpoint) (w : World) :
  json_load_checkpoint env (json_dump_checkpoint env state)
  = Some (JDict state) ->
  checkpoint_path video_folder ∉ unwritable w ->
  exists w',
    save_checkpoint env video_folder state w = (Ok tt, w')
    /\ load_checkpoint env video_folder w' = (Ok (JDict state), w').
Proof.
  intros Hvalid Hwritable. eexists. split; [apply save_checkpoint_eq|].
  rewrite bool_decide_eq_false_2 by done.
  rewrite load_checkpoint_eq. cbn [with_file files].
  by rewrite lookup_insert_eq, Hvalid.
Qed.

End CheckpointStore.

Lemma load_checkpoint_absent_or_corrupt_witness :
  load_checkpoint (demo_env false false) "videos/T" empty_world
  = (Ok (JDict ∅), empty_world)
  /\ load_checkpoint (demo_env false false) "videos/T" corrupt_checkpoint_world
     = (Ok (JDict ∅), corrupt_checkpoint_world).
Proof.
  split.
  - apply (load_checkpoint_absent_or_corrupt (demo_env false false) "videos/T"
             empty_world).
    left. reflexivity.
  - apply (load_checkpoint_absent_or_corrupt (demo_env false false) "videos/T"
             corrupt_checkpoint_world).
    right. eexists. split; reflexivity.
Defined.

Lemma checkpoint_round_trip_witness :
  exists w',
    save_checkpoint (demo_env false false) "videos/T" one_flag empty_world
    = (Ok tt, w')
    /\ load_checkpoint (demo_env false false) "videos/T" w'
       = (Ok (JDict one_flag), w').
Proof.
  apply (checkpoint_round_trip (demo_env false false) "videos/T" one_flag
           empty_world).
  - vm_compute. reflexivity.
  - cbn [empty_world unwritable]. apply not_elem_of_empty.
Defined.

(** C5, as stated, fails: where the checkpoint file cannot be written,
    [save_checkpoint] swallows the error, and [load_checkpoint] then returns
    the empty record and not the record that was saved. *)
Lemma checkpoint_round_trip_unwritable :
  json_load_checkpoint (demo_env false false)
    (json_dump_checkpoint (demo_env false false) one_flag)
  = Some (JDict one_flag)
  /\ save_checkpoint (demo_env false false) "videos/T" one_flag read_only_world
     = (Ok tt, read_only_world)
  /\ load_checkpoint (demo_env false false) "videos/T" read_only_world
     = (Ok (JDict ∅), read_only_world)
  /\ one_flag <> ∅.
Proof.
  repeat split; try (vm_compute; reflexivity).
  intros H. apply (f_equal (fun m => m !! "downloaded")) in H.
  vm_compute in H. discriminate H.
Qed.

(** ** Footprints of the monadic operations *)

Lemma evolves_refl (paths : string -> Prop) (stages : list Stage) (w : World) :
  evolves paths stages w w.
Proof.
  split; [done..|]. exists []. split; [by rewrite app_nil_r|constructor].
Qed.

Lemma evolves_trans (paths : string -> Prop) (stages : list Stage) (w1 w2 w3 : World) :
  evolves paths stages w1 w2 -> evolves paths stages w2 w3 ->
  evolves paths stages w1 w3.
Proof.
  intros [Hu1 Hf1 He1 (cs1 & Hc1 & Hs1)] [Hu2 Hf2 He2 (cs2 & Hc2 & Hs2)].
  split.
  - congruence.
  - intros q Hq. rewrite Hf2, Hf1; done.
  - intros q Hq. auto.
  - exists (cs1 ++ cs2). split.
    + rewrite Hc2, Hc1. by rewrite app_assoc.
    + by apply Forall_app.
Qed.

Lemma evolves_weaken (paths paths' : string -> Prop) (stages stages' : list Stage) (w w' : World) :
  evolves paths stages w w' ->
  (forall q, paths q -> paths' q) ->
  (forall s, s ∈ stages -> s ∈ stages') ->
  evolves paths' stages' w w'.
Proof.
  intros [Hu Hf He (cs & Hc & Hs)] Hp Hst. split; [done| |done|].
  - intros q Hq. apply Hf. auto.
  - exists cs. split; [done|]. eapply Forall_impl; [exact Hs|]. auto.
Qed.

Lemma count_stage_app (s : Stage) (l1 l2 : list Stage) :
  count_stage s (l1 ++ l2) = (count_stage s l1 + count_stage s l2)%nat.
Proof. unfold count_stage. by rewrite filter_app, length_app. Qed.

Lemma count_stage_absent (s : Stage) (cs : list Stage) (stages : list Stage) :
  Forall (fun s' => s' ∈ stages) cs -> s ∉ stages -> count_stage s cs = 0%nat.
Proof.
  unfold count_stage. induction 1 as [|s' cs Hs' _ IH]; intros Hs; [done|].
  rewrite filter_cons. destruct (decide (s' = s)) as [->|]; [done|]. by apply IH.
Qed.

Lemma evolves_call_count (paths : string -> Prop) (stages : list Stage) (w w' : World) (s : Stage) :
  evolves paths stages w w' -> s ∉ stages ->
  call_count s w' = call_count s w.
Proof.
  intros [_ _ _ (cs & Hc & Hs)] Hnot. unfold call_count.
  rewrite Hc, count_stage_app, (count_stage_absent s cs stages) by done. lia.
Qed.

Lemma evolves_no_calls (paths : string -> Prop) (w w' : World) :
  evolves paths [] w w' -> calls w' = calls w.
Proof.
  intros [_ _ _ (cs & Hc & Hs)].
  destruct cs as [|s cs]; [by rewrite app_nil_r in Hc|].
  apply Forall_cons in Hs as [Hs _]. by apply elem_of_nil in Hs.
Qed.

Lemma call_count_with_call (s : Stage) (w : World) :
  call_count s (with_call s w) = S (call_count s w).
Proof.
  unfold call_count, with_call. cbn [calls].
  rewrite count_stage_app. unfold count_stage at 2.
  rewrite filter_cons, decide_True by done. simpl. lia.
Qed.

Lemma file_exists_with_file (path data : string) (w : World) (q : string) :
  file_exists w q = true -> file_exists (with_file path data w) q = true.
Proof.
  unfold file_exists, with_file. cbn [files].
  destruct (decide (path = q)) as [->|Hne].
  - by rewrite lookup_insert_eq.
  - by rewrite lookup_insert_ne.
Qed.

Lemma file_exists_written (path data : string) (w : World) :
  file_exists (with_file path data w) path = true.
Proof. unfold file_exists, with_file. cbn [files]. by rewrite lookup_insert_eq. Qed.

Section Frames.

Context {A B : Type}.
Variable paths : string -> Prop.
Variable stages : list Stage.

Lemma frames_ret (a : A) : frames (ret a) paths stages.
Proof. intros w. apply evolves_refl. Qed.

Lemma frames_raise (e : exn) : frames (@raise A e) paths stages.
Proof. intros w. apply evolves_refl. Qed.

Lemma frames_lift (r : res A) : frames (lift r) paths stages.
Proof. intros w. apply evolves_refl. Qed.

Lemma frames_bind (m : M A) (k : A -> M B) :
  frames m paths stages -> (forall a, frames (k a) paths stages) ->
  frames (bind m k) paths stages.
Proof.
  intros Hm Hk w. unfold bind. specialize (Hm w).
  destruct (m w) as [[a|e] w1]; [|exact Hm].
  eapply evolves_trans; [exact Hm|apply Hk].
Qed.

Lemma frames_try_except (m : M A) (h : exn -> M A) :
  frames m paths stages -> (forall e, frames (h e) paths stages) ->
  frames (try_except m h) paths stages.
Proof.
  intros Hm Hh w. unfold try_except. specialize (Hm w).
  destruct (m w) as [[a|e] w1]; [exact Hm|].
  eapply evolves_trans; [exact Hm|apply Hh].
Qed.

End Frames.

Lemma frames_path_exists (paths : string -> Prop) (stages : list Stage) (path : string) :
  frames (path_exists path) paths stages.
Proof. intros w. apply evolves_refl. Qed.

Lemma frames_read_file (paths : string -> Prop) (stages : list Stage) (path : string) :
  frames (read_file path) paths stages.
Proof.
  intros w. unfold read_file. destruct (files w !! path); apply evolves_refl.
Qed.

Lemma frames_write_file (paths : string -> Prop) (stages : list Stage) (path data : string) :
  paths path -> frames (write_file path data) paths stages.
Proof.
  intros Hp w. unfold write_file.
  destruct (bool_decide (path ∈ unwritable w)); [apply evolves_refl|].
  cbn [snd]. split; [done| | |].
  - intros q Hq. unfold with_file. cbn [files].
    apply lookup_insert_ne. intros ->. done.
  - apply file_exists_with_file.
  - exists []. split; [by rewrite app_nil_r|constructor].
Qed.

Lemma frames_called (paths : string -> Prop) (stages : list Stage) (s : Stage) :
  s ∈ stages -> frames (called s) paths stages.
Proof.
  intros Hs w. split; [done..|].
  exists [s]. split; [done|]. by constructor.
Qed.

Lemma frames_weaken {A : Type} (m : M A) (paths paths' : string -> Prop) (stages stages' : list Stage) :
  frames m paths stages ->
  (forall q, paths q -> paths' q) ->
  (forall s, s ∈ stages -> s ∈ stages') ->
  frames m paths' stages'.
Proof. intros Hm Hp Hs w. eapply evolves_weaken; [apply Hm|done..]. Qed.

Lemma frames_evolves {A : Type} (m : M A) (paths : string -> Prop) (stages : list Stage) (w w' : World) (r : res A) :
  frames m paths stages -> m w = (r, w') -> evolves paths stages w w'.
Proof. intros Hm E. specialize (Hm w). by rewrite E in Hm. Qed.

(** Footprints are computed along the structure of the computation. *)
Ltac frames_step :=
  lazymatch goal with
  | |- frames (bind _ _) _ _ => apply frames_bind; [|intros ?]
  | |- frames (try_except _ _) _ _ => apply frames_try_except; [|intros ?]
  | |- frames (ret _) _ _ => apply frames_ret
  | |- frames (raise _) _ _ => apply frames_raise
  | |- frames (lift _) _ _ => apply frames_lift
  | |- frames (path_exists _) _ _ => apply frames_path_exists
  | |- frames (read_file _) _ _ => apply frames_read_file
  | |- frames (write_file _ _) _ _ => apply frames_write_file
  | |- frames (called _) _ _ => apply frames_called
  | |- frames (if ?b then _ else _) _ _ => destruct b
  | |- frames (match ?x with _ => _ end) _ _ => destruct x
  end.

Ltac frames_auto := repeat frames_step.

(** ** Results of the monadic operations *)

Lemma bind_ok {A B : Type} (m : M A) (k : A -> M B) (w w' : World) (a : A) :
  m w = (Ok a, w') -> bind m k w = k a w'.
Proof. intros E. unfold bind. by rewrite E. Qed.

Lemma bind_raise {A B : Type} (m : M A) (k : A -> M B) (w w' : World) (e : exn) :
  m w = (Raise e, w') -> bind m k w = (Raise e, w').
Proof. intros E. unfold bind. by rewrite E. Qed.

Lemma write_file_ok (path data : string) (w : World) :
  path ∉ unwritable w -> write_file path data w = (Ok tt, with_file path data w).
Proof. intros H. unfold write_file. by rewrite bool_decide_eq_false_2. Qed.

Lemma read_file_ok (path data : string) (w : World) :
  files w !! path = Some data -> read_file path w = (Ok data, w).
Proof. intros H. unfold read_file. by rewrite H. Qed.

Lemma ensures_bind {A B : Type} (m : M A) (k : A -> M B) (post : B -> World -> Prop) :
  (forall a, ensures (k a) post) -> ensures (bind m k) post.
Proof.
  intros Hk w b w'. unfold bind.
  destruct (m w) as [[a|e] w1]; [apply Hk|done].
Qed.

Lemma ensures_try_except {A : Type} (m : M A) (h : exn -> M A) (post : A -> World -> Prop) :
  ensures m post -> (forall e, ensures (h e) post) ->
  ensures (try_except m h) post.
Proof.
  intros Hm Hh w a w'. unfold try_except.
  destruct (m w) as [[a1|e] w1] eqn:E.
  - intros [= <- <-]. by eapply Hm.
  - apply Hh.
Qed.

Lemma ensures_raise {A : Type} (e : exn) (post : A -> World -> Prop) :
  ensures (raise e) post.
Proof. by intros w a w'. Qed.

Lemma ensures_write_ret (path data : string) :
  ensures (write_file path data ;; ret path)
    (fun p w' => p = path /\ file_exists w' path = true).
Proof.
  intros w p w'. unfold bind, write_file, ret.
  destruct (bool_decide (path ∈ unwritable w)); [done|].
  intros [= <- <-]. split; [done|apply file_exists_written].
Qed.

(** ** remove_silence *)

Section RemoveSilence.

Variable env : Env.

Lemma frames_copy2 (paths : string -> Prop) (stages : list Stage) (src dst : string) :
  paths dst -> frames (copy2 src dst) paths stages.
Proof. intros H. unfold copy2. frames_auto. exact H. Qed.

Lemma frames_ffmpeg_process (paths : string -> Prop) (stages : list Stage) (tool : string -> Run) (input_file output_file : string) :
  paths output_file ->
  frames (ffmpeg_process tool input_file output_file) paths stages.
Proof. intros H. unfold ffmpeg_process, leave. frames_auto; exact H. Qed.

(** A run of ffmpeg, case by case. *)
Lemma ffmpeg_process_eq (tool : string -> Run) (input_file output_file : string) (w : World) :
  ffmpeg_process tool input_file output_file w
  = match files w !! input_file with
    | None => (Raise CalledProcessError, w)
    | Some data =>
        if bool_decide (input_file = output_file)
        then (Raise CalledProcessError, w)
        else
          match tool data with
          | Exit0 out =>
              if bool_decide (output_file ∈ unwritable w)
              then (Raise CalledProcessError, w)
              else (Ok tt, with_file output_file out w)
          | Fails e remains =>
              (Raise e,
               match remains with
               | Some partial =>
                   if bool_decide (output_file ∈ unwritable w) then w
                   else with_file output_file partial w
               | None => w
               end)
          end
    end.
Proof.
  unfold ffmpeg_process, leave, bind, try_except, read_file, write_file,
    raise, ret.
  destruct (files w !! input_file) as [data|]; [|done].
  destruct (bool_decide (input_file = output_file)); [done|].
  destruct (tool data) as [out|e [partial|]]; [| |done];
    by destruct (bool_decide (output_file ∈ unwritable w)).
Qed.

Lemma frames_remove_silence (audio_file output_file : string) (m s k : Z) :
  frames (remove_silence env audio_file output_file m s k)
    (fun q => q = output_file) [SilenceRemoval].
Proof.
  unfold remove_silence, pydub_load, ffmpeg_run.
  frames_auto; try reflexivity; try apply frames_copy2;
    try apply frames_ffmpeg_process; try reflexivity.
  all: apply list_elem_of_here.
Qed.

Lemma remove_silence_calls (audio_file output_file : string) (m s k : Z) (w w' : World) (r : res string) :
  remove_silence env audio_file output_file m s k w = (r, w') ->
  call_count SilenceRemoval w' = S (call_count SilenceRemoval w).
Proof.
  unfold remove_silence. unfold bind at 1. unfold called at 1.
  set (body := if PYDUB_AVAILABLE env then _ else _). intros E.
  assert (frames body (fun q => q = output_file) []) as Hbody.
  { subst body. unfold pydub_load, ffmpeg_run.
    frames_auto; try reflexivity; try apply frames_copy2;
      try apply frames_ffmpeg_process; reflexivity. }
  apply (frames_evolves _ _ _ _ _ _ Hbody) in E.
  unfold call_count. rewrite (evolves_no_calls _ _ _ E).
  apply call_count_with_call.
Qed.

Lemma ensures_copy_ret (src dst : string) :
  ensures (copy2 src dst ;; ret dst)
    (fun p w' => p = dst /\ file_exists w' dst = true).
Proof.
  intros w p w'. unfold copy2, bind, read_file, raise, write_file, ret.
  destruct (files w !! src); [|done].
  destruct (bool_decide (src = dst)); [done|].
  destruct (bool_decide (dst ∈ unwritable w)); [done|].
  intros [= <- <-]. split; [done|apply file_exists_written].
Qed.

(** Whenever [remove_silence] returns, it returns the output path, and
    there is a file at that path. *)
Lemma remove_silence_returns (audio_file output_file : string) (m s k : Z) :
  ensures (remove_silence env audio_file output_file m s k)
    (fun p w' => p = output_file /\ file_exists w' output_file = true).
Proof.
  unfold remove_silence. apply ensures_bind. intros _.
  destruct (PYDUB_AVAILABLE env).
  - apply ensures_bind. intros audio.
    destruct (split_on_silence env audio m s k); apply ensures_write_ret.
  - apply ensures_try_except.
    + intros w p w'. unfold bind, ret.
      destruct (ffmpeg_run env audio_file output_file m s w) as [[[]|e] w1] eqn:E;
        [|done].
      intros [= <- <-]. split; [done|].
      revert E. unfold ffmpeg_run.
      destruct (negb (ffmpeg_installed env)); [done|].
      rewrite ffmpeg_process_eq.
      destruct (files w !! audio_file) as [data|]; [|done].
      destruct (bool_decide (audio_file = output_file)); [done|].
      destruct (ffmpeg_silenceremove env m s data); [|done].
      destruct (bool_decide (output_file ∈ unwritable w)); [done|].
      intros [= <-]. apply file_exists_written.
    + intros e. destruct e; try apply ensures_raise; apply ensures_copy_ret.
Qed.

End RemoveSilence.

Section SilenceStage.

Variable env : Env.


Lemma ffmpeg_run_eq (audio_file output_file data : string) (m s : Z) (w : World) :
  files w !! audio_file = Some data ->
  output_file ∉ unwritable w ->
  audio_file <> output_file ->
  ffmpeg_run env audio_file output_file m s w
  = if ffmpeg_installed env then
      match ffmpeg_silenceremove env m s data with
      | Exit0 out => (Ok tt, with_file output_file out w)
      | Fails e remains =>
          (Raise e,
           match remains with
           | Some partial => with_file output_file partial w
           | None => w
           end)
      end
    else (Raise (FileNotFoundError "ffmpeg"), w).
Proof.
  intros Hin Hout Hne. unfold ffmpeg_run.
  destruct (ffmpeg_installed env); [|reflexivity]. cbn [negb].
  rewrite ffmpeg_process_eq, Hin.
  rewrite !bool_decide_eq_false_2 by done.
  by destruct (ffmpeg_silenceremove env m s data) as [out|e [partial|]].
Qed.

Lemma copy2_ok (src dst data : string) (w : World) :
  files w !! src = Some data -> src <> dst -> dst ∉ unwritable w ->
  copy2 src dst w = (Ok tt, with_file dst data w).
Proof.
  intros Hin Hne Hout. unfold copy2, bind, read_file. rewrite Hin.
  rewrite bool_decide_eq_false_2 by done. by apply write_file_ok.
Qed.

Lemma step_silence_flag (audio_file title : string) (checkpoint : Checkpoint) :
  ensures (step_silence env audio_file title checkpoint)
    (fun checkpoint' _ =>
       truthy (dict_get checkpoint' "silence_removed" (VBool false)) = true).
Proof.
  unfold step_silence. apply ensures_bind. intros ex.
  destruct (ex && truthy (dict_get checkpoint "silence_removed" (VBool false)))
    eqn:Hready.
  - intros w c w' [= <- <-]. by apply andb_true_iff in Hready as [_ ?].
  - apply ensures_bind. intros _. apply ensures_bind. intros _.
    intros w c w' [= <- <-]. unfold dict_get. by rewrite lookup_insert_eq.
Qed.

(** The copy of the last resort, after a run of ffmpeg that has failed. *)
Lemma copy_after_failure (audio_file output_file data : string) (remains : option string) (w : World) :
  files w !! audio_file = Some data ->
  output_file ∉ unwritable w ->
  audio_file <> output_file ->
  exists w',
    bind (copy2 audio_file output_file) (fun _ => ret output_file)
      match remains with
      | Some partial => with_file output_file partial w
      | None => w
      end
    = (Ok output_file, w')
    /\ files w' !! output_file = Some data.
Proof.
  intros Hin Hout Hne. unfold bind.
  rewrite (copy2_ok _ _ data).
  - eexists. split; [reflexivity|]. cbn [files with_file].
    apply lookup_insert_eq.
  - destruct remains as [partial|]; [|exact Hin].
    cbn [files with_file]. by rewrite lookup_insert_ne.
  - exact Hne.
  - by destruct remains.
Qed.

(** C6. The fallback of [remove_silence] covers the ffmpeg branch only, and
    in that branch only the two exceptions that the source names. For an
    input file that exists and an output path that is writable and differs
    from the input path:
    - with pydub installed and unable to decode the input,
      [remove_silence] raises [CouldntDecodeError] and writes nothing: the
      pydub branch has no fallback;
    - without pydub, when the run of ffmpeg raises an exception other than
      [CalledProcessError] and [FileNotFoundError], [remove_silence] raises
      that exception;
    - without pydub, when ffmpeg is missing or its run raises one of these
      two, the input is copied to the output path, and when ffmpeg
      succeeds the output is the one of ffmpeg: [remove_silence] returns
      the output path;
    - when [remove_silence] raises, step 2 of [main] raises: the stage
      fails and its flag is not set. *)
Theorem remove_silence_fallback (audio_file output_file data : string) (min_silence_len silence_thresh keep_silence : Z) (w : World) :
  files w !! audio_file = Some data ->
  output_file ∉ unwritable w ->
  audio_file <> output_file ->
  (PYDUB_AVAILABLE env = true ->
   pydub_decoder env audio_file data = None ->
   remove_silence env audio_file output_file min_silence_len silence_thresh
     keep_silence w
   = (Raise CouldntDecodeError, with_call SilenceRemoval w))
  /\ (PYDUB_AVAILABLE env = false ->
      ffmpeg_installed env = true ->
      forall e remains,
        ffmpeg_silenceremove env min_silence_len silence_thresh data
        = Fails e remains ->
        caught_by_fallback e = false ->
        exists w',
          remove_silence env audio_file output_file min_silence_len
            silence_thresh keep_silence w = (Raise e, w'))
  /\ (PYDUB_AVAILABLE env = false ->
      (ffmpeg_installed env = true ->
       forall e remains,
         ffmpeg_silenceremove env min_silence_len silence_thresh data
         = Fails e remains ->
         caught_by_fallback e = true) ->
      exists w',
        remove_silence env audio_file output_file min_silence_len
          silence_thresh keep_silence w = (Ok output_file, w')
        /\ files w' !! output_file
           = Some (if ffmpeg_installed env then
                     match ffmpeg_silenceremove env min_silence_len
                             silence_thresh data with
                     | Exit0 out => out
                     | Fails _ _ => data
                     end
                   else data))
  /\ (forall title checkpoint e w1 w2,
        silence_ready title checkpoint w1 = false ->
        remove_silence env audio_file (processed_audio_of title) 1000 (-40)
          200 w1 = (Raise e, w2) ->
        step_silence env audio_file title checkpoint w1 = (Raise e, w2)).
Proof.
  intros Hin Hout Hne.
  assert (files (with_call SilenceRemoval w) !! audio_file = Some data) as Hin'
    by exact Hin.
  assert (output_file ∉ unwritable (with_call SilenceRemoval w)) as Hout'
    by exact Hout.
  split; [|split; [|split]].
  - intros Hp Hdec. unfold remove_silence. unfold bind at 1. unfold called at 1.
    rewrite Hp. unfold bind.
    replace ((if os_path.endswith ".mp3" audio_file
              then pydub_load (AudioSegment_from_mp3 env) audio_file
              else pydub_load (AudioSegment_from_wav env) audio_file)
               (with_call SilenceRemoval w))
      with (@Raise Audio CouldntDecodeError, with_call SilenceRemoval w);
      [reflexivity|].
    unfold pydub_decoder in Hdec.
    destruct (os_path.endswith ".mp3" audio_file);
      unfold pydub_load, bind, read_file; by rewrite Hin', Hdec.
  - intros Hp Hff e remains Hrun Hcaught.
    unfold remove_silence. unfold bind at 1. unfold called at 1.
    rewrite Hp. unfold try_except, bind.
    rewrite (ffmpeg_run_eq _ _ _ _ _ _ Hin' Hout' Hne), Hff, Hrun.
    destruct e; try discriminate Hcaught; by eexists.
  - intros Hp Hcaught.
    unfold remove_silence. unfold bind at 1. unfold called at 1.
    rewrite Hp. unfold try_except. unfold bind at 1.
    rewrite (ffmpeg_run_eq _ _ _ _ _ _ Hin' Hout' Hne).
    destruct (ffmpeg_installed env) eqn:Hff.
    + destruct (ffmpeg_silenceremove env min_silence_len silence_thresh data)
        as [out|e remains] eqn:Hrun.
      * eexists. split; [reflexivity|]. cbn [files with_file].
        apply lookup_insert_eq.
      * specialize (Hcaught eq_refl e remains eq_refl).
        destruct e; try discriminate Hcaught;
          apply (copy_after_failure _ _ _ remains _ Hin' Hout' Hne).
    + apply (copy_after_failure _ _ _ None _ Hin' Hout' Hne).
  - intros title checkpoint e w1 w2 Hready Hraise.
    unfold step_silence. unfold bind at 1. unfold path_exists at 1.
    change (file_exists w1 (processed_audio_of title)
            && truthy (dict_get checkpoint "silence_removed" (VBool false)))
      with (silence_ready title checkpoint w1).
    rewrite Hready. unfold bind. by rewrite Hraise.
Qed.

End SilenceStage.

Lemma remove_silence_fallback_witness :
  (PYDUB_AVAILABLE broken_pydub_env = true ->
   pydub_decoder broken_pydub_env "downloads/T.mp3" "mp3 data" = None ->
   remove_silence broken_pydub_env "downloads/T.mp3"
     "videos/T/audio/T_processed_audio.mp3" 1000 (-40) 200 downloaded_world
   = (Raise CouldntDecodeError, with_call SilenceRemoval downloaded_world))
  /\ (PYDUB_AVAILABLE broken_pydub_env = false ->
      ffmpeg_installed broken_pydub_env = true ->
      forall e remains,
        ffmpeg_silenceremove broken_pydub_env 1000 (-40) "mp3 data"
        = Fails e remains ->
        caught_by_fallback e = false ->
        exists w',
          remove_silence broken_pydub_env "downloads/T.mp3"
            "videos/T/audio/T_processed_audio.mp3" 1000 (-40) 200
            downloaded_world = (Raise e, w'))
  /\ (PYDUB_AVAILABLE broken_pydub_env = false ->
      (ffmpeg_installed broken_pydub_env = true ->
       forall e remains,
         ffmpeg_silenceremove broken_pydub_env 1000 (-40) "mp3 data"
         = Fails e remains ->
         caught_by_fallback e = true) ->
      exists w',
        remove_silence broken_pydub_env "downloads/T.mp3"
          "videos/T/audio/T_processed_audio.mp3" 1000 (-40) 200
          downloaded_world
        = (Ok "videos/T/audio/T_processed_audio.mp3", w')
        /\ files w' !! "videos/T/audio/T_processed_audio.mp3"
           = Some (if ffmpeg_installed broken_pydub_env then
                     match ffmpeg_silenceremove broken_pydub_env 1000 (-40)
                             "mp3 data" with
                     | Exit0 out => out
                     | Fails _ _ => "mp3 data"
                     end
                   else "mp3 data"))
  /\ (forall title checkpoint e w1 w2,
        silence_ready title checkpoint w1 = false ->
        remove_silence broken_pydub_env "downloads/T.mp3"
          (processed_audio_of title) 1000 (-40) 200 w1 = (Raise e, w2) ->
        step_silence broken_pydub_env "downloads/T.mp3" title checkpoint w1
        = (Raise e, w2)).
Proof.
  refine (remove_silence_fallback broken_pydub_env "downloads/T.mp3"
            "videos/T/audio/T_processed_audio.mp3" "mp3 data" 1000 (-40) 200
            downloaded_world _ _ _).
  - reflexivity.
  - cbn [downloaded_world unwritable]. apply not_elem_of_empty.
  - discriminate.
Defined.

(** The failures on the demo video. With a pydub that cannot decode the
    input, [remove_silence] raises although the input file exists, and the
    run of [main] ends with exit status 1, the flag of the stage not being
    set. Without pydub, an ffmpeg that cannot be executed makes
    [remove_silence] raise [PermissionError]. Without pydub and without
    ffmpeg, on an input path at which there is no file, the copy of the last
    resort raises [FileNotFoundError]. *)
Lemma remove_silence_raises :
  file_exists downloaded_world "downloads/T.mp3" = true
  /\ remove_silence broken_pydub_env "downloads/T.mp3" "out.mp3" 1000 (-40) 200
       downloaded_world
     = (Raise CouldntDecodeError, with_call SilenceRemoval downloaded_world)
  /\ fst (main broken_pydub_env ["process_video.py"; demo_url] empty_world)
     = SysExit 1
  /\ fst (load_checkpoint broken_pydub_env "videos/T"
            (snd (main broken_pydub_env ["process_video.py"; demo_url]
                    empty_world)))
     = Ok (JDict demo_checkpoint1)
  /\ remove_silence locked_ffmpeg_env "downloads/T.mp3" "out.mp3" 1000 (-40)
       200 downloaded_world
     = (Raise PermissionError, with_call SilenceRemoval downloaded_world)
  /\ remove_silence (demo_env false false) "missing.mp3" "out.mp3" 1000 (-40)
       200 empty_world
     = (Raise (FileNotFoundError "missing.mp3"),
        with_call SilenceRemoval empty_world).
Proof. repeat split; vm_compute; reflexivity. Qed.

(** ** Paths of the artifacts *)

Lemma chars_inj (a b : string) : PyStr.chars a = PyStr.chars b -> a = b.
Proof.
  unfold PyStr.chars. intros H.
  rewrite <- (string_of_list_ascii_of_string a), <- (string_of_list_ascii_of_string b).
  by rewrite H.
Qed.

Lemma chars_length (a : string) : length (PyStr.chars a) = String.length a.
Proof. induction a as [|c a IH]; [done|]. unfold PyStr.chars in *. simpl. by rewrite IH. Qed.

Lemma ends_with_distinct (a b s s' : string) :
  ends_with a s -> ends_with b s' ->
  String.length a = String.length b -> a <> b -> s <> s'.
Proof.
  intros [x ->] [y ->] Hlen Hne Heq. apply Hne.
  apply (f_equal PyStr.chars) in Heq. rewrite !chars_append in Heq.
  apply app_inj_2 in Heq as [_ Heq]; [by apply chars_inj|].
  by rewrite !chars_length.
Qed.

Lemma ends_with_append (suffix a b : string) :
  ends_with suffix b -> ends_with suffix (a +:+ b).
Proof. intros [x ->]. exists (a +:+ x). by rewrite append_assoc. Qed.

Lemma ends_with_join (suffix a b : string) :
  ends_with suffix b -> ends_with suffix (os_path.join a b).
Proof.
  intros H. unfold os_path.join.
  destruct (os_path.startswith "/" b); [exact H|].
  destruct ((String.length a =? 0)%nat || os_path.endswith "/" a);
    repeat apply ends_with_append; exact H.
Qed.

Lemma ends_with_literal (x suffix : string) : ends_with suffix (x +:+ suffix).
Proof. by exists x. Qed.

Section Paths.

Variable title : string.

Lemma checkpoint_path_ends (video_folder : string) :
  ends_with "t.json" (checkpoint_path video_folder).
Proof. apply ends_with_join. by exists ".checkpoin". Qed.

Lemma processed_audio_ends : ends_with "mp3" (processed_audio_of title).
Proof. apply ends_with_join, ends_with_append. by exists "_processed_audio.". Qed.

Lemma transcription_file_ends : ends_with "n.json" (transcription_file_of title).
Proof. apply ends_with_join, ends_with_append. by exists "_transcriptio". Qed.

Lemma summary_file_ends : ends_with "ary.md" (summary_file_of title).
Proof. apply ends_with_join, ends_with_append. by exists "_summ". Qed.

Lemma transcription_not_checkpoint (video_folder : string) :
  transcription_file_of title <> checkpoint_path video_folder.
Proof.
  eapply ends_with_distinct;
    [apply transcription_file_ends|apply checkpoint_path_ends|done..].
Qed.

Lemma summary_not_checkpoint (video_folder : string) :
  summary_file_of title <> checkpoint_path video_folder.
Proof.
  eapply ends_with_distinct;
    [apply summary_file_ends|apply checkpoint_path_ends|done..].
Qed.

Lemma transcription_not_processed :
  transcription_file_of title <> processed_audio_of title.
Proof.
  eapply (ends_with_distinct "son" "mp3");
    [|apply processed_audio_ends|done..].
  apply ends_with_join, ends_with_append. by exists "_transcription.j".
Qed.

Lemma summary_not_transcription :
  summary_file_of title <> transcription_file_of title.
Proof.
  eapply ends_with_distinct;
    [apply summary_file_ends|apply transcription_file_ends|done..].
Qed.

End Paths.

(** The artifacts of a video are in the folder of the videos, hence not in
    the download directory. *)
Lemma sanitized_relative (title suffix : string) :
  os_path.startswith "/" suffix = false ->
  os_path.startswith "/" (sanitize_filename title +:+ suffix) = false.
Proof.
  intros Hs. pose proof (sanitize_filename_no_invalid title) as H.
  destruct (sanitize_filename title) as [|c s]; [exact Hs|].
  apply Forall_cons in H as [Hc _]. rewrite append_cons.
  unfold os_path.startswith. cbn [String.prefix].
  destruct (ascii_dec "/" c) as [<-|]; [discriminate Hc|reflexivity].
Qed.

Lemma sanitize_filename_relative (title : string) :
  os_path.startswith "/" (sanitize_filename title) = false.
Proof.
  pose proof (sanitize_filename_no_invalid title) as H.
  destruct (sanitize_filename title) as [|c s]; [reflexivity|].
  apply Forall_cons in H as [Hc _].
  unfold os_path.startswith. cbn [String.prefix].
  destruct (ascii_dec "/" c) as [<-|]; [discriminate Hc|reflexivity].
Qed.

Lemma join_relative (a b : string) :
  os_path.startswith "/" b = false ->
  exists rest, os_path.join a b = a +:+ rest.
Proof.
  intros H. unfold os_path.join. rewrite H.
  destruct ((String.length a =? 0)%nat || os_path.endswith "/" a);
    eexists; reflexivity.
Qed.

Lemma in_videos_join (a b : string) :
  in_videos a -> os_path.startswith "/" b = false ->
  in_videos (os_path.join a b).
Proof.
  intros [x ->] Hb. destruct (join_relative ("videos/" +:+ x) b Hb) as [y ->].
  exists (x +:+ y). by rewrite append_assoc.
Qed.

Lemma in_videos_not_under (q : string) :
  in_videos q -> under downloads_dir q = false.
Proof. intros [x ->]. reflexivity. Qed.

Lemma video_folder_in_videos (title : string) :
  in_videos (video_folder_of title).
Proof.
  unfold video_folder_of, os_path.join.
  exists (sanitize_filename title).
  rewrite (sanitize_filename_relative title). reflexivity.
Qed.

Lemma checkpoint_in_videos (title : string) :
  in_videos (checkpoint_path (video_folder_of title)).
Proof. apply in_videos_join; [apply video_folder_in_videos|reflexivity]. Qed.

Lemma artifact_in_videos (title folder suffix : string) :
  os_path.startswith "/" folder = false ->
  os_path.startswith "/" suffix = false ->
  in_videos (os_path.join (os_path.join (video_folder_of title) folder)
               (sanitize_filename title +:+ suffix)).
Proof.
  intros Hf Hs. apply in_videos_join; [|by apply sanitized_relative].
  apply in_videos_join; [apply video_folder_in_videos|exact Hf].
Qed.

Lemma processed_audio_in_videos (title : string) :
  in_videos (processed_audio_of title).
Proof. by apply artifact_in_videos. Qed.

Lemma transcription_file_in_videos (title : string) :
  in_videos (transcription_file_of title).
Proof. by apply artifact_in_videos. Qed.

Lemma summary_file_in_videos (title : string) :
  in_videos (summary_file_of title).
Proof. by apply artifact_in_videos. Qed.

(** ** The steps of main *)

Section Steps.

Variable env : Env.

Lemma save_checkpoint_after (video_folder : string) (state : Checkpoint) (w : World) :
  save_checkpoint env video_folder state w
  = (Ok tt, after_save env video_folder state w).
Proof. apply save_checkpoint_eq. Qed.

Lemma frames_save_checkpoint (paths : string -> Prop) (stages : list Stage) (video_folder : string) (state : Checkpoint) :
  paths (checkpoint_path video_folder) ->
  frames (save_checkpoint env video_folder state) paths stages.
Proof. intros H. unfold save_checkpoint. frames_auto. exact H. Qed.

Lemma frames_load_checkpoint (paths : string -> Prop) (stages : list Stage) (video_folder : string) :
  frames (load_checkpoint env video_folder) paths stages.
Proof. unfold load_checkpoint. frames_auto. Qed.

Lemma after_save_evolves (video_folder : string) (state : Checkpoint) (w : World) :
  evolves (fun q => q = checkpoint_path video_folder) [] w
    (after_save env video_folder state w).
Proof.
  pose proof (frames_save_checkpoint (fun q => q = checkpoint_path video_folder)
                [] video_folder state eq_refl w) as H.
  by rewrite save_checkpoint_after in H.
Qed.

Lemma after_save_saved (title : string) (state : Checkpoint) (w : World) :
  checkpoint_saved env title state
    (after_save env (video_folder_of title) state w).
Proof.
  unfold checkpoint_saved, after_save.
  destruct (bool_decide _) eqn:E.
  - apply bool_decide_eq_true in E. done.
  - intros _. unfold with_file. cbn [files]. apply lookup_insert_eq.
Qed.

(** [transcribe_audio] never raises and writes nothing. *)
Lemma transcribe_audio_eq (audio_file model_name : string) (w : World) :
  transcribe_audio env audio_file model_name w
  = (Ok (if WHISPER_AVAILABLE env then
           match files w !! audio_file with
           | Some data => map strip_segment <$> asr_engine env model_name data
           | None => None
           end
         else None),
     with_call Transcription w).
Proof.
  unfold transcribe_audio, asr_engine. unfold bind at 1. unfold called at 1.
  destruct (WHISPER_AVAILABLE env); [|reflexivity]. cbn [negb].
  unfold asr_call, try_except, bind, read_file.
  destruct (WHISPER_TYPE env) as [[]|]; cbv beta;
    change (files (with_call Transcription w)) with (files w);
    destruct (files w !! audio_file) as [data|]; try reflexivity.
  - by destruct (whisper_transcribe env model_name data).
  - by destruct (faster_whisper_transcribe env model_name data).
  - by destruct (whisper_transcribe env model_name data).
Qed.

Lemma transcribe_audio_fails (audio_file model_name : string) (w : World) :
  transcription_fails env audio_file model_name w ->
  transcribe_audio env audio_file model_name w
  = (Ok None, with_call Transcription w).
Proof.
  intros H. rewrite transcribe_audio_eq.
  destruct H as [-> | H]; [reflexivity|].
  destruct (WHISPER_AVAILABLE env); [|reflexivity].
  destruct (files w !! audio_file); [|reflexivity]. by rewrite H.
Qed.

(** Step 3 uses the saved transcription when there is one, and calls
    [transcribe_audio] otherwise. *)
Lemma step_transcribe_eq (title : string) (checkpoint : Checkpoint) (w : World) :
  step_transcribe env title checkpoint w
  = match saved_transcription env title checkpoint w with
    | Some segments => (Ok (Some segments), w)
    | None => transcribe_audio env (processed_audio_of title) "base" w
    end.
Proof.
  unfold step_transcribe, saved_transcription, transcription_ready.
  unfold bind at 1. unfold path_exists at 1.
  destruct (file_exists w (transcription_file_of title)
            && truthy (dict_get checkpoint "transcribed" (VBool false)));
    [|reflexivity].
  unfold try_except, bind, read_file.
  destruct (files w !! transcription_file_of title) as [data|]; [|reflexivity].
  by destruct (json_load_segments env data).
Qed.

(** Step 2 does nothing when its test holds, and runs [remove_silence]
    otherwise. *)
Lemma step_silence_eq (audio_file title : string) (checkpoint : Checkpoint) (w : World) :
  step_silence env audio_file title checkpoint w
  = if silence_ready title checkpoint w then (Ok checkpoint, w)
    else
      match remove_silence env audio_file (processed_audio_of title)
              1000 (-40) 200 w with
      | (Ok _, w1) =>
          (Ok (<["silence_removed" := VBool true]> checkpoint),
           after_save env (video_folder_of title)
             (<["silence_removed" := VBool true]> checkpoint) w1)
      | (Raise e, w1) => (Raise e, w1)
      end.
Proof.
  unfold step_silence, silence_ready.
  unfold bind at 1. unfold path_exists at 1.
  destruct (file_exists w (processed_audio_of title)
            && truthy (dict_get checkpoint "silence_removed" (VBool false)));
    [reflexivity|].
  unfold bind at 1.
  destruct (remove_silence env audio_file (processed_audio_of title)
              1000 (-40) 200 w) as [[p|e] w1]; [|reflexivity].
  unfold bind. by rewrite save_checkpoint_after.
Qed.

(** Step 4 does nothing when its test holds, and writes the summary
    otherwise. *)
Lemma step_summary_eq (title : string) (segments : list Segment) (checkpoint : Checkpoint) (w : World) :
  step_summary env title segments checkpoint w
  = if summary_ready title checkpoint w then (Ok checkpoint, w)
    else
      match generate_summary segments title with
      | Ok summary =>
          if bool_decide (summary_file_of title ∈ unwritable w)
          then (Raise (OSError (summary_file_of title)),
                with_call SummaryGeneration w)
          else
            (Ok (<["summary_generated" := VBool true]> checkpoint),
             after_save env (video_folder_of title)
               (<["summary_generated" := VBool true]> checkpoint)
               (with_file (summary_file_of title) summary
                  (with_call SummaryGeneration w)))
      | Raise e => (Raise e, with_call SummaryGeneration w)
      end.
Proof.
  unfold step_summary, summary_ready.
  unfold bind at 1. unfold path_exists at 1.
  destruct (file_exists w (summary_file_of title)
            && truthy (dict_get checkpoint "summary_generated" (VBool false)));
    [reflexivity|].
  unfold bind at 1. unfold called at 1. unfold bind at 1. unfold lift at 1.
  destruct (generate_summary segments title) as [summary|e]; [|reflexivity].
  unfold bind at 1. unfold write_file at 1.
  change (unwritable (with_call SummaryGeneration w)) with (unwritable w).
  destruct (bool_decide (summary_file_of title ∈ unwritable w)); [reflexivity|].
  unfold bind. by rewrite save_checkpoint_after.
Qed.

End Steps.

(** ** Footprints of the steps *)

Lemma ends_with_same (a b s : string) :
  ends_with a s -> ends_with b s -> String.length a = String.length b -> a = b.
Proof.
  intros Ha Hb Hlen. destruct (decide (a = b)) as [|Hne]; [done|].
  by destruct (ends_with_distinct a b s s Ha Hb Hlen Hne).
Qed.

Lemma summary_not_audio_or_checkpoint (title : string) :
  ~ audio_or_checkpoint (summary_file_of title).
Proof.
  intros [H|H].
  - assert (ends_with ".md" (summary_file_of title)) as Hmd.
    { apply ends_with_join, ends_with_append. by exists "_summary". }
    by pose proof (ends_with_same _ _ _ H Hmd eq_refl).
  - by pose proof (ends_with_same _ _ _ H (summary_file_ends title) eq_refl).
Qed.

Lemma transcription_not_audio_or_checkpoint (title : string) :
  ~ audio_or_checkpoint (transcription_file_of title).
Proof.
  intros [H|H].
  - assert (ends_with "son" (transcription_file_of title)) as Hson.
    { apply ends_with_join, ends_with_append. by exists "_transcription.j". }
    by pose proof (ends_with_same _ _ _ H Hson eq_refl).
  - by pose proof (ends_with_same _ _ _ H (transcription_file_ends title) eq_refl).
Qed.

(** *** The download directory *)

Lemma evolves_spares (dir : string) (paths : string -> Prop) (stages : list Stage) (w w' : World) :
  evolves paths stages w w' -> spares dir paths stages w w'.
Proof. intros [Hu Hf He Hc]. split; auto. Qed.

Lemma spares_trans (dir : string) (paths : string -> Prop) (stages : list Stage) (w1 w2 w3 : World) :
  spares dir paths stages w1 w2 -> spares dir paths stages w2 w3 ->
  spares dir paths stages w1 w3.
Proof.
  intros [Hu1 Hf1 He1 (cs1 & Hc1 & Hs1)] [Hu2 Hf2 He2 (cs2 & Hc2 & Hs2)].
  split.
  - congruence.
  - intros q Hd Hq. rewrite Hf2, Hf1; done.
  - intros q Hd Hq. auto.
  - exists (cs1 ++ cs2). split.
    + rewrite Hc2, Hc1. by rewrite app_assoc.
    + by apply Forall_app.
Qed.

Lemma spares_weaken (dir : string) (paths paths' : string -> Prop) (stages stages' : list Stage) (w w' : World) :
  spares dir paths stages w w' ->
  (forall q, paths q -> paths' q) ->
  (forall s, s ∈ stages -> s ∈ stages') ->
  spares dir paths' stages' w w'.
Proof.
  intros [Hu Hf He (cs & Hc & Hs)] Hp Hst. split; [done| |done|].
  - intros q Hd Hq. apply Hf; auto.
  - exists cs. split; [done|]. eapply Forall_impl; [exact Hs|]. auto.
Qed.

Lemma spares_call_count (dir : string) (paths : string -> Prop) (stages : list Stage) (w w' : World) (s : Stage) :
  spares dir paths stages w w' -> s ∉ stages ->
  call_count s w' = call_count s w.
Proof.
  intros [_ _ _ (cs & Hc & Hs)] Hnot. unfold call_count.
  rewrite Hc, count_stage_app, (count_stage_absent s cs stages) by done. lia.
Qed.

Lemma spares_bind {A B : Type} (dir : string) (paths : string -> Prop) (stages : list Stage) (m : M A) (k : A -> M B) (w : World) :
  spares dir paths stages w (snd (m w)) ->
  (forall a, frames (k a) paths stages) ->
  spares dir paths stages w (snd (bind m k w)).
Proof.
  intros Hm Hk. unfold bind. destruct (m w) as [[a|e] w1]; [|exact Hm].
  eapply spares_trans; [exact Hm|]. apply evolves_spares, Hk.
Qed.

(** yt_dlp touches the files of its output directory only. *)
Lemma media_left_lookup (output_dir : string) (media : gmap string (option string)) (fs : gmap string string) (q : string) :
  under output_dir q = false ->
  media_left output_dir media fs !! q = fs !! q.
Proof.
  intros Hq. unfold media_left. rewrite lookup_merge.
  assert (filter (fun entry : string * option string =>
                    under output_dir entry.1 = true) media !! q = None) as ->.
  { apply map_lookup_filter_None. right. intros change _ Hu.
    change (under output_dir q = true) in Hu. congruence. }
  by destruct (fs !! q).
Qed.

Lemma spares_yt_dlp_leaves (output_dir : string) (media : gmap string (option string)) (paths : string -> Prop) (stages : list Stage) (w : World) :
  spares output_dir paths stages w
    (snd (yt_dlp_leaves output_dir media w)).
Proof.
  unfold yt_dlp_leaves. cbn [snd]. split; cbn [files unwritable calls].
  - done.
  - intros q Hq _. by apply media_left_lookup.
  - intros q Hq. unfold file_exists. cbn [files].
    by rewrite media_left_lookup.
  - exists []. split; [by rewrite app_nil_r|constructor].
Qed.

Section StepFrames.

Variable env : Env.

Lemma frames_after_yt_dlp (info : YtInfo) (audio_file title : string) (stages : list Stage) :
  frames
    (bind match info_audio info with
          | Some data => write_file audio_file data
          | None => ret tt
          end
       (fun _ =>
          bind (path_exists audio_file)
            (fun ex =>
               if negb ex then raise (FileNotFoundError audio_file)
               else ret (audio_file, title))))
    (fun q => q = audio_file) stages.
Proof. frames_auto. done. Qed.

Lemma spares_download_video (url output_dir : string) (w : World) :
  spares output_dir (ends_with ".mp3") [Download] w
    (snd (download_video env url output_dir w)).
Proof.
  assert (evolves (ends_with ".mp3") [Download] w (with_call Download w))
    as Hcall.
  { apply (frames_called _ _ Download), list_elem_of_here. }
  unfold download_video. unfold bind at 1. unfold called at 1.
  destruct (yt_dlp_extract_info env output_dir url) as [info|];
    [|by apply evolves_spares].
  unfold bind at 1.
  eapply spares_trans; [by apply evolves_spares|].
  eapply spares_trans; [apply spares_yt_dlp_leaves|].
  apply evolves_spares.
  eapply evolves_weaken;
    [apply (frames_after_yt_dlp info _ _ [Download])| |done].
  intros q ->. apply ends_with_literal.
Qed.

Lemma spares_step_download_in (paths : string -> Prop) (url : string) (w : World) :
  (forall q, ends_with ".mp3" q -> paths q) ->
  (forall title, paths (checkpoint_path (video_folder_of title))) ->
  spares downloads_dir paths [Download] w (snd (step_download env url w)).
Proof.
  intros Hmp3 Hck. unfold step_download. apply spares_bind.
  - eapply spares_weaken; [apply spares_download_video|exact Hmp3|done].
  - intros p. frames_auto.
    + apply frames_load_checkpoint.
    + apply frames_save_checkpoint, Hck.
Qed.

Lemma spares_step_download (url : string) (w : World) :
  spares downloads_dir audio_or_checkpoint [Download] w
    (snd (step_download env url w)).
Proof.
  apply spares_step_download_in.
  - intros q [x ->]. left. exists (x +:+ "."). by rewrite append_assoc.
  - intros title. right. apply checkpoint_path_ends.
Qed.

Lemma step_download_spares (url : string) (w w1 : World) (r : res (string * string * Checkpoint)) :
  step_download env url w = (r, w1) ->
  spares downloads_dir audio_or_checkpoint [Download] w w1.
Proof. intros H. pose proof (spares_step_download url w) as Hs. by rewrite H in Hs. Qed.

Lemma frames_step_silence (audio_file title : string) (checkpoint : Checkpoint) (stages : list Stage) :
  SilenceRemoval ∈ stages ->
  frames (step_silence env audio_file title checkpoint)
    (fun q => q = processed_audio_of title
              \/ q = checkpoint_path (video_folder_of title))
    stages.
Proof.
  intros Hs. unfold step_silence. frames_auto.
  - eapply frames_weaken; [apply frames_remove_silence|by left|].
    intros s ->%list_elem_of_singleton. exact Hs.
  - apply frames_save_checkpoint. by right.
Qed.

Lemma frames_step_silence_audio (audio_file title : string) (checkpoint : Checkpoint) (stages : list Stage) :
  SilenceRemoval ∈ stages ->
  frames (step_silence env audio_file title checkpoint) audio_or_checkpoint
    stages.
Proof.
  intros Hs. eapply frames_weaken; [by apply frames_step_silence| |done].
  intros q [-> | ->].
  - left. apply processed_audio_ends.
  - right. apply checkpoint_path_ends.
Qed.

(** Step 2 returns the checkpoint as it was or with its own flag set. *)
Lemma step_silence_checkpoint (audio_file title : string) (checkpoint checkpoint' : Checkpoint) (w w' : World) :
  step_silence env audio_file title checkpoint w = (Ok checkpoint', w') ->
  checkpoint' = checkpoint
  \/ checkpoint' = <["silence_removed" := VBool true]> checkpoint.
Proof.
  rewrite step_silence_eq.
  destruct (silence_ready title checkpoint w); [intros [= <- <-]; by left|].
  destruct (remove_silence _ _ _ _ _ _ _) as [[p|e] w1]; [|done].
  intros [= <- <-]. by right.
Qed.

(** What remains of [main] when no transcription is obtained. *)
Lemma steps_after_audio_fails (title : string) (checkpoint : Checkpoint) (w : World) :
  saved_transcription env title checkpoint w = None ->
  transcription_fails env (processed_audio_of title) "base" w ->
  steps_after_audio env title checkpoint w
  = (Ok (<["completed" := VBool true]> checkpoint),
     after_save env (video_folder_of title)
       (<["completed" := VBool true]> checkpoint)
       (with_call Transcription w)).
Proof.
  intros Hsaved Hfails. unfold steps_after_audio.
  unfold bind at 1. rewrite step_transcribe_eq, Hsaved.
  rewrite (transcribe_audio_fails env _ _ _ Hfails).
  unfold bind at 1. unfold save_transcription. cbn [nonempty_segments].
  unfold ret at 1. unfold bind. by rewrite save_checkpoint_after.
Qed.

End StepFrames.

(** ** Transcription failure *)

(** C2. When the transcription capability is unavailable or the ASR call
    raises, [transcribe_audio] returns [None] and raises nothing. In a run of
    [main] that reaches step 3 and has no saved transcription to load, the
    run then returns normally: the final checkpoint is the one of step 2
    with [completed] set to true, so its [transcribed] entry is the one that
    was loaded; [generate_summary] is not called and the summary file and
    the transcription file are as they were before the run. *)
Theorem transcription_failure_degrades (env : Env) :
  (forall (audio_file model_name : string) (w : World),
     transcription_fails env audio_file model_name w ->
     transcribe_audio env audio_file model_name w
     = (Ok None, with_call Transcription w))
  /\ (forall (url audio_file title : string) (checkpoint checkpoint2 : Checkpoint) (w w1 w2 : World),
        step_download env url w = (Ok (audio_file, title, checkpoint), w1) ->
        step_silence env audio_file title checkpoint w1 = (Ok checkpoint2, w2) ->
        saved_transcription env title checkpoint2 w2 = None ->
        transcription_fails env (processed_audio_of title) "base" w2 ->
        exists (final : Checkpoint) (w' : World),
          main_body env url w = (Ok final, w')
          /\ main env ["process_video.py"; url] w = (Returned, w')
          /\ final = <["completed" := VBool true]> checkpoint2
          /\ final !! "completed" = Some (VBool true)
          /\ final !! "transcribed" = checkpoint !! "transcribed"
          /\ checkpoint_saved env title final w'
          /\ call_count SummaryGeneration w' = call_count SummaryGeneration w
          /\ files w' !! summary_file_of title = files w !! summary_file_of title
          /\ files w' !! transcription_file_of title
             = files w !! transcription_file_of title).
Proof.
  split; [apply transcribe_audio_fails|].
  intros url audio_file title checkpoint checkpoint2 w w1 w2 Hdl Hsil Hsaved Hfails.
  assert (main_body env url w
          = (Ok (<["completed" := VBool true]> checkpoint2),
             after_save env (video_folder_of title)
               (<["completed" := VBool true]> checkpoint2)
               (with_call Transcription w2))) as Hmain.
  { unfold main_body. rewrite (bind_ok _ _ _ _ _ Hdl). cbn [fst snd].
    rewrite (bind_ok _ _ _ _ _ Hsil).
    by apply steps_after_audio_fails. }
  assert (spares downloads_dir audio_or_checkpoint
            [Download; SilenceRemoval; Transcription] w
            (after_save env (video_folder_of title)
               (<["completed" := VBool true]> checkpoint2)
               (with_call Transcription w2))) as Hev.
  { eapply spares_trans;
      [|apply evolves_spares; eapply evolves_trans; [|eapply evolves_trans]].
    - eapply spares_weaken;
        [exact (step_download_spares env _ _ _ _ Hdl)|done|].
      intros s ->%list_elem_of_singleton. apply list_elem_of_here.
    - refine (frames_evolves _ _ _ _ _ _
                (frames_step_silence_audio env _ _ _ _ _) Hsil).
      apply list_elem_of_further, list_elem_of_here.
    - apply (frames_called audio_or_checkpoint _ Transcription).
      do 2 apply list_elem_of_further. apply list_elem_of_here.
    - eapply evolves_weaken; [apply after_save_evolves| |].
      + intros q ->. right. apply checkpoint_path_ends.
      + intros s Hs. by apply elem_of_nil in Hs. }
  eexists _, _. split; [exact Hmain|].
  split; [unfold main; by rewrite Hmain|].
  split; [reflexivity|].
  split; [apply lookup_insert_eq|].
  split.
  { rewrite lookup_insert_ne by done.
    destruct (step_silence_checkpoint env _ _ _ _ _ _ Hsil) as [-> | ->];
      [done|by rewrite lookup_insert_ne]. }
  split; [apply after_save_saved|].
  split.
  { apply (spares_call_count _ _ _ _ _ _ Hev).
    intros H. repeat (apply elem_of_cons in H as [H|H]; [done|]).
    by apply elem_of_nil in H. }
  split.
  - apply (spares_files _ _ _ _ _ Hev);
      [apply in_videos_not_under, summary_file_in_videos
      |apply summary_not_audio_or_checkpoint].
  - apply (spares_files _ _ _ _ _ Hev);
      [apply in_videos_not_under, transcription_file_in_videos
      |apply transcription_not_audio_or_checkpoint].
Qed.

Lemma transcription_failure_degrades_witness :
  exists (final : Checkpoint) (w' : World),
    main_body (demo_env false false) demo_url empty_world = (Ok final, w')
    /\ main (demo_env false false) ["process_video.py"; demo_url] empty_world
       = (Returned, w')
    /\ final = <["completed" := VBool true]> demo_checkpoint2
    /\ final !! "completed" = Some (VBool true)
    /\ final !! "transcribed" = demo_checkpoint1 !! "transcribed"
    /\ checkpoint_saved (demo_env false false) "T" final w'
    /\ call_count SummaryGeneration w'
       = call_count SummaryGeneration empty_world
    /\ files w' !! summary_file_of "T" = files empty_world !! summary_file_of "T"
    /\ files w' !! transcription_file_of "T"
       = files empty_world !! transcription_file_of "T".
Proof.
  refine (proj2 (transcription_failure_degrades (demo_env false false))
            demo_url "downloads/T.mp3" "T" demo_checkpoint1 demo_checkpoint2
            empty_world demo_world1 demo_world2 _ _ _ _).
  - vm_compute. reflexivity.
  - vm_compute. reflexivity.
  - vm_compute. reflexivity.
  - left. reflexivity.
Defined.

(** ** The transition rule of the stages *)

Section Transitions.

Variable env : Env.

(** The commit of step 3: nothing happens without segments; with segments
    the transcription is written, the flag is set, the checkpoint is saved,
    and step 4 follows. *)
Lemma save_transcription_eq (title : string) (segments : option (list Segment)) (checkpoint : Checkpoint) (w : World) :
  save_transcription env title segments checkpoint w
  = match nonempty_segments segments with
    | Some l =>
        if bool_decide (transcription_file_of title ∈ unwritable w)
        then (Raise (OSError (transcription_file_of title)), w)
        else
          step_summary env title l (<["transcribed" := VBool true]> checkpoint)
            (after_save env (video_folder_of title)
               (<["transcribed" := VBool true]> checkpoint)
               (with_file (transcription_file_of title)
                  (json_dump_segments env l) w))
    | None => (Ok checkpoint, w)
    end.
Proof.
  unfold save_transcription.
  destruct (nonempty_segments segments) as [l|]; [|reflexivity].
  unfold bind at 1. unfold write_file at 1.
  destruct (bool_decide (transcription_file_of title ∈ unwritable w));
    [reflexivity|].
  unfold bind. by rewrite save_checkpoint_after.
Qed.

Lemma frames_transcribe_audio (paths : string -> Prop) (stages : list Stage) (audio_file model_name : string) :
  Transcription ∈ stages ->
  frames (transcribe_audio env audio_file model_name) paths stages.
Proof.
  intros Hs w. rewrite transcribe_audio_eq.
  apply (frames_called paths stages Transcription Hs w).
Qed.

Lemma frames_step_transcribe (paths : string -> Prop) (stages : list Stage) (title : string) (checkpoint : Checkpoint) :
  Transcription ∈ stages ->
  frames (step_transcribe env title checkpoint) paths stages.
Proof.
  intros Hs. unfold step_transcribe.
  frames_auto; apply frames_transcribe_audio; exact Hs.
Qed.

Lemma frames_step_summary (stages : list Stage) (title : string) (segments : list Segment) (checkpoint : Checkpoint) :
  SummaryGeneration ∈ stages ->
  frames (step_summary env title segments checkpoint) anywhere stages.
Proof.
  intros Hs. unfold step_summary. frames_auto;
    try exact I; try exact Hs.
  apply frames_save_checkpoint. exact I.
Qed.

Lemma frames_save_transcription (stages : list Stage) (title : string) (segments : option (list Segment)) (checkpoint : Checkpoint) :
  SummaryGeneration ∈ stages ->
  frames (save_transcription env title segments checkpoint) anywhere stages.
Proof.
  intros Hs. unfold save_transcription. frames_auto; try exact I.
  - apply frames_save_checkpoint. exact I.
  - apply frames_step_summary. exact Hs.
Qed.

Lemma frames_after_transcribe (stages : list Stage) (title : string) (segments : option (list Segment)) (checkpoint : Checkpoint) :
  SummaryGeneration ∈ stages ->
  frames (checkpoint <- save_transcription env title segments checkpoint ;;
          save_checkpoint env (video_folder_of title)
            (<["completed" := VBool true]> checkpoint) ;;
          ret (<["completed" := VBool true]> checkpoint))
    anywhere stages.
Proof.
  intros Hs. frames_auto.
  - apply frames_save_transcription. exact Hs.
  - apply frames_save_checkpoint. exact I.
Qed.

Lemma frames_steps_after_audio (stages : list Stage) (title : string) (checkpoint : Checkpoint) :
  Transcription ∈ stages -> SummaryGeneration ∈ stages ->
  frames (steps_after_audio env title checkpoint) anywhere stages.
Proof.
  intros Ht Hs. unfold steps_after_audio. apply frames_bind.
  - apply frames_step_transcribe. exact Ht.
  - intros segments. apply frames_after_transcribe. exact Hs.
Qed.

Lemma not_elem_of_stages (s : Stage) (stages : list Stage) :
  forallb (fun s' => negb (bool_decide (s' = s))) stages = true -> s ∉ stages.
Proof.
  induction stages as [|s' stages IH]; [intros _; apply not_elem_of_nil|].
  cbn [forallb]. intros [H1 H2]%andb_true_iff.
  apply not_elem_of_cons. split; [|by apply IH].
  apply negb_true_iff, bool_decide_eq_false in H1. congruence.
Qed.

(** Step 2, when its test does not hold. *)
Lemma step_silence_runs (audio_file title : string) (checkpoint : Checkpoint) (w w' : World) (r : res Checkpoint) :
  silence_ready title checkpoint w = false ->
  step_silence env audio_file title checkpoint w = (r, w') ->
  call_count SilenceRemoval w' = S (call_count SilenceRemoval w)
  /\ (forall checkpoint',
        r = Ok checkpoint' ->
        checkpoint' = <["silence_removed" := VBool true]> checkpoint
        /\ file_exists w' (processed_audio_of title) = true
        /\ checkpoint_saved env title checkpoint' w').
Proof.
  intros Hready. rewrite step_silence_eq, Hready.
  destruct (remove_silence env audio_file (processed_audio_of title)
              1000 (-40) 200 w) as [[p|e] w1] eqn:E.
  - intros [= <- <-].
    pose proof (remove_silence_calls env _ _ _ _ _ _ _ _ E) as Hcount.
    pose proof (remove_silence_returns env _ _ _ _ _ _ _ _ E) as [_ Hexists].
    pose proof (after_save_evolves env (video_folder_of title)
                  (<["silence_removed" := VBool true]> checkpoint) w1) as Hev.
    split.
    + unfold call_count in *. by rewrite (evolves_no_calls _ _ _ Hev).
    + intros checkpoint' [= <-].
      split; [reflexivity|].
      split; [by apply (evolves_exists _ _ _ _ Hev)|apply after_save_saved].
  - intros [= <- <-]. split; [|done].
    by apply (remove_silence_calls env _ _ _ _ _ _ _ _ E).
Qed.

(** Step 4, when its test does not hold. *)
Lemma step_summary_runs (title : string) (segments : list Segment) (checkpoint : Checkpoint) (w w' : World) (r : res Checkpoint) :
  summary_ready title checkpoint w = false ->
  step_summary env title segments checkpoint w = (r, w') ->
  call_count SummaryGeneration w' = S (call_count SummaryGeneration w)
  /\ (forall checkpoint',
        r = Ok checkpoint' ->
        checkpoint' = <["summary_generated" := VBool true]> checkpoint
        /\ (exists summary,
              generate_summary segments title = Ok summary
              /\ files w' !! summary_file_of title = Some summary)
        /\ checkpoint_saved env title checkpoint' w').
Proof.
  intros Hready. rewrite step_summary_eq, Hready.
  destruct (generate_summary segments title) as [summary|e];
    [|intros [= <- <-]; split; [apply call_count_with_call|done]].
  destruct (bool_decide (summary_file_of title ∈ unwritable w));
    [intros [= <- <-]; split; [apply call_count_with_call|done]|].
  intros [= <- <-].
  pose proof (after_save_evolves env (video_folder_of title)
                (<["summary_generated" := VBool true]> checkpoint)
                (with_file (summary_file_of title) summary
                   (with_call SummaryGeneration w))) as Hev.
  split.
  - unfold call_count at 1. rewrite (evolves_no_calls _ _ _ Hev).
    apply call_count_with_call.
  - intros checkpoint' [= <-]. split; [reflexivity|].
    split; [|apply after_save_saved].
    exists summary. split; [reflexivity|].
    rewrite (evolves_files _ _ _ _ Hev) by apply summary_not_checkpoint.
    unfold with_file. cbn [files]. apply lookup_insert_eq.
Qed.

End Transitions.

(** ** Resuming a run *)

Lemma dict_get_insert_ne (checkpoint : Checkpoint) (key key' : string) (v default : pyval) :
  key <> key' ->
  dict_get (<[key := v]> checkpoint) key' default
  = dict_get checkpoint key' default.
Proof. intros H. unfold dict_get. by rewrite lookup_insert_ne. Qed.

Lemma with_file_evolves (stages : list Stage) (path data : string) (w : World) :
  evolves anywhere stages w (with_file path data w).
Proof.
  split; [done| | |].
  - intros q Hq. by destruct Hq.
  - apply file_exists_with_file.
  - exists []. split; [by rewrite app_nil_r|constructor].
Qed.

Lemma evolves_anywhere (paths : string -> Prop) (stages stages' : list Stage) (w w' : World) :
  evolves paths stages w w' ->
  (forall s, s ∈ stages -> s ∈ stages') ->
  evolves anywhere stages' w w'.
Proof. intros H Hs. eapply evolves_weaken; [exact H|done|exact Hs]. Qed.

Section Resume.

Variable env : Env.

Lemma after_save_anywhere (stages : list Stage) (video_folder : string) (state : Checkpoint) (w : World) :
  evolves anywhere stages w (after_save env video_folder state w).
Proof.
  eapply evolves_anywhere; [apply after_save_evolves|].
  intros s Hs. by apply elem_of_nil in Hs.
Qed.

Lemma main_body_after_download (url audio_file title : string) (checkpoint : Checkpoint) (w w1 : World) :
  step_download env url w = (Ok (audio_file, title, checkpoint), w1) ->
  main_body env url w
  = bind (step_silence env audio_file title checkpoint)
      (steps_after_audio env title) w1.
Proof. intros H. unfold main_body. by rewrite (bind_ok _ _ _ _ _ H). Qed.

Lemma step_download_call_count (url : string) (w w1 : World) (r : res (string * string * Checkpoint)) (s : Stage) :
  step_download env url w = (r, w1) -> s <> Download ->
  call_count s w1 = call_count s w.
Proof.
  intros H Hs.
  apply (spares_call_count _ _ _ _ _ _ (step_download_spares env _ _ _ _ H)).
  by intros ->%list_elem_of_singleton.
Qed.

Lemma summary_ready_preserved (paths : string -> Prop) (stages : list Stage) (title : string) (checkpoint checkpoint' : Checkpoint) (w w' : World) :
  summary_ready title checkpoint w = true ->
  evolves paths stages w w' ->
  dict_get checkpoint' "summary_generated" (VBool false)
  = dict_get checkpoint "summary_generated" (VBool false) ->
  summary_ready title checkpoint' w' = true.
Proof.
  unfold summary_ready. intros [He Ht]%andb_true_iff Hev Hflag.
  apply andb_true_iff. split.
  - by apply (evolves_exists _ _ _ _ Hev).
  - by rewrite Hflag.
Qed.

Lemma saved_transcription_preserved (paths : string -> Prop) (stages : list Stage) (title : string) (checkpoint checkpoint' : Checkpoint) (w w' : World) :
  evolves paths stages w w' ->
  ~ paths (transcription_file_of title) ->
  dict_get checkpoint' "transcribed" (VBool false)
  = dict_get checkpoint "transcribed" (VBool false) ->
  saved_transcription env title checkpoint' w'
  = saved_transcription env title checkpoint w.
Proof.
  intros Hev Hpath Hflag.
  unfold saved_transcription, transcription_ready, file_exists.
  by rewrite (evolves_files _ _ _ _ Hev _ Hpath), Hflag.
Qed.

(** With the summary on disk and its flag set, the rest of [main] calls
    no stage function but, at most, [transcribe_audio]. *)
Lemma steps_after_audio_summary_done (title : string) (checkpoint : Checkpoint) (w : World) :
  summary_ready title checkpoint w = true ->
  evolves anywhere [Transcription] w
    (snd (steps_after_audio env title checkpoint w)).
Proof.
  intros Hready. unfold steps_after_audio. unfold bind at 1.
  destruct (step_transcribe env title checkpoint w) as [[segments|e] w3] eqn:E3.
  2:{ apply (frames_evolves _ _ _ _ _ _
               (frames_step_transcribe env anywhere [Transcription] title
                  checkpoint (list_elem_of_here _ _)) E3). }
  pose proof (frames_evolves _ _ _ _ _ _
                (frames_step_transcribe env anywhere [Transcription] title
                   checkpoint (list_elem_of_here _ _)) E3) as Hev3.
  unfold bind at 1. rewrite save_transcription_eq.
  destruct (nonempty_segments segments) as [l|].
  - destruct (bool_decide (transcription_file_of title ∈ unwritable w3));
      [exact Hev3|].
    set (checkpoint3 := <["transcribed" := VBool true]> checkpoint).
    set (w4 := after_save env (video_folder_of title) checkpoint3
                 (with_file (transcription_file_of title)
                    (json_dump_segments env l) w3)).
    assert (evolves anywhere [Transcription] w w4) as Hev4.
    { eapply evolves_trans; [exact Hev3|].
      eapply evolves_trans; [apply with_file_evolves|apply after_save_anywhere]. }
    rewrite step_summary_eq.
    rewrite (summary_ready_preserved _ _ title checkpoint checkpoint3 w w4 Hready Hev4)
      by (by apply dict_get_insert_ne).
    unfold bind. rewrite save_checkpoint_after. cbn [snd].
    eapply evolves_trans; [exact Hev4|apply after_save_anywhere].
  - unfold bind. rewrite save_checkpoint_after. cbn [snd].
    eapply evolves_trans; [exact Hev3|apply after_save_anywhere].
Qed.

(** Resuming: a stage whose test holds when the download is done is not
    executed again by the run. *)
Lemma resume_silence (url audio_file title : string) (checkpoint : Checkpoint) (w w1 w' : World) (r : res Checkpoint) :
  step_download env url w = (Ok (audio_file, title, checkpoint), w1) ->
  main_body env url w = (r, w') ->
  silence_ready title checkpoint w1 = true ->
  call_count SilenceRemoval w' = call_count SilenceRemoval w.
Proof.
  intros Hdl Hmain Hready.
  rewrite (main_body_after_download _ _ _ _ _ _ Hdl) in Hmain.
  unfold bind in Hmain. rewrite step_silence_eq, Hready in Hmain.
  rewrite <- (step_download_call_count _ _ _ _ SilenceRemoval Hdl) by done.
  apply (evolves_call_count anywhere [Transcription; SummaryGeneration]).
  - refine (frames_evolves _ _ _ _ _ _
              (frames_steps_after_audio env _ title checkpoint _ _) Hmain).
    + apply list_elem_of_here.
    + apply list_elem_of_further, list_elem_of_here.
  - by apply not_elem_of_stages.
Qed.

Lemma resume_transcription (url audio_file title : string) (checkpoint : Checkpoint) (w w1 w' : World) (r : res Checkpoint) (segments : list Segment) :
  step_download env url w = (Ok (audio_file, title, checkpoint), w1) ->
  main_body env url w = (r, w') ->
  saved_transcription env title checkpoint w1 = Some segments ->
  call_count Transcription w' = call_count Transcription w.
Proof.
  intros Hdl Hmain Hsaved.
  rewrite (main_body_after_download _ _ _ _ _ _ Hdl) in Hmain.
  rewrite <- (step_download_call_count _ _ _ _ Transcription Hdl) by done.
  unfold bind at 1 in Hmain.
  destruct (step_silence env audio_file title checkpoint w1)
    as [[checkpoint2|e] w2] eqn:E2.
  - pose proof (frames_evolves _ _ _ _ _ _
                  (frames_step_silence env audio_file title checkpoint
                     [SilenceRemoval] (list_elem_of_here _ _)) E2) as Hev2.
    assert (saved_transcription env title checkpoint2 w2 = Some segments) as Hs2.
    { rewrite <- Hsaved.
      apply (saved_transcription_preserved _ _ _ _ _ _ _ Hev2).
      - intros [H|H]; [by apply transcription_not_processed in H|].
        by apply transcription_not_checkpoint in H.
      - destruct (step_silence_checkpoint env _ _ _ _ _ _ E2) as [-> | ->];
          [done|by apply dict_get_insert_ne]. }
    unfold steps_after_audio in Hmain. unfold bind at 1 in Hmain.
    rewrite step_transcribe_eq, Hs2 in Hmain.
    transitivity (call_count Transcription w2).
    + apply (evolves_call_count anywhere [SummaryGeneration]).
      * refine (frames_evolves _ _ _ _ _ _
                  (frames_after_transcribe env _ title (Some segments)
                     checkpoint2 _) Hmain).
        apply list_elem_of_here.
      * by apply not_elem_of_stages.
    + apply (evolves_call_count _ _ _ _ _ Hev2). by apply not_elem_of_stages.
  - injection Hmain as <- <-.
    eapply (evolves_call_count _ [SilenceRemoval] w1 w2).
    + apply (frames_evolves _ _ _ _ _ _
               (frames_step_silence env audio_file title checkpoint
                  [SilenceRemoval] (list_elem_of_here _ _)) E2).
    + by apply not_elem_of_stages.
Qed.

Lemma resume_summary (url audio_file title : string) (checkpoint : Checkpoint) (w w1 w' : World) (r : res Checkpoint) :
  step_download env url w = (Ok (audio_file, title, checkpoint), w1) ->
  main_body env url w = (r, w') ->
  summary_ready title checkpoint w1 = true ->
  call_count SummaryGeneration w' = call_count SummaryGeneration w.
Proof.
  intros Hdl Hmain Hready.
  rewrite (main_body_after_download _ _ _ _ _ _ Hdl) in Hmain.
  rewrite <- (step_download_call_count _ _ _ _ SummaryGeneration Hdl) by done.
  unfold bind at 1 in Hmain.
  destruct (step_silence env audio_file title checkpoint w1)
    as [[checkpoint2|e] w2] eqn:E2.
  - pose proof (frames_evolves _ _ _ _ _ _
                  (frames_step_silence env audio_file title checkpoint
                     [SilenceRemoval] (list_elem_of_here _ _)) E2) as Hev2.
    assert (summary_ready title checkpoint2 w2 = true) as Hg2.
    { apply (summary_ready_preserved _ _ _ _ _ _ _ Hready Hev2).
      destruct (step_silence_checkpoint env _ _ _ _ _ _ E2) as [-> | ->];
        [done|by apply dict_get_insert_ne]. }
    pose proof (steps_after_audio_summary_done title checkpoint2 w2 Hg2) as Hev.
    rewrite Hmain in Hev. cbn [snd] in Hev.
    transitivity (call_count SummaryGeneration w2).
    + apply (evolves_call_count _ _ _ _ _ Hev). by apply not_elem_of_stages.
    + apply (evolves_call_count _ _ _ _ _ Hev2). by apply not_elem_of_stages.
  - injection Hmain as <- <-.
    eapply (evolves_call_count _ [SilenceRemoval] w1 w2).
    + apply (frames_evolves _ _ _ _ _ _
               (frames_step_silence env audio_file title checkpoint
                  [SilenceRemoval] (list_elem_of_here _ _)) E2).
    + by apply not_elem_of_stages.
Qed.

(** Executing: a stage whose test does not hold is executed once. *)
Lemma execute_silence (url audio_file title : string) (checkpoint : Checkpoint) (w w1 w' : World) (r : res Checkpoint) :
  step_download env url w = (Ok (audio_file, title, checkpoint), w1) ->
  main_body env url w = (r, w') ->
  silence_ready title checkpoint w1 = false ->
  call_count SilenceRemoval w' = S (call_count SilenceRemoval w).
Proof.
  intros Hdl Hmain Hready.
  rewrite (main_body_after_download _ _ _ _ _ _ Hdl) in Hmain.
  rewrite <- (step_download_call_count _ _ _ _ SilenceRemoval Hdl) by done.
  unfold bind at 1 in Hmain.
  destruct (step_silence env audio_file title checkpoint w1)
    as [[checkpoint2|e] w2] eqn:E2.
  - destruct (step_silence_runs env _ _ _ _ _ _ Hready E2) as [<- _].
    apply (evolves_call_count anywhere [Transcription; SummaryGeneration]).
    + refine (frames_evolves _ _ _ _ _ _
                (frames_steps_after_audio env _ title checkpoint2 _ _) Hmain).
      * apply list_elem_of_here.
      * apply list_elem_of_further, list_elem_of_here.
    + by apply not_elem_of_stages.
  - injection Hmain as <- <-.
    by destruct (step_silence_runs env _ _ _ _ _ _ Hready E2) as [? _].
Qed.

Lemma execute_transcription (url audio_file title : string) (checkpoint final : Checkpoint) (w w1 w' : World) :
  step_download env url w = (Ok (audio_file, title, checkpoint), w1) ->
  main_body env url w = (Ok final, w') ->
  saved_transcription env title checkpoint w1 = None ->
  call_count Transcription w' = S (call_count Transcription w).
Proof.
  intros Hdl Hmain Hsaved.
  rewrite (main_body_after_download _ _ _ _ _ _ Hdl) in Hmain.
  rewrite <- (step_download_call_count _ _ _ _ Transcription Hdl) by done.
  unfold bind at 1 in Hmain.
  destruct (step_silence env audio_file title checkpoint w1)
    as [[checkpoint2|e] w2] eqn:E2; [|done].
  pose proof (frames_evolves _ _ _ _ _ _
                (frames_step_silence env audio_file title checkpoint
                   [SilenceRemoval] (list_elem_of_here _ _)) E2) as Hev2.
  assert (saved_transcription env title checkpoint2 w2 = None) as Hs2.
  { rewrite <- Hsaved.
    apply (saved_transcription_preserved _ _ _ _ _ _ _ Hev2).
    - intros [H|H]; [by apply transcription_not_processed in H|].
      by apply transcription_not_checkpoint in H.
    - destruct (step_silence_checkpoint env _ _ _ _ _ _ E2) as [-> | ->];
        [done|by apply dict_get_insert_ne]. }
  unfold steps_after_audio in Hmain. unfold bind at 1 in Hmain.
  rewrite step_transcribe_eq, Hs2, transcribe_audio_eq in Hmain.
  rewrite <- (evolves_call_count _ _ _ _ Transcription Hev2)
    by (by apply not_elem_of_stages).
  rewrite <- call_count_with_call.
  apply (evolves_call_count anywhere [SummaryGeneration]).
  - refine (frames_evolves _ _ _ _ _ _
              (frames_after_transcribe env _ title _ checkpoint2 _) Hmain).
    apply list_elem_of_here.
  - by apply not_elem_of_stages.
Qed.

End Resume.

(** C1, as amended. For the stages SilenceRemoval, Transcription and
    SummaryGeneration, [main] tests, when it reaches the stage, that the
    artifact of the stage exists and that the flag of the stage is true.
    - Step 2: if both hold, nothing is done; otherwise [remove_silence] is
      called once and, when it returns, the artifact exists, the flag is set
      and the checkpoint is saved.
    - Step 3: if both hold and the saved transcription can be parsed, it is
      used and [transcribe_audio] is not called; otherwise
      [transcribe_audio] is called once. Only a non-empty list of segments
      is written to the transcription file, sets the flag, saves the
      checkpoint and leads to step 4.
    - Step 4: if both hold, nothing is done; otherwise the summary is
      generated once and, when the step returns, the summary file holds it,
      the flag is set and the checkpoint is saved.
    - Resuming: in a run of [main] whose download succeeds, a stage among
      these three whose test holds after the download (for Transcription:
      whose saved transcription can be parsed) is not executed; otherwise
      [remove_silence] is called once, and [transcribe_audio] is called once
      in a run that returns. *)
Theorem stage_transition_rule (env : Env) :
  (forall (audio_file title : string) (checkpoint : Checkpoint) (w : World),
     (silence_ready title checkpoint w = true ->
      step_silence env audio_file title checkpoint w = (Ok checkpoint, w))
     /\ (silence_ready title checkpoint w = false ->
         forall (r : res Checkpoint) (w' : World),
           step_silence env audio_file title checkpoint w = (r, w') ->
           call_count SilenceRemoval w' = S (call_count SilenceRemoval w)
           /\ (forall checkpoint',
                 r = Ok checkpoint' ->
                 checkpoint' = <["silence_removed" := VBool true]> checkpoint
                 /\ file_exists w' (processed_audio_of title) = true
                 /\ checkpoint_saved env title checkpoint' w')))
  /\ (forall (title : string) (checkpoint : Checkpoint) (w : World),
        match saved_transcription env title checkpoint w with
        | Some segments =>
            step_transcribe env title checkpoint w = (Ok (Some segments), w)
        | None =>
            exists segments,
              step_transcribe env title checkpoint w
              = (Ok segments, with_call Transcription w)
        end)
  /\ (forall (title : string) (segments : option (list Segment)) (checkpoint : Checkpoint) (w : World),
        save_transcription env title segments checkpoint w
        = match nonempty_segments segments with
          | Some l =>
              if bool_decide (transcription_file_of title ∈ unwritable w)
              then (Raise (OSError (transcription_file_of title)), w)
              else
                step_summary env title l
                  (<["transcribed" := VBool true]> checkpoint)
                  (after_save env (video_folder_of title)
                     (<["transcribed" := VBool true]> checkpoint)
                     (with_file (transcription_file_of title)
                        (json_dump_segments env l) w))
          | None => (Ok checkpoint, w)
          end)
  /\ (forall (title : string) (segments : list Segment) (checkpoint : Checkpoint) (w : World),
        (summary_ready title checkpoint w = true ->
         step_summary env title segments checkpoint w = (Ok checkpoint, w))
        /\ (summary_ready title checkpoint w = false ->
            forall (r : res Checkpoint) (w' : World),
              step_summary env title segments checkpoint w = (r, w') ->
              call_count SummaryGeneration w'
              = S (call_count SummaryGeneration w)
              /\ (forall checkpoint',
                    r = Ok checkpoint' ->
                    checkpoint'
                    = <["summary_generated" := VBool true]> checkpoint
                    /\ (exists summary,
                          generate_summary segments title = Ok summary
                          /\ files w' !! summary_file_of title = Some summary)
                    /\ checkpoint_saved env title checkpoint' w')))
  /\ (forall (url audio_file title : string) (checkpoint : Checkpoint) (w w1 w' : World) (r : res Checkpoint),
        step_download env url w = (Ok (audio_file, title, checkpoint), w1) ->
        main_body env url w = (r, w') ->
        (silence_ready title checkpoint w1 = true ->
         call_count SilenceRemoval w' = call_count SilenceRemoval w)
        /\ (silence_ready title checkpoint w1 = false ->
            call_count SilenceRemoval w' = S (call_count SilenceRemoval w))
        /\ (is_Some (saved_transcription env title checkpoint w1) ->
            call_count Transcription w' = call_count Transcription w)
        /\ (saved_transcription env title checkpoint w1 = None ->
            (exists final, r = Ok final) ->
            call_count Transcription w' = S (call_count Transcription w))
        /\ (summary_ready title checkpoint w1 = true ->
            call_count SummaryGeneration w'
            = call_count SummaryGeneration w)).
Proof.
  split; [|split; [|split; [|split]]].
  - intros audio_file title checkpoint w. split.
    + intros Hready. by rewrite step_silence_eq, Hready.
    + intros Hready r w'. by apply step_silence_runs.
  - intros title checkpoint w. rewrite step_transcribe_eq.
    destruct (saved_transcription env title checkpoint w); [reflexivity|].
    rewrite transcribe_audio_eq. by eexists.
  - apply save_transcription_eq.
  - intros title segments checkpoint w. split.
    + intros Hready. by rewrite step_summary_eq, Hready.
    + intros Hready r w'. by apply step_summary_runs.
  - intros url audio_file title checkpoint w w1 w' r Hdl Hmain.
    split; [|split; [|split; [|split]]].
    + by eapply resume_silence.
    + by eapply execute_silence.
    + intros [segments Hsaved]. by eapply resume_transcription.
    + intros Hsaved [final ->]. by eapply execute_transcription.
    + by eapply resume_summary.
Qed.

Lemma stage_transition_rule_witness :
  call_count SilenceRemoval
    (snd (main_body (demo_env false true) demo_url finished_world))
  = call_count SilenceRemoval finished_world
  /\ call_count Transcription
       (snd (main_body (demo_env false true) demo_url finished_world))
     = call_count Transcription finished_world
  /\ call_count SummaryGeneration
       (snd (main_body (demo_env false true) demo_url finished_world))
     = call_count SummaryGeneration finished_world.
Proof.
  destruct (stage_transition_rule (demo_env false true))
    as (_ & _ & _ & _ & Hresume).
  destruct (Hresume demo_url "downloads/T.mp3" "T" finished_checkpoint1
              finished_world finished_world1
              (snd (main_body (demo_env false true) demo_url finished_world))
              (fst (main_body (demo_env false true) demo_url finished_world)))
    as (Hsilence & _ & Htranscription & _ & Hsummary).
  - vm_compute. reflexivity.
  - apply surjective_pairing.
  - split; [|split].
    + apply Hsilence. vm_compute. reflexivity.
    + apply Htranscription. vm_compute. eexists. reflexivity.
    + apply Hsummary. vm_compute. reflexivity.
Defined.

(** C1, as stated, fails. In the finished world every artifact is on disk
    and the checkpoint marks every stage; a new run of [main] calls
    [download_video] again, which is called before any test. With the
    transcription file cut short, the artifact of Transcription still exists
    and its flag is still true, and the new run calls [transcribe_audio]
    again. *)
Lemma stage_rule_counterexample :
  file_exists finished_world "downloads/T.mp3" = true
  /\ load_checkpoint (demo_env false true) "videos/T" finished_world
     = (Ok (JDict finished_checkpoint), finished_world)
  /\ finished_checkpoint !! "downloaded" = Some (VBool true)
  /\ call_count Download finished_world = 0%nat
  /\ call_count Download
       (snd (main_body (demo_env false true) demo_url finished_world))
     = 1%nat
  /\ file_exists cut_transcription_world (transcription_file_of "T") = true
  /\ fst (load_checkpoint (demo_env false true) "videos/T"
            cut_transcription_world)
     = Ok (JDict finished_checkpoint)
  /\ finished_checkpoint !! "transcribed" = Some (VBool true)
  /\ call_count Transcription cut_transcription_world = 0%nat
  /\ call_count Transcription
       (snd (main_body (demo_env false true) demo_url cut_transcription_world))
     = 1%nat.
Proof. repeat split; vm_compute; reflexivity. Qed.

(* ===================================================================== *)
(** * Further properties *)
(* ===================================================================== *)

(** ** sanitize_filename, continued *)

Lemma remove_invalid_id (s : string) :
  Forall (fun c => PyStr.is_invalid c = false) (PyStr.chars s) ->
  PyStr.remove_invalid s = s.
Proof.
  induction s as [|c s IH]; [done|]. intros [Hc Hs]%Forall_cons.
  cbn [PyStr.remove_invalid]. rewrite Hc. by rewrite IH.
Qed.

Lemma sub_spaces_id (s : string) (b : bool) :
  Forall (fun c => PyStr.isspace c = false) (PyStr.chars s) ->
  PyStr.sub_spaces b s = s.
Proof.
  revert b. induction s as [|c s IH]; intros b; [done|].
  intros [Hc Hs]%Forall_cons.
  cbn [PyStr.sub_spaces]. rewrite Hc. by rewrite IH.
Qed.

Lemma lstrip_id (p : ascii -> bool) (s : string) :
  first_not p s -> PyStr.lstrip p s = s.
Proof.
  unfold first_not. destruct s as [|c s]; [done|].
  cbn [PyStr.first_char PyStr.lstrip]. by intros ->.
Qed.

Lemma rstrip_id (p : ascii -> bool) (s : string) :
  last_not p s -> PyStr.rstrip p s = s.
Proof.
  unfold last_not. induction s as [|c s IH]; [done|].
  cbn [PyStr.rstrip]. destruct s as [|d s].
  - cbn. by intros ->.
  - intros H. rewrite IH by exact H. done.
Qed.

Lemma rstrip_length (p : ascii -> bool) (s : string) :
  (String.length (PyStr.rstrip p s) <= String.length s)%nat.
Proof.
  induction s as [|c s IH]; [done|].
  cbn [PyStr.rstrip]. destruct (PyStr.rstrip p s) as [|d r].
  - destruct (p c); simpl; lia.
  - simpl in *. lia.
Qed.

Lemma rstrip_last_not (p : ascii -> bool) (s : string) :
  last_not p (PyStr.rstrip p s).
Proof.
  unfold last_not.
  destruct (PyStr.last_char (PyStr.rstrip p s)) as [c|] eqn:E; [|done].
  by apply rstrip_last in E.
Qed.

Lemma rstrip_first_not (p : ascii -> bool) (s : string) :
  first_not p s -> first_not p (PyStr.rstrip p s).
Proof.
  unfold first_not. intros H.
  destruct (PyStr.first_char (PyStr.rstrip p s)) as [c|] eqn:E; [|done].
  apply rstrip_first in E. by rewrite E in H.
Qed.

Lemma sanitize_filename_first_not (title : string) :
  first_not PyStr.is_dot_or_space (sanitize_filename title).
Proof.
  unfold first_not.
  destruct (PyStr.first_char (sanitize_filename title)) as [c|] eqn:E; [|done].
  by apply sanitize_filename_first in E.
Qed.

(** Each step of [sanitize_filename] is the identity on a string that it
    has nothing to do with. *)
Lemma sanitize_filename_id (s : string) :
  Forall (fun c => PyStr.is_invalid c = false) (PyStr.chars s) ->
  Forall (fun c => PyStr.isspace c = false) (PyStr.chars s) ->
  first_not PyStr.is_dot_or_space s ->
  last_not PyStr.is_dot_or_space s ->
  (String.length s <= 200)%nat ->
  sanitize_filename s = s.
Proof.
  intros Hinvalid Hspace Hfirst Hlast Hlen.
  unfold sanitize_filename, PyStr.strip.
  rewrite (remove_invalid_id _ Hinvalid), (sub_spaces_id _ _ Hspace).
  rewrite (lstrip_id _ _ Hfirst), (rstrip_id _ _ Hlast).
  by rewrite (proj2 (Nat.ltb_ge _ _) Hlen).
Qed.

(** A safe name is left as it is: a name without invalid characters and
    without whitespace, that neither starts nor ends with a dot or a space
    and has at most 200 characters. *)
Theorem sanitize_filename_safe_name (name : string) :
  safe_name name -> sanitize_filename name = name.
Proof.
  intros (Hinvalid & Hspace & Hfirst & Hlast & Hlen).
  by apply sanitize_filename_id.
Qed.

Lemma sanitize_filename_safe_name_witness :
  sanitize_filename "My_video.part-1" = "My_video.part-1".
Proof.
  apply (sanitize_filename_safe_name "My_video.part-1").
  repeat split; try (vm_compute; lia);
    repeat (constructor; [reflexivity|]); constructor.
Defined.

(** Whatever the title, the result has at most 200 characters, holds none
    of the nine invalid characters and no whitespace, and does not start
    with a dot or a space. *)
Theorem sanitize_filename_contract (title : string) :
  (String.length (sanitize_filename title) <= 200)%nat
  /\ Forall (fun c => PyStr.is_invalid c = false)
       (PyStr.chars (sanitize_filename title))
  /\ Forall (fun c => PyStr.isspace c = false)
       (PyStr.chars (sanitize_filename title))
  /\ first_not PyStr.is_dot_or_space (sanitize_filename title).
Proof.
  split; [apply sanitize_filename_length|].
  split; [apply sanitize_filename_no_invalid|].
  split; [apply sanitize_filename_no_whitespace|].
  apply sanitize_filename_first_not.
Qed.

(** Sanitising a second time only removes the dots that the cut to 200
    characters left at the end; a third time changes nothing. *)
Theorem sanitize_filename_twice (title : string) :
  sanitize_filename (sanitize_filename title)
  = PyStr.rstrip PyStr.is_dot_or_space (sanitize_filename title)
  /\ sanitize_filename (sanitize_filename (sanitize_filename title))
     = sanitize_filename (sanitize_filename title).
Proof.
  pose proof (sanitize_filename_length title) as Hlen.
  pose proof (sanitize_filename_no_invalid title) as Hinvalid.
  pose proof (sanitize_filename_no_whitespace title) as Hspace.
  pose proof (sanitize_filename_first_not title) as Hfirst.
  set (s := sanitize_filename title) in *.
  assert (sanitize_filename s = PyStr.rstrip PyStr.is_dot_or_space s) as H2.
  { unfold sanitize_filename at 1, PyStr.strip.
    rewrite (remove_invalid_id _ Hinvalid), (sub_spaces_id _ _ Hspace).
    rewrite (lstrip_id _ _ Hfirst).
    pose proof (rstrip_length PyStr.is_dot_or_space s) as Hr.
    rewrite (proj2 (Nat.ltb_ge _ _)) by lia. done. }
  split; [exact H2|].
  rewrite H2.
  pose proof (rstrip_length PyStr.is_dot_or_space s) as Hr.
  apply sanitize_filename_id.
  - by apply rstrip_chars.
  - by apply rstrip_chars.
  - by apply rstrip_first_not.
  - apply rstrip_last_not.
  - lia.
Qed.

(** ** The artifacts of a video *)

(** The four paths that [main] builds in the folder of a video, for the
    checkpoint, the processed audio, the transcription and the summary, are
    different from one another. *)
Theorem artifact_paths_distinct (title : string) :
  NoDup [checkpoint_path (video_folder_of title);
         processed_audio_of title;
         transcription_file_of title;
         summary_file_of title].
Proof.
  assert (ends_with "son" (checkpoint_path (video_folder_of title))) as Hck.
  { apply ends_with_join. by exists ".checkpoint.j". }
  assert (ends_with ".md" (summary_file_of title)) as Hmd.
  { apply ends_with_join, ends_with_append. by exists "_summary". }
  repeat apply NoDup_cons_2; try apply NoDup_nil_2;
    rewrite ?not_elem_of_cons; repeat split; try apply not_elem_of_nil.
  - eapply ends_with_distinct; [exact Hck|apply processed_audio_ends|done..].
  - intros H. by apply (transcription_not_checkpoint title (video_folder_of title)).
  - intros H. by apply (summary_not_checkpoint title (video_folder_of title)).
  - intros H. by apply (transcription_not_processed title).
  - intros H. symmetry in H. revert H.
    eapply ends_with_distinct; [exact Hmd|apply processed_audio_ends|done..].
  - intros H. by apply (summary_not_transcription title).
Qed.

(** ** download_video *)


(** ** transcribe_audio *)




(** ** The highlights of a report *)

Lemma join_cons (sep x : string) (l : list string) :
  l <> [] -> PyStr.join sep (x :: l) = x +:+ sep +:+ PyStr.join sep l.
Proof. by destruct l. Qed.

Lemma join_app (sep : string) (a b : list string) :
  a <> [] -> b <> [] ->
  PyStr.join sep (a ++ b) = PyStr.join sep a +:+ sep +:+ PyStr.join sep b.
Proof.
  intros Ha Hb. induction a as [|x a IH]; [done|].
  destruct a as [|y a].
  - cbn [app]. by rewrite join_cons.
  - change ((x :: y :: a) ++ b) with (x :: ((y :: a) ++ b)).
    rewrite join_cons by done. rewrite IH by done.
    rewrite (join_cons sep x (y :: a)) by done.
    by rewrite !append_assoc.
Qed.

Lemma group_from_texts (interval : Z) (rest : list TranscriptSegment) (w : Window) :
  texts w <> [] ->
  PyStr.join " " (map ordered_text (group_from interval w rest))
  = PyStr.join " " (texts w ++ map ts_text rest).
Proof.
  revert w. induction rest as [|s rest IH]; intros w Hw.
  - cbn. by rewrite app_nil_r.
  - cbn [group_from map].
    destruct (interval <? ts_start s - last_end w).
    + cbn [map]. rewrite join_cons.
      2:{ intros H. apply map_eq_nil in H. by apply group_from_not_nil in H. }
      rewrite IH by done. cbn [open_window texts close_window ordered_text].
      by rewrite (join_app " " (texts w) (ts_text s :: map ts_text rest)).
    + rewrite IH.
      2:{ cbn. intros H. by apply app_eq_nil in H as [_ ?]. }
      cbn [absorb texts]. by rewrite <- app_assoc.
Qed.






(** No text is lost: in the report of well-formed segments, the texts of
    the highlights, joined by spaces, are the texts of the segments joined
    by spaces, in their order. *)
Theorem highlights_keep_text (s : TranscriptSegment) (rest : list TranscriptSegment) (title : string) :
  exists (hs : list Highlight) (labels : list Z),
    generate_summary (map of_ts (s :: rest)) title
    = Ok (PyStr.concat
            (header_lines title (final_end (open_window s) rest)
               (S (length rest))
             ++ render_highlights hs labels
             ++ ["---" +:+ PyStr.nl +:+ PyStr.nl; full_transcription_heading]
             ++ map transcription_line (s :: rest)))
    /\ length labels = length hs
    /\ PyStr.join " " (map ordered_text hs)
       = PyStr.join " " (map ts_text (s :: rest)).
Proof.
  eexists _, _. split; [apply generate_summary_of_ts|].
  split; [apply source_labels_length|].
  cbn [group_highlights]. by rewrite group_from_texts.
Qed.




(** ** The checkpoint store, continued *)

Lemma after_save_writable (env : Env) (video_folder : string) (state : Checkpoint) (w : World) :
  checkpoint_path video_folder ∉ unwritable w ->
  after_save env video_folder state w
  = with_file (checkpoint_path video_folder) (json_dump_checkpoint env state) w.
Proof. intros H. unfold after_save. by rewrite bool_decide_eq_false_2. Qed.

(** Neither operation of the store raises. [load_checkpoint] leaves the
    world as it is and returns the value that [json.load] gives for the
    checkpoint file, whether it is a dict or not; it returns an empty dict
    when the file is absent or is not JSON. [save_checkpoint] records no
    call and changes no file but the checkpoint file of the folder. *)
Theorem checkpoint_store_safe (env : Env) (video_folder : string) (state : Checkpoint) (w : World) :
  (exists loaded,
     load_checkpoint env video_folder w = (Ok loaded, w)
     /\ loaded = match files w !! checkpoint_path video_folder with
                 | Some data =>
                     match json_load_checkpoint env data with
                     | Some value => value
                     | None => JDict ∅
                     end
                 | None => JDict ∅
                 end)
  /\ (exists w',
        save_checkpoint env video_folder state w = (Ok tt, w')
        /\ calls w' = calls w
        /\ unwritable w' = unwritable w
        /\ (forall q, q <> checkpoint_path video_folder ->
                      files w' !! q = files w !! q)
        /\ (forall q, file_exists w q = true -> file_exists w' q = true)).
Proof.
  split.
  { eexists. split; [apply load_checkpoint_eq|].
    destruct (files w !! checkpoint_path video_folder) as [data|]; [|done].
    by destruct (json_load_checkpoint env data). }
  exists (after_save env video_folder state w).
  pose proof (after_save_evolves env video_folder state w) as Hev.
  split; [apply save_checkpoint_after|].
  split; [by apply evolves_no_calls in Hev|].
  split; [apply (evolves_unwritable _ _ _ _ Hev)|].
  split; [apply (evolves_files _ _ _ _ Hev)|apply (evolves_exists _ _ _ _ Hev)].
Qed.

(** What [load_checkpoint] returns need not be a dict: for a checkpoint
    file that holds [null], a number or a list it returns that value. *)
Lemma load_checkpoint_not_a_dict :
  fst (load_checkpoint (demo_env false false) "videos/T"
         (with_file "videos/T/.checkpoint.json" "null" empty_world))
  = Ok (JScalar VNone)
  /\ fst (load_checkpoint (demo_env false false) "videos/T"
            (with_file "videos/T/.checkpoint.json" "3" empty_world))
     = Ok (JScalar (VInt 3))
  /\ fst (load_checkpoint (demo_env false false) "videos/T"
            (with_file "videos/T/.checkpoint.json" "[]" empty_world))
     = Ok JList.
Proof. repeat split; vm_compute; reflexivity. Qed.

(** The last save wins: after two saves in a folder whose checkpoint file
    can be written, [load_checkpoint] returns the second record, if it is
    JSON-serialisable. *)
Theorem checkpoint_last_save_wins (env : Env) (video_folder : string) (state1 state2 : Checkpoint) (w : World) :
  json_load_checkpoint env (json_dump_checkpoint env state2)
  = Some (JDict state2) ->
  checkpoint_path video_folder ∉ unwritable w ->
  exists w1 w2,
    save_checkpoint env video_folder state1 w = (Ok tt, w1)
    /\ save_checkpoint env video_folder state2 w1 = (Ok tt, w2)
    /\ load_checkpoint env video_folder w2 = (Ok (JDict state2), w2).
Proof.
  intros Hvalid Hwritable. eexists _, _.
  split; [apply save_checkpoint_after|].
  split; [apply save_checkpoint_after|].
  rewrite load_checkpoint_eq.
  rewrite (after_save_writable env video_folder state1 w Hwritable).
  rewrite after_save_writable by exact Hwritable.
  cbn [with_file files]. by rewrite lookup_insert_eq, Hvalid.
Qed.

Lemma checkpoint_last_save_wins_witness :
  exists w1 w2,
    save_checkpoint (demo_env false false) "videos/T" one_flag empty_world
    = (Ok tt, w1)
    /\ save_checkpoint (demo_env false false) "videos/T" demo_checkpoint1 w1
       = (Ok tt, w2)
    /\ load_checkpoint (demo_env false false) "videos/T" w2
       = (Ok (JDict demo_checkpoint1), w2).
Proof.
  apply (checkpoint_last_save_wins (demo_env false false) "videos/T" one_flag
           demo_checkpoint1 empty_world).
  - vm_compute. reflexivity.
  - cbn [empty_world unwritable]. apply not_elem_of_empty.
Defined.

(** ** remove_silence, continued *)

Section RemoveSilenceMore.

Variable env : Env.

Lemma remove_silence_adds_call (audio_file output_file : string) (m s k : Z) (w w' : World) (r : res string) :
  remove_silence env audio_file output_file m s k w = (r, w') ->
  calls w' = calls w ++ [SilenceRemoval].
Proof.
  unfold remove_silence. unfold bind at 1. unfold called at 1.
  set (body := if PYDUB_AVAILABLE env then _ else _). intros E.
  assert (frames body (fun q => q = output_file) []) as Hbody.
  { subst body. unfold pydub_load, ffmpeg_run.
    frames_auto; try reflexivity; try apply frames_copy2;
      try apply frames_ffmpeg_process; reflexivity. }
  apply (frames_evolves _ _ _ _ _ _ Hbody) in E.
  by rewrite (evolves_no_calls _ _ _ E).
Qed.

(** Whether it returns or raises, [remove_silence] records one call and
    changes no file but the output file: an input at another path is not
    modified, and no file is removed. *)
Theorem remove_silence_footprint (audio_file output_file : string) (min_silence_len silence_thresh keep_silence : Z) (w : World) :
  let w' := snd (remove_silence env audio_file output_file min_silence_len
                   silence_thresh keep_silence w) in
  calls w' = calls w ++ [SilenceRemoval]
  /\ unwritable w' = unwritable w
  /\ (forall q, q <> output_file -> files w' !! q = files w !! q)
  /\ (forall q, file_exists w q = true -> file_exists w' q = true).
Proof.
  intros w'. subst w'.
  destruct (remove_silence env audio_file output_file min_silence_len
              silence_thresh keep_silence w) as [r w'] eqn:E.
  cbn [snd].
  pose proof (frames_evolves _ _ _ _ _ _
                (frames_remove_silence env audio_file output_file
                   min_silence_len silence_thresh keep_silence) E) as Hev.
  split; [by eapply remove_silence_adds_call|].
  split; [apply (evolves_unwritable _ _ _ _ Hev)|].
  split; [apply (evolves_files _ _ _ _ Hev)|apply (evolves_exists _ _ _ _ Hev)].
Qed.



End RemoveSilenceMore.


(** ** main, as a whole *)

Lemma bind_called {A B : Type} (s : Stage) (m : M A) (k : A -> M B) (w : World) :
  bind (bind (called s) (fun _ => m)) k w = bind m k (with_call s w).
Proof. reflexivity. Qed.

Lemma after_save_calls (env : Env) (video_folder : string) (state : Checkpoint) (w : World) :
  calls (after_save env video_folder state w) = calls w.
Proof. unfold after_save. by destruct (bool_decide _). Qed.

Section MainWhole.

Variable env : Env.





End MainWhole.


Section MainCalls.

Variable env : Env.

(** [download_video], case by case. *)
Lemma download_video_eq (url output_dir : string) (w : World) :
  download_video env url output_dir w
  = match yt_dlp_extract_info env output_dir url with
    | None => (Raise DownloadError, with_call Download w)
    | Some info =>
        let audio_file :=
          os_path.splitext_root (info_filename info) +:+ ".mp3" in
        let title := default "video" (info_title info) in
        let w2 := snd (yt_dlp_leaves output_dir (info_media info)
                         (with_call Download w)) in
        match info_audio info with
        | Some data =>
            if bool_decide (audio_file ∈ unwritable w2)
            then (Raise (OSError audio_file), w2)
            else (Ok (audio_file, title), with_file audio_file data w2)
        | None =>
            if file_exists w2 audio_file then (Ok (audio_file, title), w2)
            else (Raise (FileNotFoundError audio_file), w2)
        end
    end.
Proof.
  unfold download_video. unfold bind at 1. unfold called at 1.
  destruct (yt_dlp_extract_info env output_dir url) as [info|]; [|reflexivity].
  cbv zeta.
  set (audio_file := os_path.splitext_root (info_filename info) +:+ ".mp3").
  set (w2 := snd (yt_dlp_leaves output_dir (info_media info)
                    (with_call Download w))).
  unfold bind at 1.
  change (yt_dlp_leaves output_dir (info_media info) (with_call Download w))
    with (@Ok unit tt, w2).
  cbv beta iota. unfold bind at 1.
  destruct (info_audio info) as [data|].
  - unfold write_file at 1.
    destruct (bool_decide (audio_file ∈ unwritable w2)); [reflexivity|].
    unfold bind, path_exists. by rewrite file_exists_written.
  - unfold ret at 1. unfold bind, path_exists.
    by destruct (file_exists w2 audio_file).
Qed.

Lemma download_video_calls (url output_dir : string) (w w1 : World) (r : res (string * string)) :
  download_video env url output_dir w = (r, w1) ->
  calls w1 = calls w ++ [Download].
Proof.
  rewrite download_video_eq.
  destruct (yt_dlp_extract_info env output_dir url) as [info|];
    [|by intros [= _ <-]].
  cbv zeta. destruct (info_audio info) as [data|].
  - destruct (bool_decide _); by intros [= _ <-].
  - destruct (file_exists _ _); by intros [= _ <-].
Qed.

Lemma download_video_ok (url output_dir audio_file title : string) (w w1 : World) :
  download_video env url output_dir w = (Ok (audio_file, title), w1) ->
  file_exists w1 audio_file = true
  /\ ends_with ".mp3" audio_file
  /\ exists info,
       yt_dlp_extract_info env output_dir url = Some info
       /\ title = default "video" (info_title info).
Proof.
  rewrite download_video_eq.
  destruct (yt_dlp_extract_info env output_dir url) as [info|]; [|done].
  cbv zeta. destruct (info_audio info) as [data|].
  - destruct (bool_decide _); [done|].
    intros [= <- <- <-].
    split; [apply file_exists_written|].
    split; [apply ends_with_literal|by exists info].
  - destruct (file_exists _ _) eqn:E; [|done].
    intros [= <- <- <-].
    split; [exact E|].
    split; [apply ends_with_literal|by exists info].
Qed.

(** What [step_download] returns when it returns: the checkpoint that was
    loaded is a dict. *)
Lemma step_download_ok (url audio_file title : string) (checkpoint : Checkpoint) (w w1 : World) :
  step_download env url w = (Ok (audio_file, title, checkpoint), w1) ->
  exists wd loaded,
    download_video env url downloads_dir w = (Ok (audio_file, title), wd)
    /\ load_checkpoint env (video_folder_of title) wd = (Ok (JDict loaded), wd)
    /\ checkpoint
       = <["title" := VStr title]>
           (<["url" := VStr url]> (<["downloaded" := VBool true]> loaded))
    /\ w1 = after_save env (video_folder_of title) checkpoint wd.
Proof.
  unfold step_download. unfold bind at 1.
  destruct (download_video env url downloads_dir w) as [[[a t]|e] wd] eqn:Ed;
    [|done].
  cbn [fst snd]. unfold bind at 1.
  destruct (load_checkpoint env (video_folder_of t) wd) as [r wl] eqn:El.
  pose proof El as El'. rewrite load_checkpoint_eq in El'.
  injection El' as <- <-.
  unfold bind at 1. unfold lift at 1.
  destruct (match files wd !! checkpoint_path (video_folder_of t) with
            | Some data => default (JDict ∅) (json_load_checkpoint env data)
            | None => JDict ∅
            end) as [loaded|v|]; cbn [setitem]; [|done..].
  unfold bind. rewrite save_checkpoint_after. unfold ret.
  intros [= <- <- <- <-].
  by exists wd, loaded.
Qed.

Lemma step_download_calls (url : string) (w w1 : World) (r : res (string * string * Checkpoint)) :
  step_download env url w = (r, w1) ->
  calls w1 = calls w ++ [Download].
Proof.
  unfold step_download. unfold bind at 1.
  destruct (download_video env url downloads_dir w) as [[[a t]|e] wd] eqn:Ed;
    apply download_video_calls in Ed; [|by intros [= _ <-]].
  cbn [fst snd]. unfold bind at 1. rewrite load_checkpoint_eq.
  unfold bind at 1. unfold lift at 1.
  destruct (setitem _ "downloaded" (VBool true)) as [checkpoint|e];
    [|by intros [= _ <-]].
  unfold bind. rewrite save_checkpoint_after. unfold ret.
  intros [= _ <-]. by rewrite after_save_calls.
Qed.

Lemma step_silence_calls (audio_file title : string) (checkpoint : Checkpoint) (w w' : World) (r : res Checkpoint) :
  step_silence env audio_file title checkpoint w = (r, w') ->
  calls w'
  = calls w ++ when (negb (silence_ready title checkpoint w)) SilenceRemoval.
Proof.
  rewrite step_silence_eq.
  destruct (silence_ready title checkpoint w).
  - intros [= _ <-]. cbn. by rewrite app_nil_r.
  - destruct (remove_silence _ _ _ _ _ _ _) as [[p|e] w1] eqn:Er;
      apply remove_silence_adds_call in Er; intros [= _ <-];
      by rewrite ?after_save_calls.
Qed.

Lemma step_transcribe_calls (title : string) (checkpoint : Checkpoint) (w w' : World) (r : res (option (list Segment))) :
  step_transcribe env title checkpoint w = (r, w') ->
  (exists segments, r = Ok segments)
  /\ calls w'
     = calls w
       ++ when (bool_decide (saved_transcription env title checkpoint w = None))
            Transcription.
Proof.
  rewrite step_transcribe_eq.
  destruct (saved_transcription env title checkpoint w) as [l|].
  - intros [= <- <-]. split; [by eexists|]. cbn. by rewrite app_nil_r.
  - rewrite transcribe_audio_eq. intros [= <- <-]. split; [by eexists|done].
Qed.

Lemma save_transcription_calls (title : string) (segments : option (list Segment)) (checkpoint : Checkpoint) (w w' : World) (r : res Checkpoint) :
  save_transcription env title segments checkpoint w = (r, w') ->
  exists c : bool, calls w' = calls w ++ when c SummaryGeneration.
Proof.
  rewrite save_transcription_eq.
  destruct (nonempty_segments segments) as [l|];
    [|intros [= _ <-]; exists false; cbn; by rewrite app_nil_r].
  destruct (bool_decide (transcription_file_of title ∈ unwritable w));
    [intros [= _ <-]; exists false; cbn; by rewrite app_nil_r|].
  rewrite step_summary_eq.
  destruct (summary_ready _ _ _).
  - intros [= _ <-]. exists false. rewrite after_save_calls. cbn.
    by rewrite app_nil_r.
  - destruct (generate_summary l title) as [summary|e];
      [destruct (bool_decide (summary_file_of title ∈ unwritable _))|];
      intros [= _ <-]; exists true;
      repeat (rewrite after_save_calls || cbn [calls with_file with_call]);
      reflexivity.
Qed.

Lemma steps_after_audio_calls (title : string) (checkpoint : Checkpoint) (w w' : World) (r : res Checkpoint) :
  steps_after_audio env title checkpoint w = (r, w') ->
  exists c : bool,
    calls w'
    = calls w
      ++ when (bool_decide (saved_transcription env title checkpoint w = None))
           Transcription
      ++ when c SummaryGeneration.
Proof.
  unfold steps_after_audio. unfold bind at 1.
  destruct (step_transcribe env title checkpoint w) as [r3 w3] eqn:E3.
  apply step_transcribe_calls in E3 as [[segments ->] H3].
  unfold bind at 1.
  destruct (save_transcription env title segments checkpoint w3)
    as [[checkpoint4|e] w4] eqn:E4;
    apply save_transcription_calls in E4 as [c H4].
  - unfold bind. rewrite save_checkpoint_after. intros [= _ <-].
    exists c. by rewrite after_save_calls, H4, H3, app_assoc.
  - intros [= _ <-]. exists c. by rewrite H4, H3, app_assoc.
Qed.

(** [main] calls the stage functions in the order of the pipeline and each
    at most once: [download_video] always, and then some of
    [remove_silence], [transcribe_audio] and [generate_summary], whatever the
    checkpoint and the files are and whether the run returns or exits. *)
Theorem main_calls_in_order (program url : string) (more : list string) (w : World) :
  exists a b c : bool,
    calls (snd (main env (program :: url :: more) w))
    = calls w ++ [Download] ++ when a SilenceRemoval
      ++ when b Transcription ++ when c SummaryGeneration.
Proof.
  assert (exists a b c : bool,
    calls (snd (main_body env url w))
    = calls w ++ [Download] ++ when a SilenceRemoval
      ++ when b Transcription ++ when c SummaryGeneration) as Hbody.
  { unfold main_body. unfold bind at 1.
    destruct (step_download env url w) as [[[[a t] checkpoint]|e] w1] eqn:E1;
      apply step_download_calls in E1;
      [|exists false, false, false; cbn; by rewrite E1].
    cbn [fst snd]. unfold bind.
    destruct (step_silence env a t checkpoint w1) as [[checkpoint2|e] w2] eqn:E2;
      apply step_silence_calls in E2.
    - destruct (steps_after_audio env t checkpoint2 w2) as [r w'] eqn:E3.
      apply steps_after_audio_calls in E3 as [c E3].
      eexists _, _, c. cbn [snd]. rewrite E3, E2, E1.
      by rewrite <- !app_assoc.
    - eexists _, false, false. cbn [snd]. rewrite E2, E1. cbn [when].
      by rewrite !app_nil_r, <- app_assoc. }
  destruct Hbody as (a & b & c & H). exists a, b, c.
  unfold main. by destruct (main_body env url w) as [[final|e] w'].
Qed.

End MainCalls.

Section MainReturns.

Variable env : Env.

Lemma after_save_files (video_folder : string) (state : Checkpoint) (w : World) (q : string) :
  q <> checkpoint_path video_folder ->
  files (after_save env video_folder state w) !! q = files w !! q.
Proof.
  intros Hq. by apply (evolves_files _ _ _ _ (after_save_evolves env _ _ _)).
Qed.

Lemma after_save_exists (video_folder : string) (state : Checkpoint) (w : World) (q : string) :
  file_exists w q = true ->
  file_exists (after_save env video_folder state w) q = true.
Proof. apply (evolves_exists _ _ _ _ (after_save_evolves env _ _ _)). Qed.

Lemma after_save_call_count (video_folder : string) (state : Checkpoint) (w : World) (s : Stage) :
  call_count s (after_save env video_folder state w) = call_count s w.
Proof. unfold call_count. by rewrite after_save_calls. Qed.

(** What step 2 returns when it returns. *)
Lemma step_silence_ok (audio_file title : string) (checkpoint checkpoint2 : Checkpoint) (w w2 : World) :
  step_silence env audio_file title checkpoint w = (Ok checkpoint2, w2) ->
  file_exists w2 (processed_audio_of title) = true
  /\ truthy (dict_get checkpoint2 "silence_removed" (VBool false)) = true
  /\ (forall key, key <> "silence_removed" ->
        checkpoint2 !! key = checkpoint !! key).
Proof.
  intros H.
  destruct (silence_ready title checkpoint w) eqn:Hready.
  - rewrite step_silence_eq, Hready in H. injection H as <- <-.
    apply andb_true_iff in Hready as [He Hf]. by repeat split.
  - destruct (step_silence_runs env _ _ _ _ _ _ Hready H) as [_ Hok].
    destruct (Hok checkpoint2 eq_refl) as (-> & He & _).
    split; [exact He|]. split.
    + unfold dict_get. by rewrite lookup_insert_eq.
    + intros key Hkey. by rewrite lookup_insert_ne.
Qed.

(** What the [if segments:] part returns when it returns; when it has
    called [generate_summary], the two files hold the segments and the
    summary. *)
Lemma save_transcription_ok (title : string) (segments : option (list Segment)) (checkpoint checkpoint4 : Checkpoint) (w w4 : World) :
  save_transcription env title segments checkpoint w = (Ok checkpoint4, w4) ->
  (forall key, key <> "transcribed" -> key <> "summary_generated" ->
     checkpoint4 !! key = checkpoint !! key)
  /\ (call_count SummaryGeneration w4 <> call_count SummaryGeneration w ->
      exists l summary,
        nonempty_segments segments = Some l
        /\ generate_summary l title = Ok summary
        /\ files w4 !! transcription_file_of title
           = Some (json_dump_segments env l)
        /\ files w4 !! summary_file_of title = Some summary
        /\ checkpoint4 !! "transcribed" = Some (VBool true)
        /\ checkpoint4 !! "summary_generated" = Some (VBool true)).
Proof.
  rewrite save_transcription_eq.
  destruct (nonempty_segments segments) as [l|]; [|by intros [= <- <-]].
  destruct (bool_decide (transcription_file_of title ∈ unwritable w)); [done|].
  rewrite step_summary_eq.
  destruct (summary_ready _ _ _).
  { intros [= <- <-]. split.
    - intros key H1 _. by rewrite lookup_insert_ne.
    - rewrite after_save_call_count. by intros []. }
  destruct (generate_summary l title) as [summary|e] eqn:Hg; [|done].
  destruct (bool_decide (summary_file_of title ∈ unwritable _)); [done|].
  intros [= <- <-]. split.
  - intros key H1 H2. by rewrite !lookup_insert_ne.
  - intros _. exists l, summary. split; [done|]. split; [exact Hg|].
    split; [|split; [|split]].
    + rewrite after_save_files by apply transcription_not_checkpoint.
      cbn [files with_file with_call].
      rewrite lookup_insert_ne by apply summary_not_transcription.
      rewrite after_save_files by apply transcription_not_checkpoint.
      cbn [files with_file]. by rewrite lookup_insert_eq.
    + rewrite after_save_files by apply summary_not_checkpoint.
      cbn [files with_file]. by rewrite lookup_insert_eq.
    + by rewrite lookup_insert_ne, lookup_insert_eq.
    + by rewrite lookup_insert_eq.
Qed.

(** What steps 3 and 4 and the completion mark return when they return. *)
Lemma steps_after_audio_ok (title : string) (checkpoint final : Checkpoint) (w w' : World) :
  steps_after_audio env title checkpoint w = (Ok final, w') ->
  final !! "completed" = Some (VBool true)
  /\ (forall key, key <> "transcribed" -> key <> "summary_generated" ->
        key <> "completed" -> final !! key = checkpoint !! key)
  /\ checkpoint_saved env title final w'
  /\ (call_count SummaryGeneration w' <> call_count SummaryGeneration w ->
      exists l summary,
        l <> []
        /\ generate_summary l title = Ok summary
        /\ files w' !! transcription_file_of title
           = Some (json_dump_segments env l)
        /\ files w' !! summary_file_of title = Some summary
        /\ final !! "transcribed" = Some (VBool true)
        /\ final !! "summary_generated" = Some (VBool true)).
Proof.
  unfold steps_after_audio. unfold bind at 1.
  destruct (step_transcribe env title checkpoint w) as [[segments|e] w3] eqn:E3;
    [|done].
  pose proof (frames_evolves _ _ _ _ _ _
                (frames_step_transcribe env anywhere [Transcription] title
                   checkpoint (list_elem_of_here _ _)) E3) as Hev3.
  unfold bind at 1.
  destruct (save_transcription env title segments checkpoint w3)
    as [[checkpoint4|e] w4] eqn:E4; [|done].
  apply save_transcription_ok in E4 as [Hkeys Hsum].
  unfold bind. rewrite save_checkpoint_after. intros [= <- <-].
  split; [by rewrite lookup_insert_eq|].
  split; [|split].
  - intros key H1 H2 H3. rewrite lookup_insert_ne by done. by apply Hkeys.
  - apply after_save_saved.
  - rewrite after_save_call_count.
    rewrite <- (evolves_call_count _ _ _ _ SummaryGeneration Hev3)
      by (by apply not_elem_of_stages).
    intros Hcount. destruct (Hsum Hcount) as (l & summary & Hl & Hg & Ht & Hs & Hft & Hfs).
    exists l, summary. split.
    { destruct segments as [[|segment rest]|]; [done| |done].
      injection Hl as <-. done. }
    split; [exact Hg|].
    rewrite !after_save_files
      by (apply transcription_not_checkpoint || apply summary_not_checkpoint).
    by rewrite !lookup_insert_ne.
Qed.

(** What the body of [main] returns when it returns. *)
Lemma main_body_ok (url audio_file title : string) (checkpoint final : Checkpoint) (w w1 w' : World) :
  step_download env url w = (Ok (audio_file, title, checkpoint), w1) ->
  main_body env url w = (Ok final, w') ->
  final !! "completed" = Some (VBool true)
  /\ truthy (dict_get final "silence_removed" (VBool false)) = true
  /\ (forall key,
        key ∉ ["silence_removed"; "transcribed"; "summary_generated";
               "completed"] ->
        final !! key = checkpoint !! key)
  /\ file_exists w' (processed_audio_of title) = true
  /\ checkpoint_saved env title final w'
  /\ (call_count SummaryGeneration w' <> call_count SummaryGeneration w ->
      exists l summary,
        l <> []
        /\ generate_summary l title = Ok summary
        /\ files w' !! transcription_file_of title
           = Some (json_dump_segments env l)
        /\ files w' !! summary_file_of title = Some summary
        /\ final !! "transcribed" = Some (VBool true)
        /\ final !! "summary_generated" = Some (VBool true)).
Proof.
  intros Hdl Hmain.
  rewrite (main_body_after_download _ _ _ _ _ _ _ Hdl) in Hmain.
  unfold bind in Hmain.
  destruct (step_silence env audio_file title checkpoint w1)
    as [[checkpoint2|e] w2] eqn:E2; [|done].
  pose proof (frames_evolves _ _ _ _ _ _
                (frames_step_silence env audio_file title checkpoint
                   [SilenceRemoval] (list_elem_of_here _ _)) E2) as Hev2.
  apply step_silence_ok in E2 as (He2 & Hf2 & Hk2).
  pose proof (frames_evolves _ _ _ _ _ _
                (frames_steps_after_audio env
                   [Transcription; SummaryGeneration] title checkpoint2
                   (list_elem_of_here _ _)
                   (list_elem_of_further _ _ _ (list_elem_of_here _ _)))
                Hmain) as Hev3.
  apply steps_after_audio_ok in Hmain as (Hc & Hk & Hsaved & Hsum).
  split; [exact Hc|]. split; [|split; [|split; [|split]]].
  - unfold dict_get in *. by rewrite Hk.
  - intros key Hkey. rewrite !not_elem_of_cons in Hkey.
    destruct Hkey as (H1 & H2 & H3 & H4 & _).
    rewrite Hk by done. by apply Hk2.
  - by apply (evolves_exists _ _ _ _ Hev3).
  - exact Hsaved.
  - intros Hcount. apply Hsum.
    rewrite (evolves_call_count _ _ _ _ SummaryGeneration Hev2)
      by (by apply not_elem_of_stages).
    by rewrite (step_download_call_count env _ _ _ _ SummaryGeneration Hdl).
Qed.

End MainReturns.


Section MainRuns.

Variable env : Env.

Lemma main_returned (program url : string) (more : list string) (w w' : World) :
  main env (program :: url :: more) w = (Returned, w') ->
  exists final, main_body env url w = (Ok final, w').
Proof.
  unfold main. destruct (main_body env url w) as [[final|e] w1]; [|done].
  intros [= <-]. by exists final.
Qed.

Lemma main_world (program url : string) (more : list string) (w : World) :
  snd (main env (program :: url :: more) w) = snd (main_body env url w).
Proof. unfold main. by destruct (main_body env url w) as [[final|e] w1]. Qed.

Lemma main_body_downloaded (url : string) (final : Checkpoint) (w w' : World) :
  main_body env url w = (Ok final, w') ->
  exists audio_file title checkpoint w1,
    step_download env url w = (Ok (audio_file, title, checkpoint), w1).
Proof.
  unfold main_body. unfold bind at 1.
  destruct (step_download env url w) as [[[[a t] checkpoint]|e] w1]; [|done].
  intros _. by exists a, t, checkpoint, w1.
Qed.

(** The title and the first three keys after a download. *)
Lemma step_download_title (url audio_file title : string) (checkpoint : Checkpoint) (w w1 : World) :
  step_download env url w = (Ok (audio_file, title, checkpoint), w1) ->
  (exists info,
     yt_dlp_extract_info env downloads_dir url = Some info
     /\ title = default "video" (info_title info))
  /\ checkpoint !! "downloaded" = Some (VBool true)
  /\ checkpoint !! "url" = Some (VStr url)
  /\ checkpoint !! "title" = Some (VStr title).
Proof.
  intros Hdl.
  apply step_download_ok in Hdl as (wd & loaded & Hdv & _ & -> & _).
  apply download_video_ok in Hdv as (_ & _ & Hinfo).
  split; [exact Hinfo|].
  split; [|split].
  - rewrite !lookup_insert_ne by done. apply lookup_insert_eq.
  - rewrite lookup_insert_ne by done. apply lookup_insert_eq.
  - apply lookup_insert_eq.
Qed.

(** When [main] returns, the run is complete: the checkpoint that it has
    saved last marks the download, the URL, the title of yt_dlp, the
    silence removal and the completion, and the processed audio is on
    disk. *)
Theorem returned_run_is_complete (program url : string) (more : list string) (w w' : World) :
  main env (program :: url :: more) w = (Returned, w') ->
  exists info final,
    yt_dlp_extract_info env downloads_dir url = Some info
    /\ let title := default "video" (info_title info) in
       checkpoint_saved env title final w'
       /\ final !! "downloaded" = Some (VBool true)
       /\ final !! "url" = Some (VStr url)
       /\ final !! "title" = Some (VStr title)
       /\ truthy (dict_get final "silence_removed" (VBool false)) = true
       /\ final !! "completed" = Some (VBool true)
       /\ file_exists w' (processed_audio_of title) = true.
Proof.
  intros [final Hmain]%main_returned.
  destruct (main_body_downloaded _ _ _ _ Hmain) as (a & t & checkpoint & w1 & Hdl).
  destruct (step_download_title _ _ _ _ _ _ Hdl)
    as ((info & Hinfo & ->) & Hd & Hu & Ht).
  destruct (main_body_ok env _ _ _ _ _ _ _ _ Hdl Hmain)
    as (Hc & Hs & Hkeys & He & Hsaved & _).
  exists info, final. split; [exact Hinfo|]. cbn zeta.
  split; [exact Hsaved|].
  rewrite !Hkeys
    by (rewrite !not_elem_of_cons; repeat split;
        [done..|apply not_elem_of_nil]).
  done.
Qed.

(** When [main] returns after a call of [generate_summary], the
    transcription file holds the segments, which are not empty, the summary
    file holds their summary, and the saved checkpoint marks both stages. *)
Theorem summary_call_leaves_artifacts (program url : string) (more : list string) (w w' : World) :
  main env (program :: url :: more) w = (Returned, w') ->
  call_count SummaryGeneration w' <> call_count SummaryGeneration w ->
  exists info final segments summary,
    yt_dlp_extract_info env downloads_dir url = Some info
    /\ let title := default "video" (info_title info) in
       segments <> []
       /\ files w' !! transcription_file_of title
          = Some (json_dump_segments env segments)
       /\ generate_summary segments title = Ok summary
       /\ files w' !! summary_file_of title = Some summary
       /\ checkpoint_saved env title final w'
       /\ final !! "transcribed" = Some (VBool true)
       /\ final !! "summary_generated" = Some (VBool true).
Proof.
  intros [final Hmain]%main_returned Hcount.
  destruct (main_body_downloaded _ _ _ _ Hmain) as (a & t & checkpoint & w1 & Hdl).
  destruct (step_download_title _ _ _ _ _ _ Hdl) as ((info & Hinfo & ->) & _).
  destruct (main_body_ok env _ _ _ _ _ _ _ _ Hdl Hmain)
    as (_ & _ & _ & _ & Hsaved & Hsum).
  destruct (Hsum Hcount) as (l & summary & Hl & Hg & Ht & Hs & Hft & Hfs).
  exists info, final, l, summary. by repeat split.
Qed.

Lemma summary_ready_spared (paths : string -> Prop) (stages : list Stage) (title : string) (checkpoint checkpoint' : Checkpoint) (w w' : World) :
  summary_ready title checkpoint w = true ->
  spares downloads_dir paths stages w w' ->
  dict_get checkpoint' "summary_generated" (VBool false)
  = dict_get checkpoint "summary_generated" (VBool false) ->
  summary_ready title checkpoint' w' = true.
Proof.
  unfold summary_ready. intros [He Ht]%andb_true_iff Hev Hflag.
  apply andb_true_iff. split.
  - apply (spares_exists _ _ _ _ _ Hev); [|exact He].
    apply in_videos_not_under, summary_file_in_videos.
  - by rewrite Hflag.
Qed.

Lemma saved_transcription_spared (paths : string -> Prop) (stages : list Stage) (title : string) (checkpoint checkpoint' : Checkpoint) (w w' : World) :
  spares downloads_dir paths stages w w' ->
  ~ paths (transcription_file_of title) ->
  dict_get checkpoint' "transcribed" (VBool false)
  = dict_get checkpoint "transcribed" (VBool false) ->
  saved_transcription env title checkpoint' w'
  = saved_transcription env title checkpoint w.
Proof.
  intros Hev Hpath Hflag.
  unfold saved_transcription, transcription_ready, file_exists.
  rewrite (spares_files _ _ _ _ _ Hev _
             (in_videos_not_under _ (transcription_file_in_videos title))
             Hpath).
  by rewrite Hflag.
Qed.

(** The second run: after a run that has returned, with a checkpoint file
    that can be written and read back, another run on the same URL does not
    call [remove_silence] again; it does not call [transcribe_audio] again
    if the saved transcription can be used, nor [generate_summary] if the
    summary is on disk and marked. *)
Theorem second_run_resumes (program url : string) (more : list string) (info : YtInfo) (final : Checkpoint) (w w' : World) :
  let title := default "video" (info_title info) in
  let w'' := snd (main env (program :: url :: more) w') in
  yt_dlp_extract_info env downloads_dir url = Some info ->
  main_body env url w = (Ok final, w') ->
  checkpoint_path (video_folder_of title) ∉ unwritable w' ->
  json_load_checkpoint env (json_dump_checkpoint env final)
  = Some (JDict final) ->
  call_count SilenceRemoval w'' = call_count SilenceRemoval w'
  /\ (saved_transcription env title final w' <> None ->
      call_count Transcription w'' = call_count Transcription w')
  /\ (summary_ready title final w' = true ->
      call_count SummaryGeneration w'' = call_count SummaryGeneration w').
Proof.
  intros title w'' Hinfo Hmain Hw Hrt. subst w''. rewrite main_world.
  destruct (main_body_downloaded _ _ _ _ Hmain) as (a & t & checkpoint & w1 & Hdl).
  destruct (step_download_title _ _ _ _ _ _ Hdl) as ((info' & Hinfo' & Ht) & _).
  assert (t = title) as ->.
  { rewrite Hinfo in Hinfo'. injection Hinfo' as <-. exact Ht. }
  destruct (main_body_ok env _ _ _ _ _ _ _ _ Hdl Hmain)
    as (_ & Hs & _ & He & Hsaved & _).
  clear Hdl Hmain.
  destruct (main_body env url w') as [r2 w''] eqn:Hmain2. cbn [snd].
  destruct (step_download env url w') as [[[[a2 t2] checkpoint2]|e2] w1'] eqn:Hdl2.
  2:{ unfold main_body in Hmain2. unfold bind in Hmain2.
      rewrite Hdl2 in Hmain2. injection Hmain2 as <- <-.
      by rewrite !(step_download_call_count env _ _ _ _ _ Hdl2). }
  destruct (step_download_title _ _ _ _ _ _ Hdl2) as ((info2 & Hinfo2 & Ht2) & _).
  assert (t2 = title) as ->.
  { rewrite Hinfo in Hinfo2. injection Hinfo2 as <-. exact Ht2. }
  pose proof (step_download_spares env _ _ _ _ Hdl2) as Hev.
  destruct (step_download_ok _ _ _ _ _ _ _ Hdl2)
    as (wd & loaded & Hdv & Hload & Hck2 & _).
  assert (loaded = final) as ->.
  { rewrite load_checkpoint_eq in Hload.
    pose proof (spares_download_video env url downloads_dir w') as Hevd.
    rewrite Hdv in Hevd. cbn [snd] in Hevd.
    rewrite (spares_files _ _ _ _ _ Hevd) in Hload.
    - rewrite (Hsaved Hw) in Hload. rewrite Hrt in Hload.
      by injection Hload as <-.
    - apply in_videos_not_under, checkpoint_in_videos.
    - intros Hmp3.
      refine (ends_with_distinct ".mp3" "json" _ _ Hmp3 _ _ _ eq_refl);
        [|done..].
      apply ends_with_join. by exists ".checkpoint.". }
  assert (forall key, key <> "downloaded" -> key <> "url" -> key <> "title" ->
            dict_get checkpoint2 key (VBool false)
            = dict_get final key (VBool false)) as Hflags.
  { intros key H1 H2 H3. rewrite Hck2.
    by rewrite !dict_get_insert_ne. }
  split; [|split].
  - apply (resume_silence env _ _ _ _ _ _ _ _ Hdl2 Hmain2).
    apply andb_true_iff. split.
    + apply (spares_exists _ _ _ _ _ Hev); [|exact He].
      apply in_videos_not_under, processed_audio_in_videos.
    + by rewrite Hflags.
  - intros Hsome.
    destruct (saved_transcription env title final w') as [segments|] eqn:Hst;
      [|done].
    apply (resume_transcription env _ _ _ _ _ _ _ _ segments Hdl2 Hmain2).
    rewrite <- Hst.
    apply (saved_transcription_spared _ _ _ _ _ _ _ Hev).
    + apply transcription_not_audio_or_checkpoint.
    + by apply Hflags.
  - intros Hready.
    apply (resume_summary env _ _ _ _ _ _ _ _ Hdl2 Hmain2).
    apply (summary_ready_spared _ _ _ _ _ _ _ Hready Hev).
    by apply Hflags.
Qed.

End MainRuns.

Lemma returned_run_is_complete_witness :
  exists info final,
    yt_dlp_extract_info (demo_env true true) downloads_dir demo_url = Some info
    /\ let title := default "video" (info_title info) in
       checkpoint_saved (demo_env true true) title final first_run_world
       /\ final !! "downloaded" = Some (VBool true)
       /\ final !! "url" = Some (VStr demo_url)
       /\ final !! "title" = Some (VStr title)
       /\ truthy (dict_get final "silence_removed" (VBool false)) = true
       /\ final !! "completed" = Some (VBool true)
       /\ file_exists first_run_world (processed_audio_of title) = true.
Proof.
  refine (returned_run_is_complete (demo_env true true) "process_video.py"
            demo_url [] empty_world first_run_world _).
  vm_compute. reflexivity.
Defined.

Lemma summary_call_leaves_artifacts_witness :
  exists info final segments summary,
    yt_dlp_extract_info (demo_env true true) downloads_dir demo_url = Some info
    /\ let title := default "video" (info_title info) in
       segments <> []
       /\ files first_run_world !! transcription_file_of title
          = Some (json_dump_segments (demo_env true true) segments)
       /\ generate_summary segments title = Ok summary
       /\ files first_run_world !! summary_file_of title = Some summary
       /\ checkpoint_saved (demo_env true true) title final first_run_world
       /\ final !! "transcribed" = Some (VBool true)
       /\ final !! "summary_generated" = Some (VBool true).
Proof.
  refine (summary_call_leaves_artifacts (demo_env true true) "process_video.py"
            demo_url [] empty_world first_run_world _ _).
  - vm_compute. reflexivity.
  - vm_compute. lia.
Defined.

Lemma second_run_resumes_witness :
  let w'' := snd (main (demo_env true true) demo_argv first_run_world) in
  call_count SilenceRemoval w'' = call_count SilenceRemoval first_run_world
  /\ (saved_transcription (demo_env true true) "T" finished_checkpoint
        first_run_world <> None ->
      call_count Transcription w'' = call_count Transcription first_run_world)
  /\ (summary_ready "T" finished_checkpoint first_run_world = true ->
      call_count SummaryGeneration w''
      = call_count SummaryGeneration first_run_world).
Proof.
  refine (second_run_resumes (demo_env true true) "process_video.py" demo_url
            [] demo_info finished_checkpoint empty_world first_run_world
            _ _ _ _).
  - vm_compute. reflexivity.
  - vm_compute. reflexivity.
  - vm_compute. intros H. discriminate H.
  - vm_compute. reflexivity.
Defined.

(* ===================================================================== *)
(** * convert_existing_audio.py *)
(* ===================================================================== *)

Lemma prefix_append (p s : string) :
  String.prefix p s = true -> exists t, s = p +:+ t.
Proof.
  revert s. induction p as [|a p IH]; intros s.
  - intros _. by exists s.
  - destruct s as [|b s]; cbn [String.prefix]; [done|].
    destruct (ascii_dec a b) as [->|]; [|done].
    intros [t ->]%IH. exists t. by rewrite append_cons.
Qed.

Lemma chars_rev_app (s t : string) :
  PyStr.chars (String.rev_app s t) = List.rev (PyStr.chars s) ++ PyStr.chars t.
Proof.
  revert t. induction s as [|a s IH]; intros t; [done|].
  cbn [String.rev_app]. rewrite IH.
  change (PyStr.chars (String a s)) with (a :: PyStr.chars s).
  change (PyStr.chars (String a t)) with (a :: PyStr.chars t).
  cbn [List.rev]. by rewrite <- app_assoc.
Qed.

(** The boolean test of a suffix implies the suffix. *)
Lemma endswith_ends_with (suffix s : string) :
  os_path.endswith suffix s = true -> ends_with suffix s.
Proof.
  unfold os_path.endswith, String.rev. intros [t Ht]%prefix_append.
  apply (f_equal PyStr.chars) in Ht.
  rewrite chars_append, !chars_rev_app, !app_nil_r in Ht.
  apply (f_equal (@List.rev ascii)) in Ht.
  rewrite rev_app_distr, !rev_involutive in Ht.
  exists (string_of_list_ascii (List.rev (PyStr.chars t))).
  apply chars_inj. rewrite chars_append, Ht. f_equal.
  unfold PyStr.chars. by rewrite list_ascii_of_string_of_list_ascii.
Qed.

Lemma wav_not_mp3 (s s' : string) :
  ends_with ".wav" s -> ends_with ".mp3" s' -> s <> s'.
Proof. intros H H'. by apply (ends_with_distinct ".wav" ".mp3"). Qed.

Lemma with_suffix_ends (path new_suffix : string) :
  ends_with new_suffix (convert_existing_audio.with_suffix path new_suffix).
Proof.
  unfold convert_existing_audio.with_suffix.
  destruct (_ =? _)%nat; apply ends_with_literal.
Qed.

Section ConverterProperties.

Import convert_existing_audio.

Variable env : Env.
Variable ffmpeg_libmp3lame : string -> Run.

Lemma convert_wav_to_mp3_eq (wav_file mp3_file : string) (w : World) :
  convert_wav_to_mp3 env ffmpeg_libmp3lame wav_file mp3_file w
  = if ffmpeg_installed env then
      match ffmpeg_process ffmpeg_libmp3lame wav_file mp3_file w with
      | (Ok _, w') => (Ok true, w')
      | (Raise e, w') =>
          if caught_by_fallback e then (Ok false, w') else (Raise e, w')
      end
    else (Ok false, w).
Proof.
  unfold convert_wav_to_mp3, ffmpeg_transcode, try_except. unfold bind at 1.
  destruct (ffmpeg_installed env); cbn [negb]; [|done].
  destruct (ffmpeg_process ffmpeg_libmp3lame wav_file mp3_file w)
    as [[[]|e] w']; [done|].
  by destruct e.
Qed.

(** [convert_wav_to_mp3] returns [True] only when ffmpeg is installed, the
    input is there, the run of ffmpeg succeeds and the output can be
    written, and then the output holds the transcoding of the input. It
    returns [False] when ffmpeg is missing or its run raises
    [CalledProcessError] or [FileNotFoundError]; nothing has changed then,
    but for what the failed run has left at the output path. Any other
    exception of the run, it raises. *)
Theorem convert_wav_to_mp3_result (wav_file mp3_file : string) (w : World) :
  match convert_wav_to_mp3 env ffmpeg_libmp3lame wav_file mp3_file w with
  | (Ok true, w') =>
      ffmpeg_installed env = true
      /\ (mp3_file ∉ unwritable w)
      /\ exists data out,
           files w !! wav_file = Some data
           /\ ffmpeg_libmp3lame data = Exit0 out
           /\ w' = with_file mp3_file out w
  | (Ok false, w') =>
      w' = w
      \/ exists data e partial,
           files w !! wav_file = Some data
           /\ ffmpeg_libmp3lame data = Fails e (Some partial)
           /\ caught_by_fallback e = true
           /\ w' = with_file mp3_file partial w
  | (Raise e, w') =>
      ffmpeg_installed env = true
      /\ caught_by_fallback e = false
      /\ exists data remains,
           files w !! wav_file = Some data
           /\ ffmpeg_libmp3lame data = Fails e remains
           /\ (w' = w
               \/ exists partial,
                    remains = Some partial
                    /\ w' = with_file mp3_file partial w)
  end.
Proof.
  rewrite convert_wav_to_mp3_eq, ffmpeg_process_eq.
  destruct (ffmpeg_installed env); [|by left].
  destruct (files w !! wav_file) as [data|]; [|by left].
  destruct (bool_decide (wav_file = mp3_file)); [by left|].
  destruct (ffmpeg_libmp3lame data) as [out|e remains] eqn:Hrun.
  - destruct (bool_decide (mp3_file ∈ unwritable w)) eqn:Hw; [by left|].
    apply bool_decide_eq_false in Hw.
    split; [done|]. split; [exact Hw|]. by exists data, out.
  - destruct (caught_by_fallback e) eqn:Hcaught.
    + destruct remains as [partial|]; [|by left].
      destruct (bool_decide (mp3_file ∈ unwritable w)); [by left|].
      right. by exists data, e, partial.
    + split; [done|]. split; [done|]. exists data, remains.
      split; [done|]. split; [done|].
      destruct remains as [partial|]; [|by left].
      destruct (bool_decide (mp3_file ∈ unwritable w)); [by left|].
      right. by exists partial.
Qed.

(** The world after [convert_wav_to_mp3]: as it was, or with a file written
    at the output path, which is the case when it returns [True]. *)
Lemma convert_wav_to_mp3_world (wav_file mp3_file : string) (w : World) :
  let result := convert_wav_to_mp3 env ffmpeg_libmp3lame wav_file mp3_file w in
  (snd result = w \/ exists out, snd result = with_file mp3_file out w)
  /\ (fst result = Ok true ->
      exists out, snd result = with_file mp3_file out w).
Proof.
  cbv zeta. rewrite convert_wav_to_mp3_eq, ffmpeg_process_eq.
  destruct (ffmpeg_installed env); [|by split; [left|]].
  destruct (files w !! wav_file) as [data|]; [|by split; [left|]].
  destruct (bool_decide (wav_file = mp3_file)); [by split; [left|]|].
  destruct (ffmpeg_libmp3lame data) as [out|e remains].
  - destruct (bool_decide (mp3_file ∈ unwritable w)); [by split; [left|]|].
    split; [right|intros _]; by exists out.
  - assert (match remains with
            | Some partial =>
                if bool_decide (mp3_file ∈ unwritable w) then w
                else with_file mp3_file partial w
            | None => w
            end = w
            \/ exists out,
                 match remains with
                 | Some partial =>
                     if bool_decide (mp3_file ∈ unwritable w) then w
                     else with_file mp3_file partial w
                 | None => w
                 end = with_file mp3_file out w) as Hw.
    { destruct remains as [partial|]; [|by left].
      destruct (bool_decide (mp3_file ∈ unwritable w)); [by left|].
      right. by exists partial. }
    by destruct (caught_by_fallback e).
Qed.

Lemma convert_one_eq (wav_file : string) (total_saved : Z) (w : World) :
  convert_one env ffmpeg_libmp3lame wav_file total_saved w
  = let mp3_file := with_suffix wav_file ".mp3" in
    match files w !! wav_file with
    | None => (inr (Uncaught (FileNotFoundError wav_file)), w)
    | Some data =>
        match convert_wav_to_mp3 env ffmpeg_libmp3lame wav_file mp3_file w with
        | (Ok true, w2) =>
            match files w2 !! mp3_file with
            | None => (inr (Uncaught (FileNotFoundError mp3_file)), w2)
            | Some out =>
                if Z.of_nat (String.length data) =? 0
                then (inr ZeroDivisionError, w2)
                else
                  match files w2 !! wav_file with
                  | Some _ =>
                      (inl (total_saved
                            + (Z.of_nat (String.length data)
                               - Z.of_nat (String.length out))),
                       without_file wav_file w2)
                  | None => (inr (Uncaught (FileNotFoundError wav_file)), w2)
                  end
            end
        | (Ok false, w2) => (inl total_saved, w2)
        | (Raise e, w2) => (inr (Uncaught e), w2)
        end
    end.
Proof.
  unfold convert_one. cbn zeta.
  unfold cbind at 1. unfold run at 1. unfold st_size at 1.
  unfold bind, read_file, ret.
  destruct (files w !! wav_file) as [data|]; [|done].
  unfold cbind at 1. unfold run at 1.
  destruct (convert_wav_to_mp3 _ _ _ _ w) as [[[|]|e] w2]; [|done..].
  unfold cbind at 1. unfold run at 1. unfold st_size at 1.
  unfold bind, read_file, ret.
  destruct (files w2 !! with_suffix wav_file ".mp3") as [out|]; [|done].
  unfold cbind at 1.
  destruct (Z.of_nat (String.length data) =? 0); [done|].
  unfold cret at 1. unfold cbind, run, unlink, cret.
  by destruct (files w2 !! wav_file).
Qed.

Lemma converts_refl (wav_files : list string) (w : World) :
  converts wav_files w w.
Proof. split; auto. Qed.

Lemma converts_written (wav_files : list string) (path data : string) (w : World) :
  ends_with ".mp3" path ->
  converts wav_files w (with_file path data w).
Proof.
  intros Hp. split; [done|done| | |].
  - intros q Hq _. cbn [files with_file]. apply lookup_insert_ne.
    by intros ->.
  - intros q Hq _. by apply file_exists_with_file.
  - intros q _ Hq. left. by apply file_exists_with_file.
Qed.

Lemma file_exists_without_file (path q : string) (w : World) :
  q <> path ->
  file_exists (without_file path w) q = file_exists w q.
Proof.
  intros Hq. unfold file_exists, without_file. cbn [files].
  by rewrite lookup_delete_ne.
Qed.

Lemma convert_one_converts (wav_file : string) (total_saved : Z) (w : World) :
  ends_with ".wav" wav_file ->
  converts [wav_file] w
    (snd (convert_one env ffmpeg_libmp3lame wav_file total_saved w)).
Proof.
  intros Hwav. rewrite convert_one_eq. cbn zeta.
  set (mp3_file := with_suffix wav_file ".mp3").
  assert (ends_with ".mp3" mp3_file) as Hmp3 by apply with_suffix_ends.
  destruct (files w !! wav_file) as [data|]; [|apply converts_refl].
  destruct (convert_wav_to_mp3_world wav_file mp3_file w) as [Hworld Htrue].
  destruct (convert_wav_to_mp3 env ffmpeg_libmp3lame wav_file mp3_file w)
    as [[[|]|e] w2]; cbn [fst snd] in *.
  2,3: destruct Hworld as [-> | [out ->]];
    [apply converts_refl|by apply converts_written].
  destruct (Htrue eq_refl) as [out ->].
  destruct (files (with_file mp3_file out w) !! mp3_file) as [out'|];
    [|by apply converts_written].
  destruct (_ =? 0); [by apply converts_written|].
  destruct (files (with_file mp3_file out w) !! wav_file);
    [|by apply converts_written].
  cbn [snd]. split; [done|done| | |].
  - intros q Hq Hnot. rewrite list_elem_of_singleton in Hnot.
    cbn [files without_file with_file].
    rewrite lookup_delete_ne by done.
    apply lookup_insert_ne. by intros ->.
  - intros q Hq Hnot. rewrite list_elem_of_singleton in Hnot.
    rewrite file_exists_without_file by done.
    by apply file_exists_with_file.
  - intros q ->%list_elem_of_singleton _. right. fold mp3_file.
    rewrite file_exists_without_file
      by (apply not_eq_sym; by apply wav_not_mp3).
    apply file_exists_written.
Qed.

Lemma converts_cons (wav_file : string) (rest : list string) (w w1 w' : World) :
  Forall (ends_with ".wav") rest ->
  converts [wav_file] w w1 -> converts rest w1 w' ->
  converts (wav_file :: rest) w w'.
Proof.
  intros Hrest H1 H2.
  assert (with_suffix wav_file ".mp3" ∉ rest) as Hmp3.
  { intros Hin. rewrite Forall_forall in Hrest.
    by apply (wav_not_mp3 _ _ (Hrest _ Hin) (with_suffix_ends wav_file ".mp3")). }
  split.
  - by rewrite (converts_unwritable _ _ _ H2), (converts_unwritable _ _ _ H1).
  - by rewrite (converts_calls _ _ _ H2), (converts_calls _ _ _ H1).
  - intros q Hq [Hne Hnot]%not_elem_of_cons.
    rewrite (converts_files _ _ _ H2) by done.
    apply (converts_files _ _ _ H1); [done|].
    by rewrite list_elem_of_singleton.
  - intros q Hq [Hne Hnot]%not_elem_of_cons.
    apply (converts_kept _ _ _ H2); [|done].
    apply (converts_kept _ _ _ H1); [done|].
    by rewrite list_elem_of_singleton.
  - intros q Hin Hq.
    destruct (decide (q ∈ rest)) as [Hr|Hr].
    + destruct (decide (q = wav_file)) as [->|Hne].
      * destruct (converts_removed _ _ _ H1 wav_file) as [He|He];
          [by apply list_elem_of_singleton|done| |].
        -- by apply (converts_removed _ _ _ H2).
        -- right. by apply (converts_kept _ _ _ H2).
      * apply (converts_removed _ _ _ H2); [done|].
        apply (converts_kept _ _ _ H1); [done|].
        by rewrite list_elem_of_singleton.
    + apply elem_of_cons in Hin as [->|Hin]; [|done].
      destruct (converts_removed _ _ _ H1 wav_file) as [He|He];
        [by apply list_elem_of_singleton|done| |].
      * left. by apply (converts_kept _ _ _ H2).
      * right. by apply (converts_kept _ _ _ H2).
Qed.

Lemma convert_all_converts (wav_files : list string) (total_saved : Z) (w : World) :
  Forall (ends_with ".wav") wav_files ->
  converts wav_files w
    (snd (convert_all env ffmpeg_libmp3lame wav_files total_saved w)).
Proof.
  revert total_saved w.
  induction wav_files as [|wav_file rest IH]; intros total_saved w Hall.
  - apply converts_refl.
  - apply Forall_cons in Hall as [Hwav Hrest].
    cbn [convert_all]. unfold cbind.
    pose proof (convert_one_converts wav_file total_saved w Hwav) as H1.
    destruct (convert_one env ffmpeg_libmp3lame wav_file total_saved w)
      as [[total|f] w1]; cbn [snd] in *.
    + apply (converts_cons _ _ _ w1); [done..|]. by apply IH.
    + apply (converts_cons _ _ _ w1); [done..|]. apply converts_refl.
Qed.

Lemma elem_of_rglob_wav (w : World) (q : string) :
  q ∈ rglob_wav w <-> file_exists w q = true /\ is_wav q = true.
Proof.
  unfold rglob_wav. rewrite list_elem_of_In, filter_In, <- list_elem_of_In.
  rewrite list_elem_of_fmap. unfold file_exists. split.
  - intros [[[q' data] [-> Hin]] Hwav]. cbn [fst].
    apply elem_of_map_to_list in Hin. by rewrite Hin.
  - intros [Hq Hwav]. split; [|done].
    destruct (files w !! q) as [data|] eqn:E; [|done].
    exists (q, data). split; [done|]. by apply elem_of_map_to_list.
Qed.

Lemma rglob_wav_ends (w : World) : Forall (ends_with ".wav") (rglob_wav w).
Proof.
  apply Forall_forall. intros q [_ Hwav]%elem_of_rglob_wav.
  apply andb_true_iff in Hwav as [_ Hwav]. by apply endswith_ends_with.
Qed.

Lemma main_converts (w : World) :
  converts (rglob_wav w) w (snd (main env ffmpeg_libmp3lame w)).
Proof.
  unfold main.
  pose proof (convert_all_converts (rglob_wav w) 0 w (rglob_wav_ends w)) as H.
  destruct (rglob_wav w) as [|wav_file rest]; [apply converts_refl|].
  by destruct (convert_all _ _ _ _ _) as [[total|f] w'].
Qed.

(** The converter loses no audio: after [main], however it ends, a WAV
    file under [videos/] is still there or there is a file at its MP3 path;
    every other file is still there, with its content unless its name ends
    in [.mp3]. *)
Theorem main_loses_no_audio (w : World) (q data : string) :
  let w' := snd (main env ffmpeg_libmp3lame w) in
  files w !! q = Some data ->
  if is_wav q
  then file_exists w' q = true \/ file_exists w' (with_suffix q ".mp3") = true
  else file_exists w' q = true
       /\ (~ ends_with ".mp3" q -> files w' !! q = Some data).
Proof.
  intros w' Hq. subst w'.
  pose proof (main_converts w) as H.
  assert (file_exists w q = true) as He by (unfold file_exists; by rewrite Hq).
  destruct (is_wav q) eqn:Hwav.
  - apply (converts_removed _ _ _ H); [|done].
    by apply elem_of_rglob_wav.
  - assert (q ∉ rglob_wav w) as Hnot.
    { intros [_ Hin]%elem_of_rglob_wav. by rewrite Hwav in Hin. }
    split; [by apply (converts_kept _ _ _ H)|].
    intros Hmp3. by rewrite (converts_files _ _ _ H).
Qed.

End ConverterProperties.

Lemma main_loses_no_audio_witness :
  let w' := snd (convert_existing_audio.main (demo_env true true)
                   demo_transcoder wav_world) in
  if convert_existing_audio.is_wav "videos/T/audio/talk.wav"
  then file_exists w' "videos/T/audio/talk.wav" = true
       \/ file_exists w'
            (convert_existing_audio.with_suffix "videos/T/audio/talk.wav"
               ".mp3") = true
  else file_exists w' "videos/T/audio/talk.wav" = true
       /\ (~ ends_with ".mp3" "videos/T/audio/talk.wav" ->
           files w' !! "videos/T/audio/talk.wav"
           = Some "RIFF wav data of the talk").
Proof.
  refine (main_loses_no_audio (demo_env true true) demo_transcoder wav_world
            "videos/T/audio/talk.wav" "RIFF wav data of the talk" _).
  vm_compute. reflexivity.
Defined.

Section ConverterCompletes.

Import convert_existing_audio.

Variable env : Env.
Variable ffmpeg_libmp3lame : string -> Run.

Hypothesis ffmpeg_is_installed : ffmpeg_installed env = true.

Lemma convert_one_convertible (wav_file : string) (total_saved : Z) (w : World) :
  ends_with ".wav" wav_file ->
  convertible ffmpeg_libmp3lame w wav_file ->
  exists out,
    convert_one env ffmpeg_libmp3lame wav_file total_saved w
    = (inl (total_saved + saving ffmpeg_libmp3lame w wav_file),
       without_file wav_file
         (with_file (with_suffix wav_file ".mp3") out w)).
Proof.
  intros Hwav (data & out & Hf & Hdata & Ht & Hw). exists out.
  assert (wav_file <> with_suffix wav_file ".mp3") as Hne
    by (apply wav_not_mp3; [done|apply with_suffix_ends]).
  rewrite convert_one_eq. cbn zeta. rewrite Hf.
  rewrite convert_wav_to_mp3_eq, ffmpeg_is_installed, ffmpeg_process_eq, Hf.
  rewrite (bool_decide_eq_false_2 _ Hne), Ht.
  rewrite bool_decide_eq_false_2 by done.
  cbn [files with_file]. rewrite lookup_insert_eq.
  rewrite lookup_insert_ne by done. rewrite Hf.
  unfold saving. rewrite Hf, Ht.
  destruct (Z.of_nat (String.length data) =? 0) eqn:E; [|done].
  apply Z.eqb_eq in E. by destruct data.
Qed.

Lemma convert_all_convertible (wav_files : list string) (total_saved : Z) (w : World) :
  NoDup wav_files ->
  Forall (ends_with ".wav") wav_files ->
  Forall (convertible ffmpeg_libmp3lame w) wav_files ->
  exists w',
    convert_all env ffmpeg_libmp3lame wav_files total_saved w
    = (inl (total_saved + total_saving ffmpeg_libmp3lame w wav_files), w')
    /\ Forall (fun q => files w' !! q = None) wav_files.
Proof.
  revert total_saved w.
  induction wav_files as [|wav_file rest IH];
    intros total_saved w Hnodup Hwavs Hconv.
  - exists w. cbn. by rewrite Z.add_0_r.
  - apply NoDup_cons in Hnodup as [Hnot Hnodup].
    apply Forall_cons in Hwavs as [Hwav Hwavs].
    apply Forall_cons in Hconv as [Hc Hconv].
    destruct (convert_one_convertible wav_file total_saved w Hwav Hc)
      as [out H1].
    set (w1 := without_file wav_file
                 (with_file (with_suffix wav_file ".mp3") out w)) in *.
    assert (forall q, q ∈ rest -> files w1 !! q = files w !! q) as Hsame.
    { intros q Hq. unfold w1. cbn [files without_file with_file].
      rewrite lookup_delete_ne by (by intros ->).
      apply lookup_insert_ne. apply not_eq_sym.
      rewrite Forall_forall in Hwavs.
      apply wav_not_mp3; [by apply Hwavs|apply with_suffix_ends]. }
    assert (Forall (convertible ffmpeg_libmp3lame w1) rest) as Hconv1.
    { rewrite Forall_forall in *. intros q Hq.
      destruct (Hconv q Hq) as (data & out' & Hf & Hd & Ht & Hw).
      exists data, out'. by rewrite Hsame. }
    assert (total_saving ffmpeg_libmp3lame w1 rest
            = total_saving ffmpeg_libmp3lame w rest) as Htotal.
    { clear -Hsame. induction rest as [|q rest IH]; [done|].
      cbn [total_saving foldr]. fold (total_saving ffmpeg_libmp3lame w1 rest).
      fold (total_saving ffmpeg_libmp3lame w rest).
      rewrite IH by (intros q' Hq'; apply Hsame; by right).
      unfold saving. rewrite Hsame by left. done. }
    destruct (IH (total_saved + saving ffmpeg_libmp3lame w wav_file) w1
                Hnodup Hwavs Hconv1) as (w' & Hrest & Hgone).
    exists w'. split.
    + cbn [convert_all]. unfold cbind. rewrite H1, Hrest, Htotal.
      cbn [total_saving foldr]. by rewrite Z.add_assoc.
    + apply Forall_cons. split; [|exact Hgone].
      pose proof (convert_all_converts env ffmpeg_libmp3lame rest
                    (total_saved + saving ffmpeg_libmp3lame w wav_file) w1
                    Hwavs) as Hc1.
      rewrite Hrest in Hc1. cbn [snd] in Hc1.
      rewrite (converts_files _ _ _ Hc1); [| |done].
      * unfold w1. cbn [files without_file]. apply lookup_delete_eq.
      * intros Hmp3. by apply (wav_not_mp3 wav_file wav_file).
Qed.

Lemma rglob_wav_NoDup (w : World) : NoDup (rglob_wav w).
Proof.
  unfold rglob_wav. apply NoDup_ListNoDup, List.NoDup_filter, NoDup_ListNoDup.
  apply NoDup_fst_map_to_list.
Qed.

(** The converter completes: when ffmpeg is installed and every WAV file
    under [videos/] can be converted, [main] returns, no WAV file is left
    under [videos/], and the total that it reports is the sum of the
    savings of the files. *)
Theorem conversion_completes (w : World) :
  rglob_wav w <> [] ->
  Forall (convertible ffmpeg_libmp3lame w) (rglob_wav w) ->
  exists w',
    main env ffmpeg_libmp3lame w
    = (inl (ConversionComplete
              (total_saving ffmpeg_libmp3lame w (rglob_wav w))), w')
    /\ rglob_wav w' = [].
Proof.
  intros Hne Hconv.
  destruct (convert_all_convertible (rglob_wav w) 0 w (rglob_wav_NoDup w)
              (rglob_wav_ends w) Hconv) as (w' & Hall & Hgone).
  pose proof (convert_all_converts env ffmpeg_libmp3lame (rglob_wav w) 0 w
                (rglob_wav_ends w)) as Hc.
  rewrite Hall in Hc. cbn [snd] in Hc.
  exists w'. split.
  - unfold main. destruct (rglob_wav w) as [|wav_file rest] eqn:E; [done|].
    by rewrite Hall.
  - destruct (rglob_wav w') as [|q rest] eqn:E; [done|].
    assert (q ∈ rglob_wav w') as Hq by (rewrite E; left).
    apply elem_of_rglob_wav in Hq as [Hq Hwav].
    assert (files w' !! q = None) as Hnone; [|unfold file_exists in Hq;
                                               by rewrite Hnone in Hq].
    destruct (decide (q ∈ rglob_wav w)) as [Hin|Hnot].
    + rewrite Forall_forall in Hgone. by apply Hgone.
    + assert (files w' !! q = files w !! q) as Hsame.
      { apply (converts_files _ _ _ Hc); [|done].
        intros Hmp3. apply andb_true_iff in Hwav as [_ Hwav].
        apply (wav_not_mp3 q q); [by apply endswith_ends_with|done..]. }
      rewrite Hsame. destruct (files w !! q) as [data|] eqn:Hf; [|done].
      exfalso. apply Hnot, elem_of_rglob_wav. split; [|done].
      unfold file_exists. by rewrite Hf.
Qed.

End ConverterCompletes.

Lemma conversion_completes_witness :
  exists w',
    convert_existing_audio.main (demo_env true true) demo_transcoder
      talk_world
    = (inl (convert_existing_audio.ConversionComplete
              (total_saving demo_transcoder talk_world
                 (convert_existing_audio.rglob_wav talk_world))), w')
    /\ convert_existing_audio.rglob_wav w' = [].
Proof.
  assert (convert_existing_audio.rglob_wav talk_world
          = ["videos/T/audio/talk.wav"]) as E by (vm_compute; reflexivity).
  refine (conversion_completes (demo_env true true) demo_transcoder _
            talk_world _ _).
  - reflexivity.
  - rewrite E. discriminate.
  - rewrite E. apply Forall_cons. split; [|apply Forall_nil_2].
    exists "RIFF wav data of the talk", "RIFF".
    split; [vm_compute; reflexivity|].
    split; [discriminate|].
    split; [reflexivity|].
    vm_compute. intros H. discriminate H.
Defined.

(* ===================================================================== *)
(** * A first run returns *)
(* ===================================================================== *)

Section FreshRun.

Variable env : Env.





End FreshRun.


(** A run does not return when the checkpoint file of the video holds a
    JSON value that is not an object: [load_checkpoint] returns it, the
    first assignment of [main] raises [TypeError], and [main] exits with
    status 1 after the download, before any other stage. *)
Lemma main_stops_on_foreign_checkpoint :
  main_body (demo_env true true) demo_url
    (with_file "videos/T/.checkpoint.json" "null" empty_world)
  = (Raise TypeError,
     with_file "downloads/T.mp3" "mp3 data"
       (with_call Download
          (with_file "videos/T/.checkpoint.json" "null" empty_world)))
  /\ fst (main (demo_env true true) demo_argv
            (with_file "videos/T/.checkpoint.json" "null" empty_world))
     = SysExit 1
  /\ fst (main (demo_env true true) demo_argv
            (with_file "videos/T/.checkpoint.json" "[]" empty_world))
     = SysExit 1
  /\ fst (main (demo_env true true) demo_argv
            (with_file "videos/T/.checkpoint.json" "3" empty_world))
     = SysExit 1.
Proof. repeat split; vm_compute; reflexivity. Qed.

(** The malformed segments of [generate_summary] are reached through
    [main]: a transcription file that has been saved is loaded without any
    check, and a first segment without [start] makes the run exit with
    status 1 in its fourth stage. *)
Lemma main_stops_on_malformed_transcription :
  json_load_segments (demo_env true true)
    (DemoJson.dump_segments [segment_without_start; mk_segment 5 9 "y"])
  = Some [segment_without_start; mk_segment 5 9 "y"]
  /\ fst (main_body (demo_env true true) demo_url headless_transcription_world)
     = Raise (KeyError "start")
  /\ fst (main (demo_env true true) demo_argv headless_transcription_world)
     = SysExit 1
  /\ calls (snd (main (demo_env true true) demo_argv
                   headless_transcription_world))
     = [Download; SummaryGeneration].
Proof. repeat split; vm_compute; reflexivity. Qed.

(** An exception of the run of ffmpeg that [convert_wav_to_mp3] does not
    name goes through it and through [main]. *)
Lemma convert_wav_to_mp3_propagates :
  convert_existing_audio.convert_wav_to_mp3 (demo_env true true)
    locked_transcoder "videos/T/audio/talk.wav" "videos/T/audio/talk.mp3"
    talk_world
  = (Raise PermissionError, talk_world)
  /\ convert_existing_audio.main (demo_env true true) locked_transcoder
       talk_world
     = (inr (convert_existing_audio.Uncaught PermissionError), talk_world).
Proof. split; vm_compute; reflexivity. Qed.
